(** * C Project Builder: a shallow embedding of [scripts/build.py]

    The script is a command-line front end of cmake.  It reads a JSON
    settings file, changes the working directory, runs cmake as a child
    process and prints one line of status.  Everything it does is an
    effect on the process it runs in, so the embedding is a state and
    exception monad over a record of that process: working directory,
    the [OLDPWD] environment variable, the file system, the lines
    printed and a trace of the system-level actions performed.

    The Python standard library functions the script calls and whose
    behaviour is not written in the script ([argparse], [json],
    [subprocess], [repr]) are the fields of the class [Platform]. *)

From stdpp Require Import gmap strings list fin_maps pretty.
From Stdlib Require Import ZArith Ascii.

Local Open Scope string_scope.
Local Open Scope list_scope.

(** ** Text *)

Definition slash : ascii := "/"%char.
Definition comma : ascii := ","%char.
Definition nil_str : string := EmptyString.
Definition dot : string := ".".
Definition dotdot : string := "..".

(** [str.split(sep)] for a one-character separator: the empty string
    splits into one empty field. *)
Fixpoint split_on (sep : ascii) (s : string) : list string :=
  match s with
  | EmptyString => [nil_str]
  | String c r =>
      if Ascii.eqb c sep then nil_str :: split_on sep r
      else match split_on sep r with
           | h :: t => String c h :: t
           | [] => [String c EmptyString]
           end
  end.

Definition startswith_sep (s : string) : bool :=
  match s with
  | String c _ => Ascii.eqb c slash
  | EmptyString => false
  end.

Fixpoint endswith_sep (s : string) : bool :=
  match s with
  | EmptyString => false
  | String c EmptyString => Ascii.eqb c slash
  | String _ r => endswith_sep r
  end.

(** ** [os.path] on strings (posixpath) *)

Module os_path.

(** [os.path.join(a, b)] *)
Definition join (a b : string) : string :=
  if startswith_sep b then b
  else if String.eqb a nil_str || endswith_sep a then a +:+ b
  else a +:+ "/" +:+ b.

(** the characters up to and including the last separator, reversed *)
Fixpoint drop_to_sep (l : list ascii) : list ascii :=
  match l with
  | [] => []
  | c :: r => if Ascii.eqb c slash then l else drop_to_sep r
  end.

Fixpoint lstrip_sep (l : list ascii) : list ascii :=
  match l with
  | [] => []
  | c :: r => if Ascii.eqb c slash then lstrip_sep r else l
  end.

(** [os.path.dirname(p)]: [head = p[:p.rfind('/')+1]], then the
    trailing separators of [head] are stripped unless [head] consists
    of separators only. *)
Definition dirname (p : string) : string :=
  let head := drop_to_sep (rev (String.list_ascii_of_string p)) in
  match lstrip_sep head with
  | [] => String.string_of_list_ascii (rev head)
  | stripped => String.string_of_list_ascii (rev stripped)
  end.

End os_path.

(** ** Exceptions and the monad of the script *)

Inductive exn_class :=
  | RuntimeError | FileNotFoundError | NotADirectoryError | IsADirectoryError
  | FileExistsError | OSError | KeyError | TypeError | JSONDecodeError
  | AttributeError.

Inductive exn :=
  | Error (cls : exn_class) (msg : string)
      (* an instance of a subclass of [Exception]; [str(e) = msg] *)
  | CalledProcessError (returncode : Z) (cmd : list string) (stderr : string)
  | SystemExit (code : Z).
      (* raised by argparse; not a subclass of [Exception] *)

Inductive result (A : Type) :=
  | Ok (a : A)
  | Raise (e : exn).
Arguments Ok {A} a.
Arguments Raise {A} e.

(** A computation over a state [S]: the state changes made before an
    exception is raised are kept, as in Python. *)
Definition M (S A : Type) : Type := S -> result A * S.

Definition ret {S A} (a : A) : M S A := fun s => (Ok a, s).
Definition raise {S A} (e : exn) : M S A := fun s => (Raise e, s).
Definition bind {S A B} (m : M S A) (k : A -> M S B) : M S B :=
  fun s => match m s with
           | (Ok a, s') => k a s'
           | (Raise e, s') => (Raise e, s')
           end.
Definition gets {S A} (f : S -> A) : M S A := fun s => (Ok (f s), s).
Definition modify {S} (f : S -> S) : M S unit := fun s => (Ok tt, f s).

(** [try: m  except C as e: h e], where [C] is told by [caught]. *)
Definition try_except {S A} (m : M S A) (caught : exn -> bool)
    (h : exn -> M S A) : M S A :=
  fun s => match m s with
           | (Ok a, s') => (Ok a, s')
           | (Raise e, s') => if caught e then h e s' else (Raise e, s')
           end.

(** Run a computation on the second component of a pair state. *)
Definition on_snd {X S A} (m : M S A) : M (X * S) A :=
  fun xs => match m xs.2 with (r, s') => (r, (xs.1, s')) end.

(** Run a computation on a part of the first component. *)
Definition zoom {X Y S A} (get : X -> Y) (set : Y -> X -> X)
    (m : M (Y * S) A) : M (X * S) A :=
  fun xs => match m (get xs.1, xs.2) with
            | (r, (y, s')) => (r, (set y xs.1, s'))
            end.

Declare Scope py_scope.
Delimit Scope py_scope with py.
Notation "x <- m ;; k" := (bind m (fun x => k))
  (at level 100, m at next level, right associativity) : py_scope.
Notation "m ;;; k" := (bind m (fun _ => k))
  (at level 100, right associativity) : py_scope.

Definition is_Exception (e : exn) : bool :=
  match e with
  | SystemExit _ => false
  | _ => true
  end.

Definition is_CalledProcessError (e : exn) : bool :=
  match e with
  | CalledProcessError _ _ _ => true
  | _ => false
  end.

(** ** The process: file system, working directory, output *)

Inductive node :=
  | File (content : string)
  | Dir.

(** A file system maps the absolute path of every entry, as the list of
    its components from the root, to a file or a directory.  Symbolic
    links and permissions are left out. *)
Abbreviation FS := (gmap (list string) node).

Inductive Event :=
  | EvSpawn (argv : list string) (at_cwd : list string) (returncode : Z)
  | EvChdir (to : list string)
  | EvRmtree (path : list string)
  | EvMkdir (path : list string)
  | EvWrite (path : list string).

Record World := mkWorld {
  cwd : list string;            (* os.getcwd() *)
  OLDPWD : option string;       (* os.getenv("OLDPWD") *)
  fs : FS;
  stdout : list string;         (* one entry per print() *)
  trace : list Event;           (* what the process did, oldest first *)
  Debug_enabled : bool;         (* the class attribute Debug.enabled *)
  module_file : string;         (* __file__ *)
  sys_argv : list string;       (* sys.argv[1:] *)
}.

Definition set_cwd (d : list string) (w : World) : World :=
  mkWorld d (OLDPWD w) (fs w) (stdout w) (trace w) (Debug_enabled w)
    (module_file w) (sys_argv w).
Definition set_fs (f : FS) (w : World) : World :=
  mkWorld (cwd w) (OLDPWD w) f (stdout w) (trace w) (Debug_enabled w)
    (module_file w) (sys_argv w).
Definition set_stdout (o : list string) (w : World) : World :=
  mkWorld (cwd w) (OLDPWD w) (fs w) o (trace w) (Debug_enabled w)
    (module_file w) (sys_argv w).
Definition set_trace (t : list Event) (w : World) : World :=
  mkWorld (cwd w) (OLDPWD w) (fs w) (stdout w) t (Debug_enabled w)
    (module_file w) (sys_argv w).
Definition set_Debug_enabled (b : bool) (w : World) : World :=
  mkWorld (cwd w) (OLDPWD w) (fs w) (stdout w) (trace w) b
    (module_file w) (sys_argv w).

Definition print (line : string) : M World unit :=
  modify (fun w => set_stdout (stdout w ++ [line]) w).

(** ** Path resolution, as the kernel does it *)

Definition parent (p : list string) : list string := removelast p.

(** Follow the components of a path from [cur].  Every component is
    looked up in [cur], which must be a directory: an empty component
    (a doubled or a trailing separator) and [.] stay there, [..] goes
    to the parent, a name goes down.  The entry the last name leads to
    need not exist. *)
Fixpoint walk (f : FS) (cur : list string) (cs : list string)
    : option (list string) :=
  match cs with
  | [] => Some cur
  | c :: cs' =>
      match f !! cur with
      | Some Dir =>
          if String.eqb c nil_str || String.eqb c dot then walk f cur cs'
          else if String.eqb c dotdot then walk f (parent cur) cs'
          else walk f (cur ++ [c]) cs'
      | _ => None
      end
  end.

Inductive errno := ENOENT | ENOTDIR.

(** Why [walk] fails: it met a regular file where it needed a
    directory, or nothing at all. *)
Fixpoint walk_errno (f : FS) (cur : list string) (cs : list string) : errno :=
  match cs with
  | [] => ENOENT
  | c :: cs' =>
      match f !! cur with
      | Some Dir =>
          if String.eqb c nil_str || String.eqb c dot then walk_errno f cur cs'
          else if String.eqb c dotdot then walk_errno f (parent cur) cs'
          else walk_errno f (cur ++ [c]) cs'
      | Some (File _) => ENOTDIR
      | None => ENOENT
      end
  end.

(** The components of a path without the empty ones at its end: the
    kernel accepts [mkdir("build/")] for a directory yet to be made. *)
Fixpoint drop_trailing_blank (cs : list string) : list string :=
  match cs with
  | [] => []
  | c :: r =>
      match drop_trailing_blank r with
      | [] => if String.eqb c nil_str then [] else [c]
      | r' => c :: r'
      end
  end.

Definition start_of (w : World) (p : string) : list string :=
  if startswith_sep p then [] else cwd w.

(** The empty path names nothing ([ENOENT]). *)
Definition resolve (w : World) (p : string) : option (list string) :=
  if String.eqb p nil_str then None
  else walk (fs w) (if startswith_sep p then [] else cwd w) (split_on slash p).

Definition resolve_errno (w : World) (p : string) : errno :=
  if String.eqb p nil_str then ENOENT
  else walk_errno (fs w) (start_of w p) (split_on slash p).

(** Resolution for an entry that is to be made. *)
Definition resolve_new (w : World) (p : string) : option (list string) :=
  if String.eqb p nil_str then None
  else walk (fs w) (start_of w p) (drop_trailing_blank (split_on slash p)).

Definition resolve_new_errno (w : World) (p : string) : errno :=
  if String.eqb p nil_str then ENOENT
  else walk_errno (fs w) (start_of w p)
         (drop_trailing_blank (split_on slash p)).

Definition quoted (p : string) : string := "'" +:+ p +:+ "'".

Definition errno_msg (what p : string) : string :=
  what +:+ ": " +:+ quoted p.

Definition errno_class (e : errno) : exn_class :=
  match e with
  | ENOENT => FileNotFoundError
  | ENOTDIR => NotADirectoryError
  end.

Definition errno_text (e : errno) : string :=
  match e with
  | ENOENT => "[Errno 2] No such file or directory"
  | ENOTDIR => "[Errno 20] Not a directory"
  end.

(** The [OSError] Python raises for an error number and a path. *)
Definition os_error (e : errno) (p : string) : exn :=
  Error (errno_class e) (errno_msg (errno_text e) p).

(** A component that names an entry. *)
Definition is_name (c : string) : bool :=
  negb (String.eqb c nil_str) && negb (String.eqb c dot)
  && negb (String.eqb c dotdot).

(** The last component of a path that is not empty, if there is one. *)
Definition last_component (p : string) : option string :=
  last (filter (fun c => c ≠ nil_str) (split_on slash p)).

(** The path ends in a name, after which only separators may follow:
    an entry can be made there. *)
Definition names_entry (p : string) : bool :=
  match last_component p with
  | Some c => is_name c
  | None => false
  end.

(** The path ends in a separator. *)
Definition trailing_sep (p : string) : bool :=
  bool_decide (last (split_on slash p) = Some nil_str).

Module os.

(** [os.path.exists(p)] *)
Definition exists_in (w : World) (p : string) : bool :=
  match resolve w p with
  | Some q => bool_decide (is_Some (fs w !! q))
  | None => false
  end.

Definition path_exists (p : string) : M World bool :=
  gets (fun w => exists_in w p).

(** [os.chdir(p)]; [p] is [None] when the script passes the value of
    an unset environment variable. *)
Definition chdir (p : option string) : M World unit :=
  match p with
  | None =>
      raise (Error TypeError
        "chdir: path should be string, bytes, os.PathLike or integer, not NoneType")
  | Some p =>
      fun w =>
        match resolve w p with
        | Some q =>
            match fs w !! q with
            | Some Dir =>
                (Ok tt, set_trace (trace w ++ [EvChdir q]) (set_cwd q w))
            | Some (File _) => (Raise (os_error ENOTDIR p), w)
            | None => (Raise (os_error ENOENT p), w)
            end
        | None => (Raise (os_error (resolve_errno w p) p), w)
        end
  end.

Definition getenv_OLDPWD : M World (option string) := gets OLDPWD.

(** [os.mkdir(p)]: an entry is made under a name; [.], [..] and the
    root are there already. *)
Definition mkdir (p : string) : M World unit :=
  fun w =>
    match resolve_new w p with
    | Some q =>
        match fs w !! q with
        | None =>
            if names_entry p
            then (Ok tt, set_trace (trace w ++ [EvMkdir q])
                           (set_fs (<[q := Dir]> (fs w)) w))
            else (Raise (Error FileExistsError
                           (errno_msg "[Errno 17] File exists" p)), w)
        | Some _ =>
            (Raise (Error FileExistsError
                      (errno_msg "[Errno 17] File exists" p)), w)
        end
    | None => (Raise (os_error (resolve_new_errno w p) p), w)
    end.

End os.

Definition below (q : list string) (kv : list string * node) : Prop :=
  q `prefix_of` kv.1 ∧ kv.1 ≠ q.

#[global] Instance below_dec q kv : Decision (below q kv).
Proof. unfold below. apply _. Defined.

(** Everything strictly below [q] removed. *)
Definition emptied (q : list string) (f : FS) : FS :=
  filter (fun kv => ¬ below q kv) f.

(** [os.rmdir(p)]: the kernel refuses a path that ends in [.] or [..],
    the root, and a directory that is not empty. *)
Definition rmdir (p : string) : M World unit :=
  fun w =>
    match resolve w p with
    | Some q =>
        if bool_decide (last_component p = Some dot)
        then (Raise (Error OSError
                       (errno_msg "[Errno 22] Invalid argument" p)), w)
        else if bool_decide (last_component p = Some dotdot)
        then (Raise (Error OSError
                       (errno_msg "[Errno 39] Directory not empty" p)), w)
        else
          match fs w !! q with
          | Some Dir =>
              if bool_decide (q = [])
              then (Raise (Error OSError
                             (errno_msg "[Errno 16] Device or resource busy"
                                p)), w)
              else if bool_decide (filter (below q) (fs w) = ∅)
              then (Ok tt, set_fs (delete q (fs w)) w)
              else (Raise (Error OSError
                             (errno_msg "[Errno 39] Directory not empty" p)),
                    w)
          | Some (File _) => (Raise (os_error ENOTDIR p), w)
          | None => (Raise (os_error ENOENT p), w)
          end
    | None => (Raise (os_error (resolve_errno w p) p), w)
    end.

Module shutil.

(** [shutil.rmtree(p)]: the path is looked up, the content of the
    directory is removed, and the directory itself last, with
    [os.rmdir(p)], which looks the path up again. *)
Definition rmtree (p : string) : M World unit :=
  fun w =>
    match resolve w p with
    | Some q =>
        match fs w !! q with
        | Some Dir =>
            rmdir p (set_trace (trace w ++ [EvRmtree q])
                       (set_fs (emptied q (fs w)) w))
        | Some (File _) => (Raise (os_error ENOTDIR p), w)
        | None => (Raise (os_error ENOENT p), w)
        end
    | None => (Raise (os_error (resolve_errno w p) p), w)
    end.

End shutil.

(** [with open(p) as f: f.read()] *)
Definition read_file (p : string) : M World string :=
  fun w =>
    match resolve w p with
    | Some q =>
        match fs w !! q with
        | Some (File c) => (Ok c, w)
        | Some Dir =>
            (Raise (Error IsADirectoryError
                      (errno_msg "[Errno 21] Is a directory" p)), w)
        | None => (Raise (os_error ENOENT p), w)
        end
    | None => (Raise (os_error (resolve_errno w p) p), w)
    end.

(** [with open(p, mode="w") as f: f.write(text)]: the file is made
    when it is not there; a path that ends in a separator, in [.] or in
    [..] cannot name a file to write. *)
Definition write_file (p : string) (text : string) : M World unit :=
  fun w =>
    match resolve_new w p with
    | Some q =>
        if trailing_sep p
        then (Raise (Error IsADirectoryError
                       (errno_msg "[Errno 21] Is a directory" p)), w)
        else
          match fs w !! q with
          | Some Dir =>
              (Raise (Error IsADirectoryError
                        (errno_msg "[Errno 21] Is a directory" p)), w)
          | Some (File _) =>
              (Ok tt, set_trace (trace w ++ [EvWrite q])
                        (set_fs (<[q := File text]> (fs w)) w))
          | None =>
              if names_entry p
              then (Ok tt, set_trace (trace w ++ [EvWrite q])
                             (set_fs (<[q := File text]> (fs w)) w))
              else (Raise (os_error ENOENT p), w)
          end
    | None => (Raise (os_error (resolve_new_errno w p) p), w)
    end.

(** ** JSON values, as Python objects *)

#[local] Unset Elimination Schemes.
Inductive json :=
  | JNull
  | JBool (b : bool)
  | JNum (lexeme : string)
  | JStr (s : string)
  | JArr (items : list json)
  | JObj (members : list (string * json)).   (* a dict, in insertion order *)
#[local] Set Elimination Schemes.

Fixpoint assoc (k : string) (l : list (string * json)) : option json :=
  match l with
  | [] => None
  | (k', v) :: r => if String.eqb k k' then Some v else assoc k r
  end.

(** A number of a JSON text is a [float] when it has a fraction or an
    exponent, or is one of [NaN], [Infinity] and [-Infinity]; otherwise
    it is an [int]. *)
Definition is_float_lexeme (lexeme : string) : bool :=
  existsb (fun c => bool_decide (c ∈ ["."; "e"; "E"; "N"; "I"]%char))
    (String.list_ascii_of_string lexeme).

(** [type(v).__name__] *)
Definition type_name (v : json) : string :=
  match v with
  | JNull => "NoneType"
  | JBool _ => "bool"
  | JNum lexeme => if is_float_lexeme lexeme then "float" else "int"
  | JStr _ => "str"
  | JArr _ => "list"
  | JObj _ => "dict"
  end.

(** The message of the [TypeError] of [obj[key]], for a string key and
    an object that is not a dict. *)
Definition subscript_error (obj : json) : string :=
  match obj with
  | JArr _ => "list indices must be integers or slices, not str"
  | JStr _ => "string indices must be integers, not 'str'"
  | _ => quoted (type_name obj) +:+ " object is not subscriptable"
  end.

(** [obj[key]] for a string key *)
Definition subscript {S} (obj : json) (key : string) : M S json :=
  match obj with
  | JObj members =>
      match assoc key members with
      | Some v => ret v
      | None => raise (Error KeyError (quoted key))
      end
  | _ => raise (Error TypeError (subscript_error obj))
  end.

(** [os.fspath(v)], which [os.path.join] applies to its first
    argument. *)
Definition fspath {S} (v : json) : M S string :=
  match v with
  | JStr s => ret s
  | _ =>
      raise (Error TypeError
               ("expected str, bytes or os.PathLike object, not "
                +:+ type_name v))
  end.

(** What [os.path.join] makes of a later argument: the [TypeError] of
    [os.fspath] is replaced by one of its own. *)
Definition join_argument {S} (v : json) : M S string :=
  match v with
  | JStr s => ret s
  | _ =>
      raise (Error TypeError
               ("join() argument must be str, bytes, or os.PathLike object, not "
                +:+ quoted (type_name v)))
  end.

(** ** What the script asks of the Python library *)

(** The namespace [parse_args] returns for the arguments the script
    defines. *)
Record Namespace := mkNamespace {
  target : string;
  configure : bool;
  build : bool;
  verbose : bool;
  type : string;
  clean : bool;
  cmake_args : string;
  create_settings : bool;
  debug : bool;
}.

(** One call of [ArgumentParser.add_argument]. *)
Record add_argument := mkAdd {
  flags : list string;
  nargs : option string;
  default : option string;
  help : string;
  store_true : bool;
}.

Inductive parse_outcome :=
  | Parsed (ns : Namespace)
  | ParseExit (printed : list string) (code : Z).
      (* usage or help written, then SystemExit *)

Inductive spawn_outcome :=
  | Exited (returncode : Z) (after : FS) (stderr : string)
  | NotStarted (cls : exn_class) (msg : string).
      (* the program could not be executed: no such file, and the like *)

Class Platform := {
  (* ArgumentParser.parse_args for a parser built by the given calls *)
  parse_args : list add_argument -> list string -> parse_outcome;
  (* json.load: the value, or the message of the JSONDecodeError *)
  json_load : string -> json + string;
  (* the text json.dump(obj, f, indent=2) writes *)
  json_dump_indent2 : json -> string;
  (* a child process: argument vector, working directory, file system *)
  execve : list string -> list string -> FS -> spawn_outcome;
  (* repr of a str and of a bytes object *)
  repr : string -> string;
  repr_bytes : string -> string;
  (* str of a CalledProcessError *)
  str_CalledProcessError : Z -> list string -> string;
}.

Record CompletedProcess := mkCompleted {
  args : list string;
  returncode : Z;
}.

Definition exn_returncode (e : exn) : Z :=
  match e with
  | CalledProcessError rc _ _ => rc
  | _ => 0%Z
  end.

Definition exn_stderr (e : exn) : string :=
  match e with
  | CalledProcessError _ _ err => err
  | _ => nil_str
  end.

Definition str_bool (b : bool) : string := if b then "True" else "False".

Fixpoint join_with (sep : string) (l : list string) : string :=
  match l with
  | [] => nil_str
  | [x] => x
  | x :: r => x +:+ sep +:+ join_with sep r
  end.

(** ** The script *)

Definition MY_NAME : string := "C Project Builder".

Section Script.
Context `{Platform}.

Local Open Scope py_scope.

(** [f"{l}"] for a list of strings *)
Definition str_list (l : list string) : string :=
  "[" +:+ join_with ", " (map repr l) +:+ "]".

Definition str_exn (e : exn) : string :=
  match e with
  | Error _ msg => msg
  | CalledProcessError rc cmd _ => str_CalledProcessError rc cmd
  | SystemExit code => pretty code
  end.

(** [subprocess.run(args, shell=.., check=.., capture_output=..)] on a
    POSIX system: with [shell=True] the program executed is [/bin/sh]
    and the list follows its [-c] option. *)
Definition subprocess_run (args : list string)
    (shell check capture_output : bool) : M World CompletedProcess :=
  fun w =>
    let argv := if shell then "/bin/sh" :: "-c" :: args else args in
    match execve argv (cwd w) (fs w) with
    | NotStarted cls msg => (Raise (Error cls msg), w)
    | Exited rc after err =>
        let w' := set_trace (trace w ++ [EvSpawn argv (cwd w) rc])
                    (set_fs after w) in
        if check && negb (rc =? 0)%Z
        then (Raise (CalledProcessError rc args
                       (if capture_output then err else nil_str)), w')
        else (Ok (mkCompleted args rc), w')
    end.

End Script.

Module Debug.

Definition Print (message : string) : M World unit :=
  fun w =>
    if Debug_enabled w then print ("[DEBUG]" +:+ message) w
    else (Ok tt, w).

End Debug.

Module SubProcessWrapper.
Section Defs.
Context `{Platform}.
Local Open Scope py_scope.

Definition Run (args : list string) : M World CompletedProcess :=
  subprocess_run args false true false.

Definition RunSimply (args : list string) : M World Z :=
  try_except
    (cp <- subprocess_run args false true false ;; ret (returncode cp))
    is_CalledProcessError
    (fun e => ret (exn_returncode e)).

Definition RunWithoutOutput (args : list string) : M World Z :=
  try_except
    (Debug.Print ("run command: " +:+ str_list args) ;;;
     cp <- subprocess_run args true true true ;;
     ret (returncode cp))
    is_CalledProcessError
    (fun e =>
       Debug.Print ("error " +:+ pretty (exn_returncode e) +:+ ": "
                    +:+ repr_bytes (exn_stderr e)) ;;;
       ret (exn_returncode e)).

End Defs.
End SubProcessWrapper.

Module Application.

Record Option := mkOption {
  short : option string;
  long : string;
  help : string;
  needArgument : bool;
  default : option string;
}.

Record PositionalArgument := mkPositional {
  name : string;
  arg_help : string;
  required : bool;
  arg_default : option string;
}.

Definition add_positional (arg : PositionalArgument) : add_argument :=
  mkAdd [name arg] (if required arg then None else Some "?")
    (arg_default arg) (arg_help arg) false.

Definition add_option (opt : Option) : add_argument :=
  match short opt with
  | None =>
      if needArgument opt
      then mkAdd ["--" +:+ long opt] None (default opt) (help opt) false
      else mkAdd ["--" +:+ long opt] None None (help opt) true
  | Some s =>
      if needArgument opt
      then mkAdd ["-" +:+ s; "--" +:+ long opt] None (default opt)
             (help opt) false
      else mkAdd ["-" +:+ s; "--" +:+ long opt] None None (help opt) true
  end.

(** The parser, as the list of its [add_argument] calls. *)
Definition DefineArguments (arguments : list PositionalArgument)
    (options : list Option) : list add_argument :=
  map add_positional arguments ++ map add_option options.

Section Defs.
Context `{Platform}.

Definition GetArguments (parser : list add_argument) : M World Namespace :=
  fun w =>
    match parse_args parser (sys_argv w) with
    | Parsed ns => (Ok ns, w)
    | ParseExit printed code =>
        (Raise (SystemExit code), set_stdout (stdout w ++ printed) w)
    end.

End Defs.
End Application.

Module BuildSetting.

Definition FILE_NAME : string := "buildsettings.json".

Module Name.
Definition BUILD_DIR : string := "BuildDirectory".
Definition PROJECT_HOME : string := "ProjectHome".
End Name.

(** The fields hold whatever the settings file gives for the keys. *)
Record Values := mkValues {
  buildDirectory : json;
  projectHome : json;
}.

Record t := mk {
  values : Values;
  __path : string;
}.

Definition set_projectHome (v : json) (self : t) : t :=
  mk (mkValues (buildDirectory (values self)) v) (__path self).
Definition set_buildDirectory (v : json) (self : t) : t :=
  mk (mkValues v (projectHome (values self))) (__path self).

Definition __init__ (directory : string) : t :=
  mk (mkValues (JStr nil_str) (JStr nil_str))
     (os_path.join directory FILE_NAME).

Definition __TEMPLATE : json :=
  JObj [(Name.PROJECT_HOME, JStr "."); (Name.BUILD_DIR, JStr "build")].

Section Defs.
Context `{Platform}.
Local Open Scope py_scope.

Definition __import : M (t * World) json :=
  self <- gets fst ;;
  text <- on_snd (read_file (__path self)) ;;
  match json_load text with
  | inl v => ret v
  | inr msg => raise (Error JSONDecodeError msg)
  end.

Definition Load : M (t * World) unit :=
  self <- gets fst ;;
  found <- on_snd (os.path_exists (__path self)) ;;
  if negb found
  then raise (Error RuntimeError (FILE_NAME +:+ " does not exist."))
  else
    jsonObject <- __import ;;
    v <- subscript jsonObject Name.PROJECT_HOME ;;
    modify (fun s => (set_projectHome v s.1, s.2)) ;;;
    v <- subscript jsonObject Name.BUILD_DIR ;;
    modify (fun s => (set_buildDirectory v s.1, s.2)).

Definition Create : M (t * World) unit :=
  self <- gets fst ;;
  found <- on_snd (os.path_exists (__path self)) ;;
  if found then ret tt
  else on_snd (write_file (__path self) (json_dump_indent2 __TEMPLATE)).

End Defs.
End BuildSetting.

Module Cmake.

Definition CMAKE : string := "cmake".

Record t := mk {
  __projectHome : string;
  __buildDirectory : string;
}.

Section Defs.
Context `{Platform}.
Local Open Scope py_scope.

Definition __init__ (projectHome buildDirectory : string) : M World t :=
  found <- os.path_exists projectHome ;;
  if negb found
  then raise (Error FileNotFoundError
                ("ProjectHome does not exist. " +:+ quoted projectHome))
  else
    found <- os.path_exists (os_path.dirname buildDirectory) ;;
    if negb found
    then raise (Error FileNotFoundError
                  ("BuildDirectory does not exist. " +:+ quoted buildDirectory))
    else ret (mk projectHome buildDirectory).

Definition __Enter (self : t) : M World unit :=
  os.chdir (Some (__projectHome self)).

Definition __Exit (self : t) : M World unit :=
  old <- os.getenv_OLDPWD ;;
  os.chdir old.

Definition Configure (self : t) : M World bool :=
  let command :=
    [CMAKE; "-S"; __projectHome self; "-B"; __buildDirectory self] in
  Debug.Print ("command: " +:+ str_list command) ;;;
  __Enter self ;;;
  rc <- SubProcessWrapper.RunSimply command ;;
  if (rc =? 0)%Z then ret true
  else
    __Exit self ;;;
    ret false.

Definition Build_command (self : t) (target : string)
    (buildType : option string) (enableVerbose : bool)
    (cmakeArgs : option (list string)) : list string :=
  let command := [CMAKE; "--build"; __buildDirectory self; "--target"; target] in
  let command :=
    match buildType with
    | Some bt => if negb (String.eqb bt nil_str)
                 then (command ++ ["--config"; bt])%list else command
    | None => command
    end in
  let command := if enableVerbose then (command ++ ["-v"])%list else command in
  match cmakeArgs with
  | Some a =>
      if negb (bool_decide (a = [])) && negb (bool_decide (a = [nil_str]))
      then (command ++ a)%list else command
  | None => command
  end.

Definition Build (self : t) (target : string) (buildType : option string)
    (enableVerbose : bool) (cmakeArgs : option (list string)) : M World bool :=
  let command := Build_command self target buildType enableVerbose cmakeArgs in
  Debug.Print ("command: " +:+ str_list command) ;;;
  __Enter self ;;;
  rc <- SubProcessWrapper.RunSimply command ;;
  if (rc =? 0)%Z then
    __Exit self ;;;
    ret true
  else
    __Exit self ;;;
    ret false.

Definition Cleanup (self : t) : M World unit :=
  shutil.rmtree (__buildDirectory self) ;;;
  os.mkdir (__buildDirectory self).

End Defs.
End Cmake.

Module ProjectBuilder.

Record Controls := mkControls {
  doConfiguration : bool;
  doBuild : bool;
  doCleanup : bool;
  createSetting : bool;
  isDebug : bool;
}.

Record t := mk {
  __system : list add_argument;
  __controls : Controls;
  response : string;
  __arguments : option Namespace;     (* unset until Setup *)
  __setting : BuildSetting.t;
}.

Definition set_controls (c : Controls) (self : t) : t :=
  mk (__system self) c (response self) (__arguments self) (__setting self).
Definition set_response (r : string) (self : t) : t :=
  mk (__system self) (__controls self) r (__arguments self) (__setting self).
Definition set_arguments (a : Namespace) (self : t) : t :=
  mk (__system self) (__controls self) (response self) (Some a)
    (__setting self).
Definition set_setting (b : BuildSetting.t) (self : t) : t :=
  mk (__system self) (__controls self) (response self) (__arguments self) b.

Definition __ArgumentDefinitions : list Application.PositionalArgument :=
  [Application.mkPositional "target" "Build target name." false (Some "all")].

Definition __OptionDefinitions : list Application.Option :=
  [Application.mkOption (Some "c") "configure" "Only configure cmake."
     false None;
   Application.mkOption (Some "b") "build" "Only build." false None;
   Application.mkOption (Some "v") "verbose"
     "Enable verbose output for cmake." false None;
   Application.mkOption (Some "t") "type" "Specify build type. e.g. -t=Debug"
     true (Some nil_str);
   Application.mkOption None "clean" "Cleanup the repository." false None;
   Application.mkOption None "cmake-args"
     "Arguments passed to cmake. e.g. --cmake-args=arg1,arg2..."
     true (Some nil_str);
   Application.mkOption None "create-settings"
     ("Create " +:+ quoted BuildSetting.FILE_NAME) false None;
   Application.mkOption None "debug" "Output debug messages." false None].

Definition __init__ (file : string) : t :=
  mk (Application.DefineArguments __ArgumentDefinitions __OptionDefinitions)
     (mkControls true true false false false)
     nil_str
     None
     (BuildSetting.__init__ (os_path.dirname file)).

(** the body of [__verifyControls], on the controls *)
Definition verified (c : Controls) : Controls :=
  if negb (doConfiguration c) && negb (doBuild c)
  then mkControls true true (doCleanup c) (createSetting c) (isDebug c)
  else c.

Section Defs.
Context `{Platform}.
Local Open Scope py_scope.

Definition arguments : M (t * World) Namespace :=
  self <- gets fst ;;
  match __arguments self with
  | Some a => ret a
  | None =>
      raise (Error AttributeError
        "'ProjectBuilder' object has no attribute '_ProjectBuilder__arguments'")
  end.

Definition __PrintArgument : M (t * World) unit :=
  a <- arguments ;;
  on_snd (
    Debug.Print ("target: " +:+ target a) ;;;
    Debug.Print "options:" ;;;
    Debug.Print ("  configure: " +:+ str_bool (configure a)) ;;;
    Debug.Print ("  build: " +:+ str_bool (build a)) ;;;
    Debug.Print ("  verbose: " +:+ str_bool (verbose a)) ;;;
    Debug.Print ("  type: " +:+ type a) ;;;
    Debug.Print ("  clean: " +:+ str_bool (clean a)) ;;;
    Debug.Print ("  cmake-args: " +:+ cmake_args a) ;;;
    Debug.Print ("  create-settings: " +:+ str_bool (create_settings a)) ;;;
    Debug.Print ("  debug: " +:+ str_bool (debug a))).

Definition __verifyControls : M (t * World) unit :=
  modify (fun s => (set_controls (verified (__controls s.1)) s.1, s.2)).

Definition Setup : M (t * World) unit :=
  self <- gets fst ;;
  a <- on_snd (Application.GetArguments (__system self)) ;;
  modify (fun s => (set_arguments a s.1, s.2)) ;;;
  modify (fun s =>
    (set_controls
       (mkControls (configure a) (build a) (clean a) (create_settings a)
          (debug a)) s.1, s.2)) ;;;
  on_snd (modify (set_Debug_enabled (debug a))) ;;;
  __PrintArgument ;;;
  __verifyControls.

(** The statements of [Run] that follow the construction of [cmake]. *)
Definition Run_lifecycle (cmake : Cmake.t) : M (t * World) unit :=
  self <- gets fst ;;
  if doCleanup (__controls self) then
    on_snd (Cmake.Cleanup cmake) ;;;
    modify (fun s =>
      (set_response "Cleaned up project repository." s.1, s.2))
  else
    configured <-
      (if doConfiguration (__controls self)
       then on_snd (Cmake.Configure cmake)
       else ret true) ;;
    if negb configured then ret tt
    else if doBuild (__controls self) then
      a <- arguments ;;
      _ <- on_snd (Cmake.Build cmake (target a) (Some (type a))
                     (verbose a) (Some (split_on comma (cmake_args a)))) ;;
      ret tt
    else ret tt.

Definition Run : M (t * World) unit :=
  self <- gets fst ;;
  if createSetting (__controls self) then
    zoom __setting set_setting BuildSetting.Create ;;;
    modify (fun s =>
      (set_response
         ("Successfully created " +:+ quoted BuildSetting.FILE_NAME) s.1,
       s.2))
  else
    zoom __setting set_setting BuildSetting.Load ;;;
    self <- gets fst ;;
    let v := BuildSetting.values (__setting self) in
    home <- fspath (BuildSetting.projectHome v) ;;
    dir <- join_argument (BuildSetting.buildDirectory v) ;;
    cmake <- on_snd (Cmake.__init__ home (os_path.join home dir)) ;;
    Run_lifecycle cmake.

End Defs.
End ProjectBuilder.

Section Main.
Context `{Platform}.
Local Open Scope py_scope.

(** The [try] statement of [main]. *)
Definition main_try : M (ProjectBuilder.t * World) unit :=
  try_except
    (ProjectBuilder.Setup ;;;
     ProjectBuilder.Run ;;;
     app <- gets fst ;;
     if negb (String.eqb (ProjectBuilder.response app) nil_str)
     then on_snd (print (ProjectBuilder.response app))
     else ret tt)
    is_Exception
    (fun e => on_snd (print (MY_NAME +:+ ": " +:+ str_exn e))).

Definition main : M World unit :=
  fun w =>
    match main_try (ProjectBuilder.__init__ (module_file w), w) with
    | (r, (_, w')) => (r, w')
    end.

End Main.

(** ** A stub platform and sample processes

    A cmake that does nothing and exits with a chosen code, a parser
    for the flags written in full, and a JSON codec for objects whose
    values are strings.  The examples below run the script on it. *)

Definition dq : string := String (ascii_of_nat 34) EmptyString.
Definition nl : string := String (ascii_of_nat 10) EmptyString.

Definition stub_member (kv : string * json) : string :=
  "  " +:+ dq +:+ kv.1 +:+ dq +:+ ": " +:+
  match kv.2 with
  | JStr s => dq +:+ s +:+ dq
  | _ => "null"
  end.

Definition stub_json_dump (v : json) : string :=
  match v with
  | JObj members =>
      "{" +:+ nl +:+ join_with ("," +:+ nl) (map stub_member members)
      +:+ nl +:+ "}"
  | _ => "null"
  end.

Definition settings_proj : json :=
  JObj [("ProjectHome", JStr "/proj"); ("BuildDirectory", JStr "build")].
Definition settings_home_only : json :=
  JObj [("ProjectHome", JStr "/proj")].
Definition settings_dir_only : json :=
  JObj [("BuildDirectory", JStr "build")].

Definition stub_documents : list json :=
  [BuildSetting.__TEMPLATE; settings_proj; settings_home_only;
   settings_dir_only].

Definition stub_json_load (text : string) : json + string :=
  match find (fun v => String.eqb (stub_json_dump v) text) stub_documents with
  | Some v => inl v
  | None => inr "Expecting value: line 1 column 1 (char 0)"
  end.

Definition no_flags : Namespace :=
  mkNamespace "all" false false false nil_str false nil_str false false.

Definition is_one_of (a : string) (l : list string) : bool :=
  existsb (String.eqb a) l.

Fixpoint stub_parse (argv : list string) (ns : Namespace) : parse_outcome :=
  match argv with
  | [] => Parsed ns
  | a :: r =>
      if is_one_of a ["-c"; "--configure"] then
        stub_parse r (mkNamespace (target ns) true (build ns) (verbose ns)
          (type ns) (clean ns) (cmake_args ns) (create_settings ns) (debug ns))
      else if is_one_of a ["-b"; "--build"] then
        stub_parse r (mkNamespace (target ns) (configure ns) true (verbose ns)
          (type ns) (clean ns) (cmake_args ns) (create_settings ns) (debug ns))
      else if is_one_of a ["-v"; "--verbose"] then
        stub_parse r (mkNamespace (target ns) (configure ns) (build ns) true
          (type ns) (clean ns) (cmake_args ns) (create_settings ns) (debug ns))
      else if is_one_of a ["--clean"] then
        stub_parse r (mkNamespace (target ns) (configure ns) (build ns)
          (verbose ns) (type ns) true (cmake_args ns) (create_settings ns)
          (debug ns))
      else if is_one_of a ["--create-settings"] then
        stub_parse r (mkNamespace (target ns) (configure ns) (build ns)
          (verbose ns) (type ns) (clean ns) (cmake_args ns) true (debug ns))
      else if is_one_of a ["--debug"] then
        stub_parse r (mkNamespace (target ns) (configure ns) (build ns)
          (verbose ns) (type ns) (clean ns) (cmake_args ns)
          (create_settings ns) true)
      else if String.prefix "-" a then ParseExit [] 2
      else
        stub_parse r (mkNamespace a (configure ns) (build ns) (verbose ns)
          (type ns) (clean ns) (cmake_args ns) (create_settings ns) (debug ns))
  end.

Definition second_is (x : string) (argv : list string) : bool :=
  match argv with
  | _ :: y :: _ => String.eqb x y
  | _ => false
  end.

Definition first_is (x : string) (argv : list string) : bool :=
  match argv with
  | y :: _ => String.eqb x y
  | _ => false
  end.

Definition third_is (x : string) (argv : list string) : bool :=
  match argv with
  | _ :: _ :: y :: _ => String.eqb x y
  | _ => false
  end.

(** A machine where [cmake] exits with the given codes, the shell knows
    [exit 3] and finds no other command, and no other program can be
    started. *)
Definition stub_execve (configure_rc build_rc : Z) (argv : list string)
    (dir : list string) (f : FS) : spawn_outcome :=
  if first_is "cmake" argv && second_is "-S" argv
  then Exited configure_rc f nil_str
  else if first_is "cmake" argv && second_is "--build" argv
  then Exited build_rc f nil_str
  else if first_is "/bin/sh" argv && second_is "-c" argv
  then if third_is "exit 3" argv then Exited 3 f nil_str
       else Exited 127 f "/bin/sh: 1: not found"
  else NotStarted FileNotFoundError "[Errno 2] No such file or directory".

Definition stub (configure_rc build_rc : Z) : Platform := {|
  parse_args := fun _ argv => stub_parse argv no_flags;
  json_load := stub_json_load;
  json_dump_indent2 := stub_json_dump;
  execve := stub_execve configure_rc build_rc;
  repr := quoted;
  repr_bytes := fun b => "b" +:+ quoted b;
  str_CalledProcessError := fun rc cmd =>
    "Command " +:+ quoted ("[" +:+ join_with ", " (map quoted cmd) +:+ "]")
    +:+ " returned non-zero exit status " +:+ pretty rc +:+ ".";
|}.

(** A machine with the script in [/opt/builder], a project in [/proj]
    with a build directory that holds a file, and a shell that came to
    [/home/user/work] from [/home/user]. *)
Definition sample_tree : list (list string * node) :=
  [([], Dir);
   (["home"], Dir); (["home"; "user"], Dir); (["home"; "user"; "work"], Dir);
   (["opt"], Dir); (["opt"; "builder"], Dir);
   (["opt"; "builder"; "build.py"], File "#!/usr/bin/python3");
   (["proj"], Dir);
   (["proj"; "CMakeLists.txt"], File "project(demo C)");
   (["proj"; "build"], Dir);
   (["proj"; "build"; "CMakeCache.txt"], File "CMAKE_BUILD_TYPE:STRING=")].

Definition settings_path : list string :=
  ["opt"; "builder"; "buildsettings.json"].

Definition sample_fs (settings : option json) : FS :=
  match settings with
  | Some v => <[settings_path := File (stub_json_dump v)]> (list_to_map sample_tree)
  | None => list_to_map sample_tree
  end.

Definition sample_world (settings : option json) (argv : list string) : World :=
  mkWorld ["home"; "user"; "work"] (Some "/home/user") (sample_fs settings)
    [] [] false "/opt/builder/build.py" argv.

Definition sample_cmake : Cmake.t := Cmake.mk "/proj" "/proj/build".


(** ** Notions the statements use *)

(** How [sh] reads its argument vector: [sh -c command_string
    [command_name [argument...]]]. *)
Definition sh_command (argv : list string) : option string :=
  match argv with
  | _ :: _ :: c :: _ => Some c
  | _ => None
  end.

Definition sh_parameters (argv : list string) : list string :=
  match argv with
  | _ :: _ :: _ :: ps => ps
  | _ => []
  end.

(** The child processes of a trace, with their exit codes. *)
Fixpoint spawns (evs : list Event) : list (list string * Z) :=
  match evs with
  | [] => []
  | EvSpawn argv _ rc :: r => (argv, rc) :: spawns r
  | _ :: r => spawns r
  end.

Definition configure_command (c : Cmake.t) : list string :=
  [Cmake.CMAKE; "-S"; Cmake.__projectHome c; "-B"; Cmake.__buildDirectory c].

(** [w'] is [w] with some lines printed, none when debugging is off. *)
Definition only_printed (w w' : World) : Prop :=
  exists lines, w' = set_stdout (stdout w ++ lines) w
                /\ (Debug_enabled w = false -> lines = []).





(** Both existence checks of the [Cmake] constructor succeed. *)
Definition checks_pass (w : World) (home dir : string) : bool :=
  os.exists_in w home
  && os.exists_in w (os_path.dirname (os_path.join home dir)).

(** [m] keeps the invariant [I] of the state, whatever its result, and
    does not raise [SystemExit]. *)
Definition tame {S A} (I : S -> Prop) (m : M S A) : Prop :=
  forall s, I s -> I (m s).2 /\ forall c, (m s).1 <> Raise (SystemExit c).

(** Debugging is off and the lines printed so far are [out]. *)
Definition silent (out : list string) (w : World) : Prop :=
  Debug_enabled w = false /\ stdout w = out.

(** What a run that raises nothing prints. *)
Definition status_line (a : Namespace) : list string :=
  if create_settings a then ["Successfully created 'buildsettings.json'"]
  else if clean a then ["Cleaned up project repository."]
  else [].

(** The stub platform with another JSON decoder, and the sample machine
    with any text in the settings file. *)
Definition stub_loading (load : string -> json + string)
    (configure_rc build_rc : Z) : Platform := {|
  parse_args := fun _ argv => stub_parse argv no_flags;
  json_load := load;
  json_dump_indent2 := stub_json_dump;
  execve := stub_execve configure_rc build_rc;
  repr := quoted;
  repr_bytes := fun b => "b" +:+ quoted b;
  str_CalledProcessError := fun rc cmd =>
    "Command " +:+ quoted ("[" +:+ join_with ", " (map quoted cmd) +:+ "]")
    +:+ " returned non-zero exit status " +:+ pretty rc +:+ ".";
|}.

Definition sample_world_with (text : string) (argv : list string) : World :=
  mkWorld ["home"; "user"; "work"] (Some "/home/user")
    (<[settings_path := File text]> (list_to_map sample_tree))
    [] [] false "/opt/builder/build.py" argv.

(** A decoder that knows one document with a number for the project
    home, and one that is a list. *)
Definition settings_home_number : json :=
  JObj [("ProjectHome", JNum "5"); ("BuildDirectory", JStr "build")].

Definition load_odd (text : string) : json + string :=
  if String.eqb text "home-is-a-number" then inl settings_home_number
  else if String.eqb text "[]" then inl (JArr [])
  else inr "Expecting value: line 1 column 1 (char 0)".

(** A decoder that knows one document, whose project home is a regular
    file followed by a separator. *)
Definition settings_home_file : json :=
  JObj [("ProjectHome", JStr "/proj/CMakeLists.txt/");
        ("BuildDirectory", JStr "../build")].

Definition load_home_file (text : string) : json + string :=
  if String.eqb text "home-is-a-file" then inl settings_home_file
  else inr "Expecting value: line 1 column 1 (char 0)".

(** A builder as [Setup] leaves it, for given controls and arguments. *)
Definition sample_app (c : ProjectBuilder.Controls) (a : Namespace)
    : ProjectBuilder.t :=
  ProjectBuilder.set_controls c
    (ProjectBuilder.set_arguments a
       (ProjectBuilder.__init__ "/opt/builder/build.py")).

(** The sample machine with a project in [proj] under the working
    directory, named by a relative path. *)
Definition relative_world : World :=
  mkWorld ["home"; "user"; "work"] (Some "/home/user")
    (<[["home"; "user"; "work"; "proj"] := Dir]>
       (<[["home"; "user"; "work"; "proj"; "build"] := Dir]>
          (list_to_map sample_tree)))
    [] [] false "/opt/builder/build.py" [].

Definition relative_cmake : Cmake.t := Cmake.mk "proj" "proj/build".

(** * Properties *)

Ltac run_m :=
  unfold bind, ret, raise, gets, modify, try_except, on_snd, zoom; simpl.

Ltac run_m_in H :=
  unfold bind, ret, raise, gets, modify, try_except, on_snd, zoom in H;
  simpl in H.

(** Case analysis on an innermost scrutinee of the goal. *)
Ltac inner_match :=
  match goal with
  | |- context [match ?x with _ => _ end] =>
      lazymatch x with
      | context [match _ with _ => _ end] => fail
      | _ => destruct x eqn:?; simpl
      end
  end.

Section Runner.
Context `{Platform}.

Lemma Debug_Print_world (message : string) (w : World) :
  exists w', Debug.Print message w = (Ok tt, w')
             /\ cwd w' = cwd w /\ fs w' = fs w /\ trace w' = trace w
             /\ OLDPWD w' = OLDPWD w.
Proof.
  unfold Debug.Print. destruct (Debug_enabled w); eexists; split; eauto.
Qed.

Lemma Debug_Print_off (message : string) (w : World) :
  Debug_enabled w = false -> Debug.Print message w = (Ok tt, w).
Proof. intros E. unfold Debug.Print. now rewrite E. Qed.

(** C8. Whenever the child of [RunWithoutOutput], the shell, exits
    with a code other than zero, [RunWithoutOutput] returns that code to
    its caller and raises nothing; and whenever the child of [Run], the
    program itself, exits with a code other than zero, [Run] raises a
    [CalledProcessError] that carries the code. *)
Theorem RunWithoutOutput_returns_Run_raises
    (args : list string) (w : World) :
  (forall rc f err,
     execve ("/bin/sh" :: "-c" :: args) (cwd w) (fs w) = Exited rc f err ->
     rc <> 0%Z ->
     exists w', SubProcessWrapper.RunWithoutOutput args w = (Ok rc, w')) /\
  (forall rc f err,
     execve args (cwd w) (fs w) = Exited rc f err ->
     rc <> 0%Z ->
     exists w', SubProcessWrapper.Run args w
                = (Raise (CalledProcessError rc args nil_str), w')).
Proof.
  split.
  - intros rc f err Hsh Hrc.
    unfold SubProcessWrapper.RunWithoutOutput. run_m.
    destruct (Debug_Print_world ("run command: " +:+ str_list args) w)
      as (w1 & -> & Hc & Hf & _).
    unfold subprocess_run. rewrite Hc, Hf, Hsh.
    assert ((rc =? 0)%Z = false) as -> by now apply Z.eqb_neq.
    simpl.
    match goal with
    | |- context [Debug.Print ?m ?x] =>
        destruct (Debug_Print_world m x) as (w2 & -> & _)
    end.
    eauto.
  - intros rc f err Hrun Hrc.
    unfold SubProcessWrapper.Run, subprocess_run. rewrite Hrun.
    assert ((rc =? 0)%Z = false) as -> by now apply Z.eqb_neq.
    simpl. eauto.
Qed.

(** In fact [RunWithoutOutput] returns the code of every child that
    ran, zero or not. *)
Lemma RunWithoutOutput_total (args : list string) (w : World) (rc : Z)
    (f : FS) (err : string) :
  execve ("/bin/sh" :: "-c" :: args) (cwd w) (fs w) = Exited rc f err ->
  exists w', SubProcessWrapper.RunWithoutOutput args w = (Ok rc, w')
             /\ trace w' = trace w
                  ++ [EvSpawn ("/bin/sh" :: "-c" :: args) (cwd w) rc].
Proof.
  intros Hsh. unfold SubProcessWrapper.RunWithoutOutput. run_m.
  destruct (Debug_Print_world ("run command: " +:+ str_list args) w)
    as (w1 & -> & Hc & Hf & Ht & _).
  unfold subprocess_run. rewrite Hc, Hf, Hsh.
  destruct (rc =? 0)%Z; simpl.
  - rewrite Ht. eauto.
  - match goal with
    | |- context [Debug.Print ?m ?x] =>
        destruct (Debug_Print_world m x) as (w2 & -> & _ & _ & Ht2 & _)
    end.
    eexists; split; [reflexivity|]. rewrite Ht2. simpl. now rewrite Ht.
Qed.

(** C9. [RunWithoutOutput] hands a list of two or more elements to the
    shell: the child is [/bin/sh -c] followed by the list, so the
    command string the shell executes is the first element alone, and
    the other elements are the shell's own positional parameters, not
    arguments of that command. *)
Theorem RunWithoutOutput_shell_command
    (a b : string) (rest : list string) (w : World) :
  let argv := "/bin/sh" :: "-c" :: a :: b :: rest in
  sh_command argv = Some a /\ sh_parameters argv = b :: rest /\
  match execve argv (cwd w) (fs w) with
  | Exited rc _ _ =>
      exists w', SubProcessWrapper.RunWithoutOutput (a :: b :: rest) w
                 = (Ok rc, w')
                 /\ trace w' = trace w ++ [EvSpawn argv (cwd w) rc]
  | NotStarted cls msg =>
      exists w', SubProcessWrapper.RunWithoutOutput (a :: b :: rest) w
                 = (Raise (Error cls msg), w')
                 /\ trace w' = trace w
  end.
Proof.
  intros argv. split; [reflexivity|]. split; [reflexivity|].
  destruct (execve argv (cwd w) (fs w)) as [rc f err|cls msg] eqn:E.
  - apply (RunWithoutOutput_total (a :: b :: rest) w rc f err E).
  - unfold SubProcessWrapper.RunWithoutOutput. run_m.
    destruct (Debug_Print_world
                ("run command: " +:+ str_list (a :: b :: rest)) w)
      as (w1 & -> & Hc & Hf & Ht & _).
    unfold subprocess_run. fold argv. rewrite Hc, Hf, E. simpl. eauto.
Qed.

End Runner.

Section Settings.
Context `{Platform}.

Lemma path_exists_run (p : string) (w : World) :
  os.path_exists p w = (Ok (os.exists_in w p), w).
Proof. reflexivity. Qed.

Lemma Load_reads (s : BuildSetting.t) (w : World) (q : list string)
    (text : string) (members : list (string * json)) :
  resolve w (BuildSetting.__path s) = Some q ->
  fs w !! q = Some (File text) ->
  json_load text = inl (JObj members) ->
  BuildSetting.Load (s, w)
  = match assoc BuildSetting.Name.PROJECT_HOME members with
    | Some home =>
        match assoc BuildSetting.Name.BUILD_DIR members with
        | Some dir =>
            (Ok tt, (BuildSetting.set_buildDirectory dir
                       (BuildSetting.set_projectHome home s), w))
        | None =>
            (Raise (Error KeyError (quoted BuildSetting.Name.BUILD_DIR)),
             (BuildSetting.set_projectHome home s, w))
        end
    | None =>
        (Raise (Error KeyError (quoted BuildSetting.Name.PROJECT_HOME)),
         (s, w))
    end.
Proof.
  intros Hq Hf Hj.
  unfold BuildSetting.Load, BuildSetting.__import, os.path_exists, os.exists_in, read_file.
  run_m. repeat (rewrite ?Hq, ?Hf, ?Hj; simpl).
  destruct (assoc BuildSetting.Name.PROJECT_HOME members); simpl;
    [|reflexivity].
  destruct (assoc BuildSetting.Name.BUILD_DIR members); reflexivity.
Qed.

(** C2, as the code has it.  When the settings file is a JSON object
    that lacks [ProjectHome] or [BuildDirectory], [Load] raises a
    [KeyError] for a key the object lacks and changes neither the world
    nor [values.buildDirectory]; when [ProjectHome] is the missing key,
    the whole store is as it was. *)
Theorem Load_missing_key (s : BuildSetting.t) (w : World) (q : list string)
    (text : string) (members : list (string * json)) :
  resolve w (BuildSetting.__path s) = Some q ->
  fs w !! q = Some (File text) ->
  json_load text = inl (JObj members) ->
  assoc BuildSetting.Name.PROJECT_HOME members = None
  \/ assoc BuildSetting.Name.BUILD_DIR members = None ->
  exists key s',
    BuildSetting.Load (s, w) = (Raise (Error KeyError (quoted key)), (s', w))
    /\ assoc key members = None
    /\ BuildSetting.buildDirectory (BuildSetting.values s')
       = BuildSetting.buildDirectory (BuildSetting.values s)
    /\ (assoc BuildSetting.Name.PROJECT_HOME members = None -> s' = s).
Proof.
  intros Hq Hf Hj Hmiss.
  rewrite (Load_reads s w q text _ Hq Hf Hj).
  destruct (assoc BuildSetting.Name.PROJECT_HOME members) as [home|] eqn:Eh.
  - destruct Hmiss as [|Ed]; [discriminate|]. rewrite Ed.
    exists BuildSetting.Name.BUILD_DIR, (BuildSetting.set_projectHome home s).
    repeat split; auto. discriminate.
  - exists BuildSetting.Name.PROJECT_HOME, s. repeat split; auto.
Qed.

End Settings.

(** C2, as stated, fails: a settings file with [ProjectHome] and
    without [BuildDirectory] makes [Load] raise after it has stored the
    project home. *)
Lemma Load_stores_home_then_raises :
  let w := sample_world (Some settings_home_only) [] in
  let s := BuildSetting.__init__ "/opt/builder" in
  exists e s' w',
    @BuildSetting.Load (stub 0 0) (s, w) = (Raise e, (s', w'))
    /\ BuildSetting.projectHome (BuildSetting.values s) = JStr nil_str
    /\ BuildSetting.projectHome (BuildSetting.values s') = JStr "/proj"
    /\ BuildSetting.values s' <> BuildSetting.values s.
Proof.
  do 3 eexists. split; [vm_compute; reflexivity|].
  split; [reflexivity|]. split; [reflexivity|]. discriminate.
Qed.

Lemma Load_missing_key_witness :
  let w := sample_world (Some settings_dir_only) [] in
  let s := BuildSetting.__init__ "/opt/builder" in
  let members := [("BuildDirectory", JStr "build")] in
  resolve w (BuildSetting.__path s) = Some settings_path
  /\ fs w !! settings_path = Some (File (stub_json_dump settings_dir_only))
  /\ stub_json_load (stub_json_dump settings_dir_only) = inl (JObj members)
  /\ assoc BuildSetting.Name.PROJECT_HOME members = None
  /\ exists key s',
       @BuildSetting.Load (stub 0 0) (s, w)
       = (Raise (Error KeyError (quoted key)), (s', w))
       /\ assoc key members = None
       /\ BuildSetting.buildDirectory (BuildSetting.values s')
          = BuildSetting.buildDirectory (BuildSetting.values s)
       /\ (assoc BuildSetting.Name.PROJECT_HOME members = None -> s' = s).
Proof.
  intros w s members.
  assert (Hq : resolve w (BuildSetting.__path s) = Some settings_path)
    by (vm_compute; reflexivity).
  assert (Hf : fs w !! settings_path
               = Some (File (stub_json_dump settings_dir_only)))
    by (vm_compute; reflexivity).
  assert (Hj : stub_json_load (stub_json_dump settings_dir_only)
               = inl (JObj members))
    by (vm_compute; reflexivity).
  assert (Hm : assoc BuildSetting.Name.PROJECT_HOME members = None)
    by reflexivity.
  repeat (split; [assumption|]).
  exact (@Load_missing_key (stub 0 0) s w settings_path
           (stub_json_dump settings_dir_only) members Hq Hf Hj (or_introl Hm)).
Defined.

Lemma only_printed_refl (w : World) : only_printed w w.
Proof.
  exists []. split; [|reflexivity]. destruct w; unfold set_stdout; simpl.
  now rewrite app_nil_r.
Qed.

Lemma only_printed_trans (w1 w2 w3 : World) :
  only_printed w1 w2 -> only_printed w2 w3 -> only_printed w1 w3.
Proof.
  intros (l1 & -> & H1) (l2 & -> & H2). exists (l1 ++ l2). split.
  - unfold set_stdout; simpl. now rewrite app_assoc.
  - intros E. rewrite (H1 E), (H2 E). reflexivity.
Qed.

Lemma only_printed_off (w w' : World) :
  only_printed w w' -> Debug_enabled w = false -> w' = w.
Proof.
  intros (l & -> & Hl) E. rewrite (Hl E). destruct w; unfold set_stdout; simpl.
  now rewrite app_nil_r.
Qed.

Lemma Debug_Print_spec (message : string) (w : World) :
  exists w', Debug.Print message w = (Ok tt, w') /\ only_printed w w'.
Proof.
  unfold Debug.Print. destruct (Debug_enabled w) eqn:E.
  - eexists. split; [reflexivity|]. eexists. split; [reflexivity|].
    congruence.
  - exists w. split; [reflexivity|apply only_printed_refl].
Qed.

Ltac debug_prints :=
  repeat match goal with
  | |- context [Debug.Print ?m ?x] =>
      let w1 := fresh "w" in
      let Hp := fresh "Hp" in
      destruct (Debug_Print_spec m x) as (w1 & -> & Hp); simpl
  end.

Section Setup.
Context `{Platform}.

Lemma PrintArgument_run (app : ProjectBuilder.t) (w : World) (a : Namespace) :
  ProjectBuilder.__arguments app = Some a ->
  exists w', ProjectBuilder.__PrintArgument (app, w) = (Ok tt, (app, w'))
             /\ only_printed w w'.
Proof.
  intros Ha. unfold ProjectBuilder.__PrintArgument, ProjectBuilder.arguments.
  run_m. rewrite Ha. simpl. debug_prints.
  eexists. split; [reflexivity|].
  repeat (eapply only_printed_trans; [eassumption|]).
  apply only_printed_refl.
Qed.

Lemma Setup_run (app : ProjectBuilder.t) (w : World) (a : Namespace) :
  parse_args (ProjectBuilder.__system app) (sys_argv w) = Parsed a ->
  exists w',
    ProjectBuilder.Setup (app, w)
    = (Ok tt,
       (ProjectBuilder.set_controls
          (ProjectBuilder.verified
             (ProjectBuilder.mkControls (configure a) (build a) (clean a)
                (create_settings a) (debug a)))
          (ProjectBuilder.set_arguments a app), w'))
    /\ only_printed (set_Debug_enabled (debug a) w) w'.
Proof.
  intros Hp. unfold ProjectBuilder.Setup, Application.GetArguments.
  run_m. rewrite Hp. simpl.
  match goal with
  | |- context [ProjectBuilder.__PrintArgument (?x, ?y)] =>
      destruct (PrintArgument_run x y a eq_refl) as (w1 & -> & Hw)
  end.
  unfold ProjectBuilder.__verifyControls. run_m.
  eexists. split; [reflexivity|exact Hw].
Qed.

(** When the parsed arguments have neither the configure-only flag nor
    the build-only flag, [Setup] returns with both [doConfiguration]
    and [doBuild] true in the controls. *)
Lemma Setup_controls_without_flags
    (app : ProjectBuilder.t) (w : World) (a : Namespace) :
  parse_args (ProjectBuilder.__system app) (sys_argv w) = Parsed a ->
  configure a = false ->
  build a = false ->
  exists app' w',
    ProjectBuilder.Setup (app, w) = (Ok tt, (app', w'))
    /\ ProjectBuilder.doConfiguration (ProjectBuilder.__controls app') = true
    /\ ProjectBuilder.doBuild (ProjectBuilder.__controls app') = true
    /\ ProjectBuilder.doCleanup (ProjectBuilder.__controls app') = clean a
    /\ ProjectBuilder.createSetting (ProjectBuilder.__controls app')
       = create_settings a.
Proof.
  intros Hp Hc Hb. destruct (Setup_run app w a Hp) as (w' & -> & _).
  do 2 eexists. split; [reflexivity|].
  unfold ProjectBuilder.verified. simpl. rewrite Hc, Hb. simpl. auto.
Qed.

(** With one of the two flags the controls are the flags themselves. *)
Lemma Setup_keeps_explicit_choice
    (app : ProjectBuilder.t) (w : World) (a : Namespace) :
  parse_args (ProjectBuilder.__system app) (sys_argv w) = Parsed a ->
  configure a = true \/ build a = true ->
  exists app' w',
    ProjectBuilder.Setup (app, w) = (Ok tt, (app', w'))
    /\ ProjectBuilder.doConfiguration (ProjectBuilder.__controls app')
       = configure a
    /\ ProjectBuilder.doBuild (ProjectBuilder.__controls app') = build a.
Proof.
  intros Hp Hcb. destruct (Setup_run app w a Hp) as (w' & -> & _).
  do 2 eexists. split; [reflexivity|].
  unfold ProjectBuilder.verified. simpl.
  destruct Hcb as [-> | ->]; destruct (configure a), (build a); auto.
Qed.

End Setup.

Section WorkingDirectory.
Context `{Platform}.

Lemma resolve_only_printed (w w' : World) (p : string) :
  only_printed w w' -> resolve w' p = resolve w p.
Proof. intros (l & -> & _). reflexivity. Qed.

Lemma RunSimply_run (command : list string) (w : World) :
  SubProcessWrapper.RunSimply command w
  = match execve command (cwd w) (fs w) with
    | Exited rc f _ =>
        (Ok rc, set_trace (trace w ++ [EvSpawn command (cwd w) rc])
                  (set_fs f w))
    | NotStarted cls msg => (Raise (Error cls msg), w)
    end.
Proof.
  unfold SubProcessWrapper.RunSimply, subprocess_run. run_m.
  destruct (execve command (cwd w) (fs w)) as [rc f err|cls msg];
    [|reflexivity].
  destruct (rc =? 0)%Z; reflexivity.
Qed.

Lemma chdir_cwd (p : string) (w w' : World) :
  os.chdir (Some p) w = (Ok tt, w') ->
  resolve w p = Some (cwd w') /\ fs w !! cwd w' = Some Dir
  /\ w' = set_trace (trace w ++ [EvChdir (cwd w')]) (set_cwd (cwd w') w).
Proof.
  unfold os.chdir. destruct (resolve w p) as [q|]; [|discriminate].
  destruct (fs w !! q) as [[c|]|] eqn:E; try discriminate.
  intros [= <-]. auto.
Qed.

(** When [Configure] returns [True] the process is in the project home:
    the success path has no [__Exit]. *)
Lemma Configure_true_cwd (self : Cmake.t) (w w' : World) :
  Cmake.Configure self w = (Ok true, w') ->
  resolve w (Cmake.__projectHome self) = Some (cwd w').
Proof.
  unfold Cmake.Configure. run_m.
  destruct (Debug_Print_spec
              ("command: " +:+ str_list
                 [Cmake.CMAKE; "-S"; Cmake.__projectHome self; "-B";
                  Cmake.__buildDirectory self]) w) as (w0 & -> & Hp).
  unfold Cmake.__Enter.
  destruct (os.chdir (Some (Cmake.__projectHome self)) w0)
    as [[[]|e] w1] eqn:Ec; [|discriminate].
  apply chdir_cwd in Ec as (Hr & _ & ->).
  rewrite (resolve_only_printed _ _ _ Hp) in Hr.
  rewrite RunSimply_run.
  destruct (execve _ _ _) as [rc f err|cls msg]; [|discriminate].
  destruct (rc =? 0)%Z.
  - intros [= <-]. exact Hr.
  - unfold Cmake.__Exit. run_m.
    destruct (os.chdir _ _) as [[[]|e] w2]; discriminate.
Qed.

End WorkingDirectory.

(** C1 fails on the success path of [Configure].  From
    [/home/user/work], with the project in [/proj] and a cmake that
    exits with 0, [Configure] returns [True] and leaves the process in
    [/proj]. *)
Theorem Configure_success_leaves_cwd_in_project :
  let w := sample_world (Some settings_proj) [] in
  exists w', @Cmake.Configure (stub 0 0) sample_cmake w = (Ok true, w')
             /\ cwd w = ["home"; "user"; "work"]
             /\ cwd w' = ["proj"].
Proof.
  eexists. split; [vm_compute; reflexivity|]. split; reflexivity.
Qed.

(** On the other paths the directory is the one [OLDPWD] names, which
    is where the invoking shell was before, not where the process was:
    here [/home/user] instead of [/home/user/work]. *)
Lemma Configure_failure_goes_to_OLDPWD :
  let w := sample_world (Some settings_proj) [] in
  exists w', @Cmake.Configure (stub 1 0) sample_cmake w = (Ok false, w')
             /\ cwd w = ["home"; "user"; "work"]
             /\ cwd w' = ["home"; "user"].
Proof.
  eexists. split; [vm_compute; reflexivity|]. split; reflexivity.
Qed.

Lemma Build_goes_to_OLDPWD :
  let w := sample_world (Some settings_proj) [] in
  exists w',
    @Cmake.Build (stub 0 0) sample_cmake "all" (Some nil_str) false
      (Some [nil_str]) w = (Ok true, w')
    /\ cwd w = ["home"; "user"; "work"]
    /\ cwd w' = ["home"; "user"].
Proof.
  eexists. split; [vm_compute; reflexivity|]. split; reflexivity.
Qed.

Lemma RunWithoutOutput_returns_Run_raises_witness :
  let w := sample_world (Some settings_proj) [] in
  let script := ["exit 3"] in
  let args := ["cmake"; "-S"; "."] in
  stub_execve 1 0 ("/bin/sh" :: "-c" :: script) (cwd w) (fs w)
  = Exited 3 (fs w) nil_str
  /\ stub_execve 1 0 script (cwd w) (fs w)
     = NotStarted FileNotFoundError "[Errno 2] No such file or directory"
  /\ (exists w', @SubProcessWrapper.RunWithoutOutput (stub 1 0) script w
                 = (Ok 3%Z, w'))
  /\ stub_execve 1 0 args (cwd w) (fs w) = Exited 1 (fs w) nil_str
  /\ (exists w', @SubProcessWrapper.Run (stub 1 0) args w
                 = (Raise (CalledProcessError 1 args nil_str), w')).
Proof.
  intros w script args.
  split; [reflexivity|]. split; [reflexivity|].
  split.
  { apply (proj1 (@RunWithoutOutput_returns_Run_raises (stub 1 0) script w)
             3%Z (fs w) nil_str); [reflexivity|discriminate]. }
  split; [reflexivity|].
  apply (proj2 (@RunWithoutOutput_returns_Run_raises (stub 1 0) args w)
           1%Z (fs w) nil_str); [reflexivity|discriminate].
Defined.

(** ** Splitting a joined path *)

Lemma split_on_cons (sep : ascii) (s : string) :
  exists h t, split_on sep s = h :: t.
Proof.
  induction s as [|c r (h & t & IH)]; simpl; [eauto|].
  destruct (Ascii.eqb c sep); [eauto|]. rewrite IH. eauto.
Qed.

Lemma split_on_sep_app (sep : ascii) (a b : string) :
  split_on sep (a +:+ String sep b) = split_on sep a ++ split_on sep b.
Proof.
  induction a as [|c r IH]; simpl.
  - now rewrite Ascii.eqb_refl.
  - destruct (Ascii.eqb c sep); rewrite IH; [reflexivity|].
    destruct (split_on_cons sep r) as (h & t & ->). reflexivity.
Qed.

Lemma split_on_endswith (a b : string) :
  endswith_sep a = true -> split_on slash b = [b] ->
  exists h t, split_on slash (a +:+ b) = (h :: t) ++ [b].
Proof.
  intros Ha Hb. induction a as [|c r IH]; [discriminate|].
  destruct r as [|c' r'].
  - cbn [endswith_sep] in Ha.
    change (String c EmptyString +:+ b) with (String c b).
    cbn [split_on]. rewrite Ha, Hb. exists nil_str, []. reflexivity.
  - specialize (IH Ha). destruct IH as (h & t & IH).
    change (String c (String c' r') +:+ b)
      with (String c (String c' r' +:+ b)).
    cbn [split_on]. rewrite IH.
    destruct (Ascii.eqb c slash); [exists nil_str, (h :: t)|exists (String c h), t];
      reflexivity.
Qed.

Lemma join_split (directory name : string) :
  startswith_sep name = false -> split_on slash name = [name] ->
  exists pre, split_on slash (os_path.join directory name) = pre ++ [name].
Proof.
  intros Hs Hn. unfold os_path.join. rewrite Hs.
  destruct (String.eqb directory nil_str) eqn:Ed; simpl.
  - apply String.eqb_eq in Ed as ->. exists []. exact Hn.
  - destruct (endswith_sep directory) eqn:Ee.
    + destruct (split_on_endswith directory name Ee Hn) as (h & t & ->). eauto.
    + change (directory +:+ "/" +:+ name)
        with (directory +:+ String slash name).
      rewrite split_on_sep_app, Hn. eauto.
Qed.

(** ** Path resolution *)

Section Walk.

Implicit Types (f g : FS) (cur q : list string) (cs : list string).

(** One step of [walk], once the place it is at is a directory. *)
Lemma walk_cons f cur c cs :
  f !! cur = Some Dir ->
  walk f cur (c :: cs)
  = if String.eqb c nil_str || String.eqb c dot then walk f cur cs
    else if String.eqb c dotdot then walk f (parent cur) cs
    else walk f (cur ++ [c]) cs.
Proof. intros E. simpl. now rewrite E. Qed.

Lemma walk_cons_Some f cur c cs q :
  walk f cur (c :: cs) = Some q -> f !! cur = Some Dir.
Proof. simpl. destruct (f !! cur) as [[t|]|]; [discriminate|auto|discriminate]. Qed.

(** Resolution looks at the file system only to ask whether a path is
    a directory. *)
Lemma walk_mono f g cs : forall cur q,
  (forall k, f !! k = Some Dir -> g !! k = Some Dir) ->
  walk f cur cs = Some q -> walk g cur cs = Some q.
Proof.
  induction cs as [|c cs IH]; intros cur q Hfg; [auto|].
  intros Hw. pose proof (walk_cons_Some _ _ _ _ _ Hw) as E.
  rewrite (walk_cons f) in Hw by exact E.
  rewrite (walk_cons g) by (apply Hfg; exact E).
  destruct (String.eqb c nil_str || String.eqb c dot); [now apply IH|].
  destruct (String.eqb c dotdot); now apply IH.
Qed.

Lemma walk_ext f g cs cur :
  (forall k, f !! k = Some Dir <-> g !! k = Some Dir) ->
  walk f cur cs = walk g cur cs.
Proof.
  intros Hfg.
  destruct (walk f cur cs) as [q|] eqn:Ef.
  - symmetry. apply (walk_mono f g); [intros k; apply Hfg|exact Ef].
  - destruct (walk g cur cs) as [q|] eqn:Eg; [|reflexivity].
    rewrite (walk_mono g f cs cur q) in Ef; [discriminate| |exact Eg].
    intros k; apply Hfg.
Qed.

(** The error number of a failed resolution, too, depends on the
    directories and on the regular files only as such. *)
Lemma walk_errno_ext f g cs : forall cur,
  (forall k, f !! k = Some Dir <-> g !! k = Some Dir) ->
  (forall k, f !! k = None <-> g !! k = None) ->
  walk_errno f cur cs = walk_errno g cur cs.
Proof.
  induction cs as [|c cs IH]; intros cur Hd Hn; simpl; [reflexivity|].
  destruct (f !! cur) as [[t|]|] eqn:Ef.
  - destruct (g !! cur) as [[t'|]|] eqn:Eg; [reflexivity| |].
    + apply Hd in Eg. congruence.
    + apply Hn in Eg. congruence.
  - rewrite (proj1 (Hd cur) Ef).
    destruct (_ || _); [now apply IH|].
    destruct (String.eqb c dotdot); now apply IH.
  - now rewrite (proj1 (Hn cur) Ef).
Qed.









Lemma drop_trailing_blank_id cs :
  last cs <> Some nil_str -> drop_trailing_blank cs = cs.
Proof.
  induction cs as [|c cs IH]; [reflexivity|].
  intros Hl. destruct cs as [|d cs].
  - simpl in *. destruct (String.eqb c nil_str) eqn:E; [|reflexivity].
    apply String.eqb_eq in E. congruence.
  - rewrite last_cons_cons in Hl. specialize (IH Hl).
    simpl in *. rewrite IH. reflexivity.
Qed.





Lemma walk_app f cs1 cs2 : forall cur,
  walk f cur (cs1 ++ cs2)
  = match walk f cur cs1 with
    | Some c => walk f c cs2
    | None => None
    end.
Proof.
  induction cs1 as [|c cs1 IH]; intros cur; simpl; [reflexivity|].
  destruct (f !! cur) as [[t|]|]; try reflexivity.
  destruct (_ || _); [apply IH|].
  destruct (String.eqb c dotdot); apply IH.
Qed.

(** A path that ends in a name resolves to an entry of a directory. *)
Lemma walk_to_name f pre name cur q :
  is_name name = true ->
  walk f cur (pre ++ [name]) = Some q ->
  f !! parent q = Some Dir.
Proof.
  intros Hname. rewrite walk_app.
  destruct (walk f cur pre) as [c|]; [|discriminate].
  intros Hw. pose proof (walk_cons_Some _ _ _ _ _ Hw) as E.
  rewrite walk_cons in Hw by exact E.
  unfold is_name in Hname.
  destruct (String.eqb name nil_str); [discriminate|].
  destruct (String.eqb name dot); [discriminate|].
  destruct (String.eqb name dotdot); [discriminate|].
  simpl in Hw. injection Hw as <-. unfold parent. now rewrite removelast_last.
Qed.

(** For a path that ends in a name, the entry to be made is the entry
    looked up. *)
Lemma filter_nonblank_snoc pre name :
  name <> nil_str ->
  last (filter (fun c : string => c <> nil_str) (pre ++ [name])) = Some name.
Proof.
  intros Hne. rewrite filter_app, filter_cons.
  destruct (decide (name <> nil_str)); [|contradiction].
  rewrite filter_nil. apply last_snoc.
Qed.



End Walk.

(** ** Cleanup *)

Section Cleanup.

Implicit Types (f : FS) (q k : list string).








End Cleanup.


(** ** Create *)

Section Create.
Context `{Platform}.

Lemma Create_present (s : BuildSetting.t) (w : World) (q : list string) :
  resolve w (BuildSetting.__path s) = Some q ->
  is_Some (fs w !! q) ->
  BuildSetting.Create (s, w) = (Ok tt, (s, w)).
Proof.
  intros Hq Hsome. unfold BuildSetting.Create, os.path_exists, os.exists_in. run_m.
  rewrite Hq. rewrite bool_decide_eq_true_2 by exact Hsome.
  destruct s; destruct w; reflexivity.
Qed.

Lemma resolve_new_eq (w : World) (p : string) :
  trailing_sep p = false -> resolve_new w p = resolve w p.
Proof.
  intros Et. unfold resolve_new, resolve, start_of.
  rewrite drop_trailing_blank_id; [reflexivity|].
  intros El. unfold trailing_sep in Et.
  now rewrite bool_decide_eq_true_2 in Et by exact El.
Qed.

Lemma resolve_after_write (w : World) (p : string) (q : list string)
    (text : string) (t : list Event) :
  fs w !! q <> Some Dir ->
  resolve (set_trace t (set_fs (<[q := File text]> (fs w)) w)) p
  = resolve w p.
Proof.
  intros Hnone. unfold resolve. simpl.
  destruct (String.eqb p nil_str); [reflexivity|].
  apply walk_ext. intros k. destruct (decide (k = q)) as [->|Hne].
  - rewrite lookup_insert_eq. split; [discriminate|contradiction].
  - now rewrite lookup_insert_ne by congruence.
Qed.

(** What [open(p, mode="w")] and the write do when they return, and
    that nothing changes when the call raises. *)
Lemma write_file_spec (p text : string) (w : World) :
  match write_file p text w with
  | (Ok _, w') =>
      exists q, resolve w p = Some q /\ fs w !! q <> Some Dir
                /\ w' = set_trace (trace w ++ [EvWrite q])
                          (set_fs (<[q := File text]> (fs w)) w)
  | (Raise _, w') => w' = w
  end.
Proof.
  unfold write_file.
  destruct (resolve_new w p) as [q|] eqn:E; [|reflexivity].
  destruct (trailing_sep p) eqn:Et; [reflexivity|].
  rewrite resolve_new_eq in E by exact Et.
  destruct (fs w !! q) as [[t|]|] eqn:Ef; [| reflexivity|].
  - exists q. rewrite Ef. repeat split; [exact E|discriminate].
  - destruct (names_entry p); [|reflexivity].
    exists q. rewrite Ef. repeat split; [exact E|discriminate].
Qed.

Lemma Create_absent (s : BuildSetting.t) (w : World) (q : list string) :
  resolve w (BuildSetting.__path s) = Some q ->
  fs w !! q = None ->
  trailing_sep (BuildSetting.__path s) = false ->
  names_entry (BuildSetting.__path s) = true ->
  BuildSetting.Create (s, w)
  = (Ok tt,
     (s, set_trace (trace w ++ [EvWrite q])
           (set_fs (<[q := File (json_dump_indent2
                                   BuildSetting.__TEMPLATE)]> (fs w)) w))).
Proof.
  intros Hq Hnone Et Hname.
  unfold BuildSetting.Create, os.path_exists, os.exists_in, write_file.
  run_m. rewrite Hq, Hnone.
  rewrite bool_decide_eq_false_2 by (intros [x Hx]; discriminate).
  simpl. rewrite (resolve_new_eq _ _ Et), Hq, Et, Hnone, Hname.
  destruct s; destruct w; reflexivity.
Qed.

Lemma Create_unresolved (s : BuildSetting.t) (w : World) :
  resolve w (BuildSetting.__path s) = None ->
  exists e, BuildSetting.Create (s, w) = (Raise e, (s, w)).
Proof.
  intros Hq.
  pose proof (write_file_spec (BuildSetting.__path s)
                (json_dump_indent2 BuildSetting.__TEMPLATE) w) as Hsp.
  unfold BuildSetting.Create, os.path_exists, os.exists_in.
  run_m. rewrite Hq. simpl.
  destruct (write_file _ _ w) as [[[]|e] w'].
  - destruct Hsp as (q & Hq' & _). congruence.
  - subst w'. exists e. destruct s; reflexivity.
Qed.

(** A second [Create] changes nothing, whatever the first one did. *)
Lemma Create_twice (s : BuildSetting.t) (w : World) :
  (BuildSetting.Create (BuildSetting.Create (s, w)).2).2
  = (BuildSetting.Create (s, w)).2.
Proof.
  pose proof (write_file_spec (BuildSetting.__path s)
                (json_dump_indent2 BuildSetting.__TEMPLATE) w) as Hsp.
  assert (Hc : forall w0,
    BuildSetting.Create (s, w0)
    = if os.exists_in w0 (BuildSetting.__path s) then (Ok tt, (s, w0))
      else let r := write_file (BuildSetting.__path s)
                      (json_dump_indent2 BuildSetting.__TEMPLATE) w0 in
           (r.1, (s, r.2))).
  { intros w0. unfold BuildSetting.Create, os.path_exists. run_m.
    destruct (os.exists_in w0 _); simpl; [destruct s; reflexivity|].
    destruct (write_file _ _ w0) as [r w']. destruct s; reflexivity. }
  rewrite (Hc w).
  destruct (os.exists_in w (BuildSetting.__path s)) eqn:Ex; simpl.
  - now rewrite Hc, Ex.
  - destruct (write_file _ _ w) as [[[]|e] w'] eqn:Ew; simpl.
    + destruct Hsp as (q & Hq & Hnd & ->). rewrite Hc.
      unfold os.exists_in at 1.
      rewrite resolve_after_write by exact Hnd. rewrite Hq. simpl.
      rewrite lookup_insert_eq.
      now rewrite bool_decide_eq_true_2 by eauto.
    + subst w'. now rewrite Hc, Ex, Ew.
Qed.

(** The settings path is the name of the file joined to a directory, so
    it resolves only to an entry of a directory. *)
Lemma settings_path_parent (directory : string) (w : World)
    (q : list string) :
  resolve w (os_path.join directory BuildSetting.FILE_NAME) = Some q ->
  fs w !! parent q = Some Dir.
Proof.
  unfold resolve. destruct (String.eqb _ nil_str); [discriminate|].
  destruct (join_split directory BuildSetting.FILE_NAME eq_refl eq_refl)
    as [pre ->].
  now apply walk_to_name.
Qed.

Lemma settings_path_names_entry (directory : string) :
  trailing_sep (os_path.join directory BuildSetting.FILE_NAME) = false
  /\ names_entry (os_path.join directory BuildSetting.FILE_NAME) = true.
Proof.
  unfold trailing_sep, names_entry, last_component.
  destruct (join_split directory BuildSetting.FILE_NAME eq_refl eq_refl)
    as [pre ->].
  rewrite last_snoc, filter_nonblank_snoc by discriminate.
  split; [|reflexivity].
  apply bool_decide_eq_false_2. discriminate.
Qed.

(** C4. For the store of a settings file beside the program, [Create]
    is idempotent: a second call leaves the store and the process
    exactly as the first call left them.  It is non-destructive: when
    something exists at the settings path the call changes nothing.
    And when nothing is there it writes the dump of the template
    [{"ProjectHome": ".", "BuildDirectory": "build"}] and changes no
    other entry; it raises, and changes nothing, only when the
    directory of the program cannot be reached. *)
Theorem Create_idempotent_nondestructive
    (v : BuildSetting.Values) (directory : string) (w : World) :
  let s := BuildSetting.mk v
             (os_path.join directory BuildSetting.FILE_NAME) in
  (BuildSetting.Create (BuildSetting.Create (s, w)).2).2
  = (BuildSetting.Create (s, w)).2
  /\ BuildSetting.__TEMPLATE
     = JObj [("ProjectHome", JStr "."); ("BuildDirectory", JStr "build")]
  /\ match resolve w (BuildSetting.__path s) with
     | Some q =>
         match fs w !! q with
         | Some _ => BuildSetting.Create (s, w) = (Ok tt, (s, w))
         | None =>
             BuildSetting.Create (s, w)
             = (Ok tt,
                (s, set_trace (trace w ++ [EvWrite q])
                      (set_fs (<[q := File (json_dump_indent2
                                              BuildSetting.__TEMPLATE)]>
                                 (fs w)) w)))
         end
     | None => exists e, BuildSetting.Create (s, w) = (Raise e, (s, w))
     end.
Proof.
  intros s. split; [apply Create_twice|split; [reflexivity|]].
  destruct (resolve w (BuildSetting.__path s)) as [q|] eqn:Hq.
  - destruct (fs w !! q) as [x|] eqn:Hx.
    + apply (Create_present s w q Hq). eauto.
    + destruct (settings_path_names_entry directory) as [Et Hname].
      exact (Create_absent s w q Hq Hx Et Hname).
  - exact (Create_unresolved s w Hq).
Qed.

(** The store [main] builds is of that form. *)
Lemma init_setting_path (file : string) :
  ProjectBuilder.__setting (ProjectBuilder.__init__ file)
  = BuildSetting.mk (BuildSetting.mkValues (JStr nil_str) (JStr nil_str))
      (os_path.join (os_path.dirname file) BuildSetting.FILE_NAME).
Proof. reflexivity. Qed.

End Create.

(** On the sample machine: no settings file, one written, and a second
    call that changes nothing. *)
Lemma Create_twice_on_sample :
  let s := BuildSetting.__init__ "/opt/builder" in
  let w := sample_world None ["--create-settings"] in
  exists w',
    @BuildSetting.Create (stub 0 0) (s, w) = (Ok tt, (s, w'))
    /\ fs w !! settings_path = None
    /\ fs w' !! settings_path
       = Some (File (stub_json_dump BuildSetting.__TEMPLATE))
    /\ @BuildSetting.Create (stub 0 0) (s, w') = (Ok tt, (s, w')).
Proof.
  eexists. split; [vm_compute; reflexivity|].
  split; [vm_compute; reflexivity|].
  split; vm_compute; reflexivity.
Qed.

(** ** The steps of Run *)

Section Run.
Context `{Platform}.

(** [Load] reads: it leaves the process as it was. *)
Lemma Load_world (s : BuildSetting.t) (w : World) :
  exists r s', BuildSetting.Load (s, w) = (r, (s', w))
               /\ BuildSetting.__path s' = BuildSetting.__path s.
Proof.
  unfold BuildSetting.Load, BuildSetting.__import, os.path_exists, os.exists_in, read_file,
    subscript.
  run_m. destruct s as [v p]; simpl.
  repeat inner_match; eauto.
Qed.

Lemma init_cases (home dir : string) (w : World) :
  let bd := os_path.join home dir in
  Cmake.__init__ home bd w
  = (if checks_pass w home dir then (Ok (Cmake.mk home bd), w)
     else ((Cmake.__init__ home bd w).1, w))
  /\ (checks_pass w home dir = false ->
      exists e, Cmake.__init__ home bd w = (Raise e, w)).
Proof.
  intros bd. unfold checks_pass, Cmake.__init__, os.path_exists. fold bd.
  run_m.
  destruct (os.exists_in w home); simpl; [|eauto].
  destruct (os.exists_in w (os_path.dirname bd)); simpl; eauto.
  split; [reflexivity|discriminate].
Qed.

(** [Run] without [--create-settings], up to the construction of
    [cmake]: nothing in the process changes, and the life cycle starts
    only when the settings loaded and both checks passed. *)
Lemma Run_cases (app : ProjectBuilder.t) (w : World) :
  ProjectBuilder.createSetting (ProjectBuilder.__controls app) = false ->
  exists rl st,
    BuildSetting.Load (ProjectBuilder.__setting app, w) = (rl, (st, w))
    /\ let app1 := ProjectBuilder.set_setting st app in
       match rl with
       | Raise e => ProjectBuilder.Run (app, w) = (Raise e, (app1, w))
       | Ok _ =>
           match BuildSetting.projectHome (BuildSetting.values st),
                 BuildSetting.buildDirectory (BuildSetting.values st) with
           | JStr home, JStr dir =>
               (checks_pass w home dir = true
                /\ ProjectBuilder.Run (app, w)
                   = ProjectBuilder.Run_lifecycle
                       (Cmake.mk home (os_path.join home dir)) (app1, w))
               \/ (checks_pass w home dir = false
                   /\ exists e, ProjectBuilder.Run (app, w)
                                = (Raise e, (app1, w)))
           | _, _ => exists e, ProjectBuilder.Run (app, w)
                               = (Raise e, (app1, w))
           end
       end.
Proof.
  intros Hcreate.
  destruct (Load_world (ProjectBuilder.__setting app) w) as (rl & st & El & _).
  exists rl, st. split; [exact El|]. intros app1.
  unfold ProjectBuilder.Run. run_m. rewrite Hcreate. simpl. rewrite El. simpl.
  destruct rl as [[]|e]; [|reflexivity].
  fold app1. unfold fspath.
  destruct (BuildSetting.projectHome (BuildSetting.values st)) as [| | |home| |];
    simpl; eauto;
    destruct (BuildSetting.buildDirectory (BuildSetting.values st))
      as [| | |dir| |]; simpl; eauto.
  destruct (init_cases home dir w) as [Ei Hfail]. simpl in Ei, Hfail.
  destruct (checks_pass w home dir).
  - rewrite Ei. simpl. left. auto.
  - destruct (Hfail eq_refl) as [e ->]. simpl. right. eauto.
Qed.

End Run.

(** ** Clean *)

Section Clean.
Context `{Platform}.

Lemma Load_absent (s : BuildSetting.t) (w : World) :
  os.exists_in w (BuildSetting.__path s) = false ->
  BuildSetting.Load (s, w)
  = (Raise (Error RuntimeError "buildsettings.json does not exist."), (s, w)).
Proof.
  intros E. unfold BuildSetting.Load, os.path_exists. run_m. rewrite E.
  destruct s; reflexivity.
Qed.

Lemma Run_lifecycle_clean (cmake : Cmake.t) (app : ProjectBuilder.t)
    (w : World) :
  ProjectBuilder.doCleanup (ProjectBuilder.__controls app) = true ->
  ProjectBuilder.Run_lifecycle cmake (app, w)
  = match Cmake.Cleanup cmake w with
    | (Ok _, w') =>
        (Ok tt,
         (ProjectBuilder.set_response "Cleaned up project repository." app,
          w'))
    | (Raise e, w') => (Raise e, (app, w'))
    end.
Proof.
  intros Hc. unfold ProjectBuilder.Run_lifecycle. run_m. rewrite Hc. simpl.
  destruct (Cmake.Cleanup cmake w) as [[[]|e] w']; reflexivity.
Qed.

(** C10, as the code has it.  In a run with [--clean] and without
    [--create-settings]: if the run changed anything in the process
    (its trace and its file system included), then the settings had
    loaded, both existence checks of the [Cmake] constructor had passed,
    and the change is that of [Cleanup]; if the settings file is absent
    the run raises and changes nothing; and if the settings load but a
    check fails the run raises and changes nothing. *)
Theorem Run_clean_only_after_checks
    (app app' : ProjectBuilder.t) (w w' : World) (r : result unit) :
  ProjectBuilder.doCleanup (ProjectBuilder.__controls app) = true ->
  ProjectBuilder.createSetting (ProjectBuilder.__controls app) = false ->
  ProjectBuilder.Run (app, w) = (r, (app', w')) ->
  (w' <> w ->
   exists st home dir,
     BuildSetting.Load (ProjectBuilder.__setting app, w) = (Ok tt, (st, w))
     /\ BuildSetting.projectHome (BuildSetting.values st) = JStr home
     /\ BuildSetting.buildDirectory (BuildSetting.values st) = JStr dir
     /\ checks_pass w home dir = true
     /\ w' = (Cmake.Cleanup (Cmake.mk home (os_path.join home dir)) w).2)
  /\ (os.exists_in w (BuildSetting.__path (ProjectBuilder.__setting app))
      = false ->
      r = Raise (Error RuntimeError "buildsettings.json does not exist.")
      /\ w' = w)
  /\ (forall st home dir,
        BuildSetting.Load (ProjectBuilder.__setting app, w)
        = (Ok tt, (st, w)) ->
        BuildSetting.projectHome (BuildSetting.values st) = JStr home ->
        BuildSetting.buildDirectory (BuildSetting.values st) = JStr dir ->
        checks_pass w home dir = false ->
        (exists e, r = Raise e) /\ w' = w).
Proof.
  intros Hclean Hcreate Hrun.
  destruct (Run_cases app w Hcreate) as (rl & st & El & Hcases).
  simpl in Hcases. split; [|split].
  - intros Hchanged. destruct rl as [[]|e].
    + destruct (BuildSetting.projectHome (BuildSetting.values st))
        as [| | |home| |] eqn:Eh;
        try (destruct Hcases as [e He]; rewrite He in Hrun; simplify_eq).
      destruct (BuildSetting.buildDirectory (BuildSetting.values st))
        as [| | |dir| |] eqn:Ed;
        try (destruct Hcases as [e He]; rewrite He in Hrun; simplify_eq).
      destruct Hcases as [[Hc He]|[Hc [e He]]];
        rewrite He in Hrun; [|simplify_eq].
      rewrite Run_lifecycle_clean in Hrun by exact Hclean.
      exists st, home, dir. repeat (split; [auto|]).
      destruct (Cmake.Cleanup _ w) as [[[]|e] w2]; simplify_eq; reflexivity.
    + rewrite Hcases in Hrun. simplify_eq.
  - intros Habsent. rewrite (Load_absent _ _ Habsent) in El.
    injection El as <- <-. rewrite Hcases in Hrun. simplify_eq. auto.
  - intros st' home dir El' Eh Ed Hc. rewrite El' in El. injection El as <- <-.
    rewrite Eh, Ed in Hcases.
    destruct Hcases as [[Hc' _]|[_ [e He]]]; [congruence|].
    rewrite He in Hrun. simplify_eq. eauto.
Qed.

End Clean.

(** C10, as stated, fails: with [--create-settings] next to [--clean]
    and no settings file, the run raises nothing; it writes the
    settings file and reports that. *)
Lemma clean_with_create_settings_raises_nothing :
  let w := sample_world None ["--clean"; "--create-settings"] in
  let start := ProjectBuilder.__init__ (module_file w) in
  exists app w',
    bind (@ProjectBuilder.Setup (stub 0 0))
      (fun _ => @ProjectBuilder.Run (stub 0 0)) (start, w)
    = (Ok tt, (app, w'))
    /\ ProjectBuilder.doCleanup (ProjectBuilder.__controls app) = true
    /\ os.exists_in w (BuildSetting.__path (ProjectBuilder.__setting app))
       = false
    /\ fs w' !! settings_path
       = Some (File (stub_json_dump BuildSetting.__TEMPLATE))
    /\ (@main (stub 0 0) w).1 = Ok tt
    /\ stdout (@main (stub 0 0) w).2
       = ["Successfully created 'buildsettings.json'"].
Proof.
  do 2 eexists. split; [vm_compute; reflexivity|].
  repeat split; vm_compute; reflexivity.
Qed.

Lemma Run_clean_only_after_checks_witness :
  let w := sample_world (Some settings_proj) ["--clean"] in
  let app := ProjectBuilder.set_controls
               (ProjectBuilder.mkControls true true true false false)
               (ProjectBuilder.__init__ (module_file w)) in
  let res := @ProjectBuilder.Run (stub 0 0) (app, w) in
  ProjectBuilder.doCleanup (ProjectBuilder.__controls app) = true
  /\ ProjectBuilder.createSetting (ProjectBuilder.__controls app) = false
  /\ res.2.2 <> w
  /\ exists st home dir,
       @BuildSetting.Load (stub 0 0) (ProjectBuilder.__setting app, w)
       = (Ok tt, (st, w))
       /\ BuildSetting.projectHome (BuildSetting.values st) = JStr home
       /\ BuildSetting.buildDirectory (BuildSetting.values st) = JStr dir
       /\ checks_pass w home dir = true
       /\ res.2.2 = (Cmake.Cleanup (Cmake.mk home (os_path.join home dir)) w).2.
Proof.
  intros w app res.
  assert (Hrun : @ProjectBuilder.Run (stub 0 0) (app, w)
                 = (res.1, (res.2.1, res.2.2)))
    by (fold res; destruct res as [? [? ?]]; reflexivity).
  assert (Hne : res.2.2 <> w).
  { intros E. apply (f_equal trace) in E. vm_compute in E. discriminate. }
  split; [reflexivity|]. split; [reflexivity|]. split; [exact Hne|].
  exact (proj1 (@Run_clean_only_after_checks (stub 0 0) app res.2.1 w res.2.2
                  res.1 eq_refl eq_refl Hrun) Hne).
Defined.

(** A project home that names a regular file, followed by a separator,
    does not exist for [os.path.exists]: the first check of the
    constructor fails and the run with [--clean] leaves the build
    directory and what is in it alone. *)
Lemma Run_clean_home_is_a_file :
  let w := sample_world_with "home-is-a-file" ["--clean"] in
  let app := sample_app (ProjectBuilder.mkControls true true true false false)
               no_flags in
  os.exists_in w "/proj/CMakeLists.txt" = true
  /\ os.exists_in w "/proj/CMakeLists.txt/" = false
  /\ checks_pass w "/proj/CMakeLists.txt/" "../build" = false
  /\ exists app',
       @ProjectBuilder.Run (stub_loading load_home_file 0 0) (app, w)
       = (Raise (Error FileNotFoundError
                   "ProjectHome does not exist. '/proj/CMakeLists.txt/'"),
          (app', w))
       /\ fs w !! ["proj"; "build"; "CMakeCache.txt"]
          = Some (File "CMAKE_BUILD_TYPE:STRING=").
Proof.
  intros w app. split; [vm_compute; reflexivity|].
  split; [vm_compute; reflexivity|]. split; [vm_compute; reflexivity|].
  eexists. split; vm_compute; reflexivity.
Qed.

(** ** Configure, then Build *)

Ltac inner_match_in H :=
  match type of H with
  | context [match ?x with _ => _ end] =>
      lazymatch x with
      | context [match _ with _ => _ end] => fail
      | _ => destruct x eqn:?; simpl in H
      end
  end.

(** Close a goal [exists evs, trace w' = trace w ++ evs /\ ...] when
    [trace w'] is [trace w] with events appended one by one. *)
Ltac trace_shape :=
  simpl; rewrite <- ?app_assoc; simpl;
  eexists; split; [try reflexivity; symmetry; apply app_nil_r|]; simpl.

Lemma spawns_app (l1 l2 : list Event) :
  spawns (l1 ++ l2) = spawns l1 ++ spawns l2.
Proof.
  induction l1 as [|[] l1 IH]; simpl; rewrite ?IH; reflexivity.
Qed.

Section Order.
Context `{Platform}.

Lemma chdir_trace (p : option string) (w w' : World) (r : result unit) :
  os.chdir p w = (r, w') ->
  exists evs, trace w' = trace w ++ evs /\ spawns evs = [].
Proof.
  unfold os.chdir. destruct p as [p|]; intros Hrun;
    [|inversion Hrun; subst; trace_shape; reflexivity].
  repeat inner_match_in Hrun; inversion Hrun; subst; trace_shape; reflexivity.
Qed.

Lemma Exit_trace (self : Cmake.t) (w w' : World) (r : result unit) :
  Cmake.__Exit self w = (r, w') ->
  exists evs, trace w' = trace w ++ evs /\ spawns evs = [].
Proof.
  unfold Cmake.__Exit, os.getenv_OLDPWD. run_m. apply chdir_trace.
Qed.

Lemma Configure_spawns (self : Cmake.t) (w w' : World) (r : result bool) :
  Cmake.Configure self w = (r, w') ->
  exists evs, trace w' = trace w ++ evs /\
    ((spawns evs = [] /\ exists e, r = Raise e)
     \/ (spawns evs = [(configure_command self, 0%Z)] /\ r = Ok true)
     \/ (exists rc, rc <> 0%Z /\ spawns evs = [(configure_command self, rc)]
                    /\ r <> Ok true)).
Proof.
  unfold Cmake.Configure. run_m. fold (configure_command self).
  destruct (Debug_Print_spec
              ("command: " +:+ str_list (configure_command self)) w)
    as (w0 & -> & (lines & -> & _)).
  unfold Cmake.__Enter.
  destruct (os.chdir _ _) as [[[]|e] w1] eqn:Ec.
  - apply chdir_cwd in Ec as (_ & _ & ->). simpl.
    rewrite RunSimply_run. simpl.
    destruct (execve _ _ _) as [rc f err|cls msg].
    + destruct (rc =? 0)%Z eqn:Erc.
      * apply Z.eqb_eq in Erc as ->. intros [= <- <-]. trace_shape.
        right. left. split; reflexivity.
      * apply Z.eqb_neq in Erc.
        destruct (Cmake.__Exit self _) as [[[]|e] w2] eqn:Ex;
          apply Exit_trace in Ex as (evs & Ht & Hs); simpl in Ht;
          intros [= <- <-]; rewrite Ht; trace_shape;
          right; right; exists rc; rewrite Hs;
          (split; [exact Erc|split; [reflexivity|discriminate]]).
    + intros [= <- <-]. trace_shape. left. eauto.
  - apply chdir_trace in Ec as (evs & Ht & Hs). simpl in Ht.
    intros [= <- <-]. exists evs. split; [exact Ht|]. left. eauto.
Qed.

Lemma Build_spawns (self : Cmake.t) (tgt : string) (bt : option string)
    (v : bool) (extra : option (list string)) (w w' : World)
    (r : result bool) :
  Cmake.Build self tgt bt v extra w = (r, w') ->
  exists evs, trace w' = trace w ++ evs /\
    ((spawns evs = [] /\ exists e, r = Raise e)
     \/ exists rc, spawns evs = [(Cmake.Build_command self tgt bt v extra, rc)]).
Proof.
  unfold Cmake.Build. run_m.
  destruct (Debug_Print_spec
              ("command: " +:+ str_list
                 (Cmake.Build_command self tgt bt v extra)) w)
    as (w0 & -> & (lines & -> & _)).
  unfold Cmake.__Enter.
  destruct (os.chdir _ _) as [[[]|e] w1] eqn:Ec.
  - apply chdir_cwd in Ec as (_ & _ & ->). simpl.
    rewrite RunSimply_run. simpl.
    destruct (execve _ _ _) as [rc f err|cls msg].
    + destruct (rc =? 0)%Z;
        destruct (Cmake.__Exit self _) as [[[]|e] w2] eqn:Ex;
        apply Exit_trace in Ex as (evs & Ht & Hs); simpl in Ht;
        intros [= <- <-]; rewrite Ht; trace_shape;
        right; exists rc; rewrite Hs; reflexivity.
    + intros [= <- <-]. trace_shape. left. eauto.
  - apply chdir_trace in Ec as (evs & Ht & Hs). simpl in Ht.
    intros [= <- <-]. exists evs. split; [exact Ht|]. left. eauto.
Qed.

Lemma rmdir_trace (p : string) (w w' : World) (r : result unit) :
  rmdir p w = (r, w') -> trace w' = trace w /\ cwd w' = cwd w.
Proof.
  unfold rmdir. intros Hrun.
  repeat inner_match_in Hrun; simplify_eq; split; reflexivity.
Qed.

Lemma rmtree_trace (p : string) (w w' : World) (r : result unit) :
  shutil.rmtree p w = (r, w') ->
  exists evs, trace w' = trace w ++ evs /\ spawns evs = [].
Proof.
  unfold shutil.rmtree. intros Hrun.
  destruct (resolve w p) as [q|]; [|simplify_eq; trace_shape; reflexivity].
  destruct (fs w !! q) as [[t|]|];
    try (simplify_eq; trace_shape; reflexivity).
  apply rmdir_trace in Hrun as [-> _]. trace_shape. reflexivity.
Qed.

Lemma mkdir_trace (p : string) (w w' : World) (r : result unit) :
  os.mkdir p w = (r, w') ->
  exists evs, trace w' = trace w ++ evs /\ spawns evs = [].
Proof.
  unfold os.mkdir. intros Hrun.
  repeat inner_match_in Hrun; simplify_eq; trace_shape; reflexivity.
Qed.

Lemma write_file_trace (p text : string) (w w' : World) (r : result unit) :
  write_file p text w = (r, w') ->
  exists evs, trace w' = trace w ++ evs /\ spawns evs = [].
Proof.
  unfold write_file. intros Hrun.
  repeat inner_match_in Hrun; simplify_eq; trace_shape; reflexivity.
Qed.

Lemma Cleanup_trace (self : Cmake.t) (w w' : World) (r : result unit) :
  Cmake.Cleanup self w = (r, w') ->
  exists evs, trace w' = trace w ++ evs /\ spawns evs = [].
Proof.
  unfold Cmake.Cleanup, bind. intros Hrun.
  destruct (shutil.rmtree _ w) as [[[]|e] w1] eqn:Erm;
    apply rmtree_trace in Erm as (evs1 & Ht1 & Hs1).
  - apply mkdir_trace in Hrun as (evs2 & Ht2 & Hs2).
    exists (evs1 ++ evs2). rewrite Ht2, Ht1, app_assoc, spawns_app, Hs1, Hs2.
    split; reflexivity.
  - simplify_eq. eauto.
Qed.

Lemma Create_trace (s s' : BuildSetting.t) (w w' : World) (r : result unit) :
  BuildSetting.Create (s, w) = (r, (s', w')) ->
  exists evs, trace w' = trace w ++ evs /\ spawns evs = [].
Proof.
  unfold BuildSetting.Create, os.path_exists. run_m. intros Hrun.
  destruct (os.exists_in w _).
  - simplify_eq. trace_shape. reflexivity.
  - simpl in Hrun.
    destruct (write_file _ _ w) as [r0 w0] eqn:Ew.
    apply write_file_trace in Ew. simplify_eq. exact Ew.
Qed.

(** What is left of [Run] when it gets past the settings: either it
    raised and nothing happened, or it is the life cycle on a [cmake]
    whose checks passed, in the process as it was. *)
Lemma Run_reaches_lifecycle (app : ProjectBuilder.t) (w : World) :
  ProjectBuilder.createSetting (ProjectBuilder.__controls app) = false ->
  (exists e app1, ProjectBuilder.Run (app, w) = (Raise e, (app1, w)))
  \/ (exists cmake st,
        ProjectBuilder.Run (app, w)
        = ProjectBuilder.Run_lifecycle cmake
            (ProjectBuilder.set_setting st app, w)).
Proof.
  intros Hcreate.
  destruct (Run_cases app w Hcreate) as (rl & st & El & Hcases).
  simpl in Hcases. destruct rl as [[]|e]; [|eauto].
  destruct (BuildSetting.projectHome (BuildSetting.values st))
    as [| | |home| |]; try (destruct Hcases as [e He]; eauto).
  destruct (BuildSetting.buildDirectory (BuildSetting.values st))
    as [| | |dir| |]; try (destruct Hcases as [e He]; eauto).
  destruct Hcases as [[_ He]|[_ [e He]]]; eauto.
Qed.

Lemma short_cuts_spawn_nothing
    (app app' : ProjectBuilder.t) (w w' : World) (r : result unit) :
  ProjectBuilder.createSetting (ProjectBuilder.__controls app) = true
  \/ ProjectBuilder.doCleanup (ProjectBuilder.__controls app) = true ->
  ProjectBuilder.Run (app, w) = (r, (app', w')) ->
  exists evs, trace w' = trace w ++ evs /\ spawns evs = [].
Proof.
  intros Hflags Hrun.
  destruct (ProjectBuilder.createSetting (ProjectBuilder.__controls app))
    eqn:Hcreate.
  { unfold ProjectBuilder.Run in Hrun. run_m_in Hrun.
    rewrite Hcreate in Hrun. simpl in Hrun.
    destruct (BuildSetting.Create _) as [rc [s1 w1]] eqn:Ec.
    apply Create_trace in Ec as (evs & Ht & Hs).
    exists evs. destruct rc; simplify_eq; auto. }
  destruct Hflags as [|Hclean]; [discriminate|].
  destruct (Run_reaches_lifecycle app w Hcreate)
    as [(e & app1 & He)|(cmake & st & He)]; rewrite He in Hrun.
  - simplify_eq. trace_shape. reflexivity.
  - rewrite Run_lifecycle_clean in Hrun by exact Hclean.
    destruct (Cmake.Cleanup cmake w) as [rc w1] eqn:Ec.
    apply Cleanup_trace in Ec as (evs & Ht & Hs).
    exists evs. destruct rc as [[]|]; simplify_eq; auto.
Qed.

Lemma Run_lifecycle_both (cmake : Cmake.t) (app : ProjectBuilder.t)
    (w : World) :
  ProjectBuilder.doCleanup (ProjectBuilder.__controls app) = false ->
  ProjectBuilder.doConfiguration (ProjectBuilder.__controls app) = true ->
  ProjectBuilder.doBuild (ProjectBuilder.__controls app) = true ->
  ProjectBuilder.Run_lifecycle cmake (app, w)
  = match Cmake.Configure cmake w with
    | (Ok true, w1) =>
        match ProjectBuilder.__arguments app with
        | Some a =>
            match Cmake.Build cmake (target a) (Some (type a)) (verbose a)
                    (Some (split_on comma (cmake_args a))) w1 with
            | (Ok _, w2) => (Ok tt, (app, w2))
            | (Raise e, w2) => (Raise e, (app, w2))
            end
        | None =>
            (Raise (Error AttributeError
               "'ProjectBuilder' object has no attribute '_ProjectBuilder__arguments'"),
             (app, w1))
        end
    | (Ok false, w1) => (Ok tt, (app, w1))
    | (Raise e, w1) => (Raise e, (app, w1))
    end.
Proof.
  intros Hc Hconf Hb. unfold ProjectBuilder.Run_lifecycle. run_m.
  rewrite Hc, Hconf. simpl.
  destruct (Cmake.Configure cmake w) as [[[]|e] w1]; simpl; try reflexivity.
  rewrite Hb. unfold ProjectBuilder.arguments. run_m.
  destruct (ProjectBuilder.__arguments app) as [a|]; simpl; [|reflexivity].
  destruct (Cmake.Build _ _ _ _ _ _) as [[b|e] w2]; reflexivity.
Qed.

(** C6, as the code has it.  When the parsed arguments have neither
    the configure-only flag nor the build-only flag, [Setup] returns
    with both [doConfiguration] and [doBuild] true in the controls.
    If, besides, neither [--clean] nor [--create-settings] is given,
    the settings load with strings for both keys and the checks of the
    [Cmake] constructor pass, then [Run] is [Configure], followed,
    exactly when [Configure] returned [True], by [Build] with the parsed
    arguments in the process as [Configure] left it.  With [--clean] or
    [--create-settings] the run starts no child process at all. *)
Theorem Setup_then_Run_configures_then_builds
    (app : ProjectBuilder.t) (w : World) (a : Namespace) :
  parse_args (ProjectBuilder.__system app) (sys_argv w) = Parsed a ->
  configure a = false ->
  build a = false ->
  exists app1 w1,
    ProjectBuilder.Setup (app, w) = (Ok tt, (app1, w1))
    /\ ProjectBuilder.doConfiguration (ProjectBuilder.__controls app1) = true
    /\ ProjectBuilder.doBuild (ProjectBuilder.__controls app1) = true
    /\ (clean a = false -> create_settings a = false ->
        forall st home dir,
          BuildSetting.Load (ProjectBuilder.__setting app1, w1)
          = (Ok tt, (st, w1)) ->
          BuildSetting.projectHome (BuildSetting.values st) = JStr home ->
          BuildSetting.buildDirectory (BuildSetting.values st) = JStr dir ->
          checks_pass w1 home dir = true ->
          let cmake := Cmake.mk home (os_path.join home dir) in
          let app2 := ProjectBuilder.set_setting st app1 in
          ProjectBuilder.Run (app1, w1)
          = match Cmake.Configure cmake w1 with
            | (Ok true, w2) =>
                match Cmake.Build cmake (target a) (Some (type a))
                        (verbose a) (Some (split_on comma (cmake_args a)))
                        w2 with
                | (Ok _, w3) => (Ok tt, (app2, w3))
                | (Raise e, w3) => (Raise e, (app2, w3))
                end
            | (Ok false, w2) => (Ok tt, (app2, w2))
            | (Raise e, w2) => (Raise e, (app2, w2))
            end)
    /\ (clean a = true \/ create_settings a = true ->
        forall r app2 w2,
          ProjectBuilder.Run (app1, w1) = (r, (app2, w2)) ->
          exists evs, trace w2 = trace w1 ++ evs /\ spawns evs = []).
Proof.
  intros Hp Hc Hb. destruct (Setup_run app w a Hp) as (w1 & HS & _).
  set (app1 := ProjectBuilder.set_controls _ _) in HS.
  assert (Hctl : ProjectBuilder.__controls app1
                 = ProjectBuilder.mkControls true true (clean a)
                     (create_settings a) (debug a)).
  { unfold app1, ProjectBuilder.verified. simpl. now rewrite Hc, Hb. }
  exists app1, w1. split; [exact HS|].
  split; [now rewrite Hctl|]. split; [now rewrite Hctl|]. split.
  - intros Hclean Hcreate st home dir El Eh Ed Hchk cmake app2.
    destruct (Run_cases app1 w1) as (rl & st' & El' & Hcases);
      [now rewrite Hctl|].
    rewrite El in El'. injection El' as <- <-.
    simpl in Hcases. rewrite Eh, Ed in Hcases.
    destruct Hcases as [[_ ->]|[Hno _]]; [|congruence].
    rewrite Run_lifecycle_both; [reflexivity| | |];
      change (ProjectBuilder.__controls (ProjectBuilder.set_setting st app1))
        with (ProjectBuilder.__controls app1);
      rewrite Hctl; simpl; auto.
  - intros Hflags r app2 w2 Hrun.
    apply (short_cuts_spawn_nothing app1 app2 w1 w2 r); [|exact Hrun].
    rewrite Hctl. simpl. tauto.
Qed.

(** C5.  In a run with configure and build both requested, the child
    processes are, in order: none; or the configure command alone; or
    the configure command, which exited with 0, and then the build
    command.  So the build command never runs before the configure
    command nor after a configure command that failed; and when the
    configure command succeeded and no build command ran, the attempt to
    build raised an error. *)
Theorem Run_configure_before_build
    (app app' : ProjectBuilder.t) (w w' : World) (r : result unit) :
  ProjectBuilder.doConfiguration (ProjectBuilder.__controls app) = true ->
  ProjectBuilder.doBuild (ProjectBuilder.__controls app) = true ->
  ProjectBuilder.Run (app, w) = (r, (app', w')) ->
  exists evs, trace w' = trace w ++ evs /\
    (spawns evs = []
     \/ exists cmake,
          (exists rc, spawns evs = [(configure_command cmake, rc)]
                      /\ (rc <> 0%Z \/ exists e, r = Raise e))
          \/ (exists a rc,
                ProjectBuilder.__arguments app = Some a
                /\ spawns evs
                   = [(configure_command cmake, 0%Z);
                      (Cmake.Build_command cmake (target a) (Some (type a))
                         (verbose a) (Some (split_on comma (cmake_args a))),
                       rc)])).
Proof.
  intros Hconf Hb Hrun.
  destruct (ProjectBuilder.createSetting (ProjectBuilder.__controls app))
    eqn:Hcreate.
  { unfold ProjectBuilder.Run in Hrun. run_m_in Hrun.
    rewrite Hcreate in Hrun. simpl in Hrun.
    destruct (BuildSetting.Create _) as [rc [s1 w1]] eqn:Ec.
    apply Create_trace in Ec as (evs & Ht & Hs).
    exists evs. destruct rc; simplify_eq; auto. }
  destruct (Run_cases app w Hcreate) as (rl & st & El & Hcases).
  simpl in Hcases.
  assert (Hnothing : forall e x, ProjectBuilder.Run (app, w) = (Raise e, (x, w))
            -> exists evs, trace w' = trace w ++ evs /\ spawns evs = []).
  { intros e x He. rewrite He in Hrun. simplify_eq. trace_shape. reflexivity. }
  destruct rl as [[]|e];
    [|destruct (Hnothing _ _ Hcases) as (evs & ? & ?); eauto].
  destruct (BuildSetting.projectHome (BuildSetting.values st))
    as [| | |home| |];
    try (destruct Hcases as [e He];
         destruct (Hnothing _ _ He) as (evs & ? & ?); eauto).
  destruct (BuildSetting.buildDirectory (BuildSetting.values st))
    as [| | |dir| |];
    try (destruct Hcases as [e He];
         destruct (Hnothing _ _ He) as (evs & ? & ?); eauto).
  destruct Hcases as [[_ He]|[_ [e He]]];
    [|destruct (Hnothing _ _ He) as (evs & ? & ?); eauto].
  clear Hnothing. rewrite He in Hrun. clear He.
  set (cmake := Cmake.mk home (os_path.join home dir)) in *.
  destruct (ProjectBuilder.doCleanup (ProjectBuilder.__controls app))
    eqn:Hclean.
  { rewrite Run_lifecycle_clean in Hrun by (simpl; exact Hclean).
    destruct (Cmake.Cleanup cmake w) as [rc w1] eqn:Ec.
    apply Cleanup_trace in Ec as (evs & Ht & Hs).
    exists evs. destruct rc as [[]|]; simplify_eq; auto. }
  rewrite Run_lifecycle_both in Hrun by assumption.
  destruct (Cmake.Configure cmake w) as [rc w1] eqn:Ec.
  apply Configure_spawns in Ec
    as (evs & Ht & [[Hs [e ->]]|[[Hs ->]|(c & Hc & Hs & Hr)]]).
  - simplify_eq. eauto.
  - simpl in Hrun.
    destruct (ProjectBuilder.__arguments app) as [a|] eqn:Ea.
    + destruct (Cmake.Build _ _ _ _ _ _) as [rb w2] eqn:Eb.
      apply Build_spawns in Eb as (evs2 & Ht2 & [[Hs2 [e ->]]|[c Hs2]]).
      * simplify_eq. exists (evs ++ evs2). split.
        { rewrite Ht2, Ht. now rewrite app_assoc. }
        right. exists cmake. left. exists 0%Z.
        rewrite spawns_app, Hs, Hs2. split; [reflexivity|eauto].
      * exists (evs ++ evs2). split.
        { destruct rb; simplify_eq; rewrite Ht2, Ht; now rewrite app_assoc. }
        right. exists cmake. right. exists a, c.
        rewrite spawns_app, Hs, Hs2. split; reflexivity.
    + simplify_eq. exists evs. split; [exact Ht|].
      right. exists cmake. left. exists 0%Z. split; [exact Hs|eauto].
  - exists evs.
    destruct rc as [[]|e]; [congruence| |]; simplify_eq;
      (split; [exact Ht|]); right; exists cmake; left; exists c; auto.
Qed.

(** A [Configure] that returns [False] ends the run where it left the
    process: [Build] is not entered. *)
Lemma Run_lifecycle_stops_after_failed_Configure
    (cmake : Cmake.t) (app : ProjectBuilder.t) (w w1 : World) :
  ProjectBuilder.doCleanup (ProjectBuilder.__controls app) = false ->
  ProjectBuilder.doConfiguration (ProjectBuilder.__controls app) = true ->
  Cmake.Configure cmake w = (Ok false, w1) ->
  ProjectBuilder.Run_lifecycle cmake (app, w) = (Ok tt, (app, w1)).
Proof.
  intros Hc Hconf Ec. unfold ProjectBuilder.Run_lifecycle. run_m.
  rewrite Hc, Hconf. simpl. rewrite Ec. reflexivity.
Qed.

End Order.

(** ** What a run prints *)

Section Tame.
Context {S : Type} (I : S -> Prop).

Lemma tame_ret {A} (a : A) : tame I (ret a).
Proof. intros s Hs. split; [exact Hs|discriminate]. Qed.

Lemma tame_raise {A} (cls : exn_class) (msg : string) :
  tame I (@raise S A (Error cls msg)).
Proof. intros s Hs. split; [exact Hs|discriminate]. Qed.

Lemma tame_gets {A} (f : S -> A) : tame I (gets f).
Proof. intros s Hs. split; [exact Hs|discriminate]. Qed.

Lemma tame_modify (f : S -> S) :
  (forall s, I s -> I (f s)) -> tame I (modify f).
Proof. intros Hf s Hs. split; [now apply Hf|discriminate]. Qed.

Lemma tame_bind {A B} (m : M S A) (k : A -> M S B) :
  tame I m -> (forall a, tame I (k a)) -> tame I (bind m k).
Proof.
  intros Hm Hk s Hs. unfold bind. destruct (Hm s Hs) as [H1 H2].
  destruct (m s) as [[a|e] s1]; simpl in *.
  - now apply Hk.
  - split; [exact H1|]. intros c [= ->]. now apply (H2 c).
Qed.

Lemma tame_try {A} (m : M S A) (caught : exn -> bool) (h : exn -> M S A) :
  tame I m -> (forall e, tame I (h e)) -> tame I (try_except m caught h).
Proof.
  intros Hm Hh s Hs. unfold try_except. destruct (Hm s Hs) as [H1 H2].
  destruct (m s) as [[a|e] s1]; simpl in *.
  - split; [exact H1|discriminate].
  - destruct (caught e); [now apply Hh|].
    split; [exact H1|]. intros c E. now apply (H2 c).
Qed.

Lemma tame_if {A} (b : bool) (m1 m2 : M S A) :
  tame I m1 -> tame I m2 -> tame I (if b then m1 else m2).
Proof. destruct b; auto. Qed.

End Tame.

Lemma tame_on_snd {X S A} (J : S -> Prop) (m : M S A) :
  tame J m -> tame (fun xs : X * S => J xs.2) (on_snd m).
Proof.
  intros Hm [x s] Hs. unfold on_snd. simpl in *.
  destruct (Hm s Hs) as [H1 H2]. destruct (m s) as [r s1]. simpl in *. auto.
Qed.

Lemma tame_zoom {X Y S A} (J : S -> Prop) (get : X -> Y) (set : Y -> X -> X)
    (m : M (Y * S) A) :
  tame (fun ys : Y * S => J ys.2) m ->
  tame (fun xs : X * S => J xs.2) (zoom get set m).
Proof.
  intros Hm [x s] Hs. unfold zoom. simpl in *.
  destruct (Hm (get x, s) Hs) as [H1 H2].
  destruct (m (get x, s)) as [r [y s1]]. simpl in *. auto.
Qed.

(** The rules above, applied as far as the syntax goes. *)
Ltac tame_step :=
  first
    [ apply tame_ret | apply tame_raise | apply tame_gets
    | apply tame_bind; [|intros ?] | apply tame_try; [|intros ?]
    | apply tame_if | apply tame_on_snd | apply tame_zoom
    | apply tame_modify; let s := fresh in intros s; exact (fun x => x) ].

Create HintDb tame.

Section Quiet.
Context `{Platform}.
Variable out : list string.

(** A primitive that touches neither the output nor the debug flag. *)
Ltac primitive :=
  let w := fresh "w" in
  let Hd := fresh "Hd" in
  let Ho := fresh "Ho" in
  intros w [Hd Ho]; simpl; repeat inner_match;
  (split; [split; assumption|discriminate]).

Lemma tame_Print (message : string) : tame (silent out) (Debug.Print message).
Proof.
  intros w [Hd Ho]. rewrite (Debug_Print_off _ _ Hd).
  split; [split; assumption|discriminate].
Qed.

Lemma tame_chdir (p : option string) : tame (silent out) (os.chdir p).
Proof. unfold os.chdir, raise. destruct p; primitive. Qed.

Lemma tame_mkdir (p : string) : tame (silent out) (os.mkdir p).
Proof. unfold os.mkdir. primitive. Qed.

Lemma tame_rmdir (p : string) : tame (silent out) (rmdir p).
Proof. unfold rmdir. primitive. Qed.

Lemma tame_rmtree (p : string) : tame (silent out) (shutil.rmtree p).
Proof.
  intros w [Hd Ho]. unfold shutil.rmtree.
  destruct (resolve w p) as [q|];
    [|split; [split; assumption|discriminate]].
  destruct (fs w !! q) as [[t|]|];
    try (split; [split; assumption|discriminate]).
  apply tame_rmdir. split; assumption.
Qed.

Lemma tame_read_file (p : string) : tame (silent out) (read_file p).
Proof. unfold read_file. primitive. Qed.

Lemma tame_write_file (p text : string) :
  tame (silent out) (write_file p text).
Proof. unfold write_file. primitive. Qed.

Lemma tame_RunSimply (command : list string) :
  tame (silent out) (SubProcessWrapper.RunSimply command).
Proof.
  intros w [Hd Ho]. rewrite RunSimply_run.
  destruct (execve _ _ _); (split; [split; assumption|discriminate]).
Qed.

Lemma tame_subscript {S} (I : S -> Prop) (obj : json) (key : string) :
  tame I (subscript obj key).
Proof.
  unfold subscript. destruct obj; try apply tame_raise.
  destruct (assoc key members); [apply tame_ret|apply tame_raise].
Qed.

Lemma tame_fspath {S} (I : S -> Prop) (v : json) : tame I (fspath v).
Proof. unfold fspath. destruct v; first [apply tame_ret|apply tame_raise]. Qed.

Lemma tame_join_argument {S} (I : S -> Prop) (v : json) :
  tame I (join_argument v).
Proof.
  unfold join_argument. destruct v; first [apply tame_ret|apply tame_raise].
Qed.

Hint Resolve tame_Print tame_chdir tame_mkdir tame_rmtree tame_read_file
  tame_write_file tame_RunSimply tame_subscript tame_fspath
  tame_join_argument : tame.

Ltac tame_all := repeat (first [solve [auto with tame] | tame_step]).

Lemma tame_Configure (self : Cmake.t) :
  tame (silent out) (Cmake.Configure self).
Proof.
  unfold Cmake.Configure, Cmake.__Enter, Cmake.__Exit, os.getenv_OLDPWD.
  tame_all.
Qed.

Lemma tame_Build (self : Cmake.t) (tgt : string) (bt : option string)
    (v : bool) (extra : option (list string)) :
  tame (silent out) (Cmake.Build self tgt bt v extra).
Proof.
  unfold Cmake.Build, Cmake.__Enter, Cmake.__Exit, os.getenv_OLDPWD.
  tame_all.
Qed.

Lemma tame_Cleanup (self : Cmake.t) : tame (silent out) (Cmake.Cleanup self).
Proof. unfold Cmake.Cleanup. tame_all. Qed.

Lemma tame_init (home bd : string) :
  tame (silent out) (Cmake.__init__ home bd).
Proof. unfold Cmake.__init__, os.path_exists. tame_all. Qed.

Lemma tame_Load :
  tame (fun s : BuildSetting.t * World => silent out s.2) BuildSetting.Load.
Proof.
  unfold BuildSetting.Load, BuildSetting.__import, os.path_exists.
  tame_all. destruct (json_load _); tame_all.
Qed.

Lemma tame_Create :
  tame (fun s : BuildSetting.t * World => silent out s.2) BuildSetting.Create.
Proof. unfold BuildSetting.Create, os.path_exists. tame_all. Qed.

Hint Resolve tame_Configure tame_Build tame_Cleanup tame_init tame_Load
  tame_Create : tame.

Lemma tame_Run :
  tame (fun s : ProjectBuilder.t * World => silent out s.2) ProjectBuilder.Run.
Proof.
  unfold ProjectBuilder.Run, ProjectBuilder.Run_lifecycle,
    ProjectBuilder.arguments.
  tame_all. destruct (ProjectBuilder.__arguments _); tame_all.
Qed.

End Quiet.

Section Output.
Context `{Platform}.

Lemma verified_createSetting (c : ProjectBuilder.Controls) :
  ProjectBuilder.createSetting (ProjectBuilder.verified c)
  = ProjectBuilder.createSetting c.
Proof. unfold ProjectBuilder.verified. destruct (_ && _); reflexivity. Qed.

Lemma verified_doCleanup (c : ProjectBuilder.Controls) :
  ProjectBuilder.doCleanup (ProjectBuilder.verified c)
  = ProjectBuilder.doCleanup c.
Proof. unfold ProjectBuilder.verified. destruct (_ && _); reflexivity. Qed.

Lemma Run_lifecycle_keeps_app (cmake : Cmake.t) (app app' : ProjectBuilder.t)
    (w w' : World) (r : result unit) :
  ProjectBuilder.doCleanup (ProjectBuilder.__controls app) = false ->
  ProjectBuilder.Run_lifecycle cmake (app, w) = (r, (app', w')) ->
  app' = app.
Proof.
  intros Hc. unfold ProjectBuilder.Run_lifecycle, ProjectBuilder.arguments.
  run_m. rewrite Hc. simpl. intros Hrun.
  repeat inner_match_in Hrun; simplify_eq; reflexivity.
Qed.

(** The response a run that raises nothing leaves in the builder. *)
Lemma Run_response (app app' : ProjectBuilder.t) (w w' : World) :
  ProjectBuilder.Run (app, w) = (Ok tt, (app', w')) ->
  ProjectBuilder.response app'
  = if ProjectBuilder.createSetting (ProjectBuilder.__controls app)
    then "Successfully created 'buildsettings.json'"
    else if ProjectBuilder.doCleanup (ProjectBuilder.__controls app)
         then "Cleaned up project repository."
         else ProjectBuilder.response app.
Proof.
  intros Hrun.
  destruct (ProjectBuilder.createSetting (ProjectBuilder.__controls app))
    eqn:Hcreate.
  { unfold ProjectBuilder.Run in Hrun. run_m_in Hrun.
    rewrite Hcreate in Hrun. simpl in Hrun.
    destruct (BuildSetting.Create _) as [[[]|e] [s1 w1]]; simplify_eq.
    reflexivity. }
  destruct (Run_cases app w Hcreate) as (rl & st & El & Hcases).
  simpl in Hcases.
  destruct rl as [[]|e]; [|rewrite Hcases in Hrun; discriminate].
  destruct (BuildSetting.projectHome (BuildSetting.values st))
    as [| | |home| |];
    try (destruct Hcases as [e He]; rewrite He in Hrun; discriminate).
  destruct (BuildSetting.buildDirectory (BuildSetting.values st))
    as [| | |dir| |];
    try (destruct Hcases as [e He]; rewrite He in Hrun; discriminate).
  destruct Hcases as [[_ He]|[_ [e He]]]; rewrite He in Hrun;
    [|discriminate].
  destruct (ProjectBuilder.doCleanup (ProjectBuilder.__controls app))
    eqn:Hclean.
  - rewrite Run_lifecycle_clean in Hrun by (simpl; exact Hclean).
    destruct (Cmake.Cleanup _ w) as [[[]|e] w1]; simplify_eq. reflexivity.
  - apply Run_lifecycle_keeps_app in Hrun; [|simpl; exact Hclean].
    subst app'. reflexivity.
Qed.

(** [main_try] in terms of the outcome of [Setup] followed by [Run]. *)
Lemma main_try_run (s : ProjectBuilder.t * World) :
  main_try s
  = match bind ProjectBuilder.Setup (fun _ => ProjectBuilder.Run) s with
    | (Ok _, (app, w)) =>
        (Ok tt,
         (app, if String.eqb (ProjectBuilder.response app) nil_str then w
               else set_stdout (stdout w ++ [ProjectBuilder.response app]) w))
    | (Raise e, (app, w)) =>
        if is_Exception e
        then (Ok tt,
              (app,
               set_stdout (stdout w ++ [MY_NAME +:+ ": " +:+ str_exn e]) w))
        else (Raise e, (app, w))
    end.
Proof.
  unfold main_try, try_except, bind.
  destruct (ProjectBuilder.Setup s) as [[[]|e] s1]; simpl;
    [|destruct s1; reflexivity].
  destruct (ProjectBuilder.Run s1) as [[[]|e] [app w]]; simpl;
    [|reflexivity].
  unfold gets, on_snd, print, modify, ret. simpl.
  destruct (String.eqb (ProjectBuilder.response app) nil_str); reflexivity.
Qed.

(** C3, as the code has it.  With debugging off, [main] returns and has
    printed: when [Setup] and [Run] raise nothing, the status line of
    [--create-settings] or of [--clean], and no line at all when the
    run configured or built; when they raise an exception [e], the one
    line [C Project Builder: ] followed by [str(e)]. *)
Theorem main_output (w : World) (a : Namespace) :
  parse_args (ProjectBuilder.__system
                (ProjectBuilder.__init__ (module_file w))) (sys_argv w)
  = Parsed a ->
  debug a = false ->
  exists w',
    main w = (Ok tt, w')
    /\ match bind ProjectBuilder.Setup (fun _ => ProjectBuilder.Run)
               (ProjectBuilder.__init__ (module_file w), w) with
       | (Ok _, _) => stdout w' = stdout w ++ status_line a
       | (Raise e, _) =>
           stdout w' = stdout w ++ [MY_NAME +:+ ": " +:+ str_exn e]
       end.
Proof.
  intros Hp Hd.
  set (app := ProjectBuilder.__init__ (module_file w)) in *.
  destruct (Setup_run app w a Hp) as (w1 & Es & Hw1).
  apply only_printed_off in Hw1; [|rewrite Hd; reflexivity]. subst w1.
  rewrite Hd in Es.
  set (app1 := ProjectBuilder.set_controls _ _) in Es.
  set (w1 := set_Debug_enabled false w) in Es.
  assert (Hsess : bind ProjectBuilder.Setup (fun _ => ProjectBuilder.Run)
                    (app, w) = ProjectBuilder.Run (app1, w1))
    by (unfold bind; rewrite Es; reflexivity).
  unfold main. fold app. rewrite main_try_run, Hsess.
  destruct (ProjectBuilder.Run (app1, w1)) as [r [app2 w2]] eqn:Er.
  destruct (tame_Run (stdout w) (app1, w1)) as [[Hd2 Ho2] Hexit];
    [split; reflexivity|].
  rewrite Er in Hd2, Ho2, Hexit. simpl in Hd2, Ho2, Hexit.
  destruct r as [[]|e].
  - apply Run_response in Er. simpl in Er.
    rewrite verified_createSetting, verified_doCleanup in Er. simpl in Er.
    rewrite Er. unfold status_line.
    destruct (create_settings a); [|destruct (clean a)]; simpl;
      eexists; (split; [reflexivity|]); simpl; rewrite ?Ho2, ?app_nil_r;
      reflexivity.
  - destruct e as [cls msg|rc cmd err|c]; simpl;
      [| |exfalso; now apply (Hexit c)];
      eexists; (split; [reflexivity|]); simpl; rewrite Ho2; reflexivity.
Qed.

End Output.

(** C3, as stated, fails: a run with no flags in which configure and
    build both succeed raises nothing and prints nothing. *)
Lemma main_prints_nothing_after_build :
  let w := sample_world (Some settings_proj) [] in
  exists w',
    @main (stub 0 0) w = (Ok tt, w')
    /\ spawns (trace w')
       = [(["cmake"; "-S"; "/proj"; "-B"; "/proj/build"], 0%Z);
          (["cmake"; "--build"; "/proj/build"; "--target"; "all"], 0%Z)]
    /\ stdout w = []
    /\ stdout w' = [].
Proof.
  eexists. split; [vm_compute; reflexivity|]. repeat split.
Qed.

Lemma main_output_witness :
  let w := sample_world (Some settings_home_only) [] in
  stub_parse (sys_argv w) no_flags = Parsed no_flags
  /\ debug no_flags = false
  /\ exists w',
       @main (stub 0 0) w = (Ok tt, w')
       /\ stdout w' = stdout w ++ ["C Project Builder: 'BuildDirectory'"].
Proof.
  intros w.
  assert (Hp : stub_parse (sys_argv w) no_flags = Parsed no_flags)
    by reflexivity.
  split; [exact Hp|]. split; [reflexivity|].
  destruct (@main_output (stub 0 0) w no_flags Hp eq_refl) as (w' & Hm & Hout).
  exists w'. split; [exact Hm|].
  vm_compute in Hout. vm_compute. exact Hout.
Defined.

(** C6, as stated, fails: with [--clean] and neither [-c] nor [-b] the
    controls ask for configure and build, and the run cleans the build
    directory and returns; neither of the two is attempted. *)
Lemma clean_run_attempts_neither :
  let w := sample_world (Some settings_proj) ["--clean"] in
  let start := ProjectBuilder.__init__ (module_file w) in
  exists a app w',
    stub_parse (sys_argv w) no_flags = Parsed a
    /\ configure a = false
    /\ build a = false
    /\ bind (@ProjectBuilder.Setup (stub 0 0))
         (fun _ => @ProjectBuilder.Run (stub 0 0)) (start, w)
       = (Ok tt, (app, w'))
    /\ ProjectBuilder.doConfiguration (ProjectBuilder.__controls app) = true
    /\ ProjectBuilder.doBuild (ProjectBuilder.__controls app) = true
    /\ trace w' = [EvRmtree ["proj"; "build"]; EvMkdir ["proj"; "build"]]
    /\ spawns (trace w') = []
    /\ cwd w' = cwd w.
Proof.
  do 3 eexists. split; [vm_compute; reflexivity|].
  split; [reflexivity|]. split; [reflexivity|].
  split; [vm_compute; reflexivity|].
  repeat split; vm_compute; reflexivity.
Qed.

Lemma Setup_then_Run_configures_then_builds_witness :
  let app := ProjectBuilder.__init__ "/opt/builder/build.py" in
  let w := sample_world (Some settings_proj) ["--verbose"; "demo"] in
  let a := mkNamespace "demo" false false true nil_str false nil_str false
             false in
  let res := @ProjectBuilder.Setup (stub 0 0) (app, w) in
  let cmake := Cmake.mk "/proj" (os_path.join "/proj" "build") in
  stub_parse (sys_argv w) no_flags = Parsed a
  /\ configure a = false
  /\ build a = false
  /\ clean a = false
  /\ create_settings a = false
  /\ (exists st,
        @BuildSetting.Load (stub 0 0)
          (ProjectBuilder.__setting res.2.1, res.2.2) = (Ok tt, (st, res.2.2))
        /\ BuildSetting.projectHome (BuildSetting.values st) = JStr "/proj"
        /\ BuildSetting.buildDirectory (BuildSetting.values st) = JStr "build")
  /\ checks_pass res.2.2 "/proj" "build" = true
  /\ spawns (trace (@ProjectBuilder.Run (stub 0 0) res.2).2.2)
     = [(["cmake"; "-S"; "/proj"; "-B"; "/proj/build"], 0%Z);
        (["cmake"; "--build"; "/proj/build"; "--target"; "demo"; "-v"], 0%Z)]
  /\ exists app1 w1,
       @ProjectBuilder.Setup (stub 0 0) (app, w) = (Ok tt, (app1, w1))
       /\ ProjectBuilder.doConfiguration (ProjectBuilder.__controls app1)
          = true
       /\ ProjectBuilder.doBuild (ProjectBuilder.__controls app1) = true
       /\ (clean a = false -> create_settings a = false ->
           forall st home dir,
             @BuildSetting.Load (stub 0 0)
               (ProjectBuilder.__setting app1, w1) = (Ok tt, (st, w1)) ->
             BuildSetting.projectHome (BuildSetting.values st) = JStr home ->
             BuildSetting.buildDirectory (BuildSetting.values st)
             = JStr dir ->
             checks_pass w1 home dir = true ->
             let cmake := Cmake.mk home (os_path.join home dir) in
             let app2 := ProjectBuilder.set_setting st app1 in
             @ProjectBuilder.Run (stub 0 0) (app1, w1)
             = match @Cmake.Configure (stub 0 0) cmake w1 with
               | (Ok true, w2) =>
                   match @Cmake.Build (stub 0 0) cmake (target a)
                           (Some (type a)) (verbose a)
                           (Some (split_on comma (cmake_args a))) w2 with
                   | (Ok _, w3) => (Ok tt, (app2, w3))
                   | (Raise e, w3) => (Raise e, (app2, w3))
                   end
               | (Ok false, w2) => (Ok tt, (app2, w2))
               | (Raise e, w2) => (Raise e, (app2, w2))
               end)
       /\ (clean a = true \/ create_settings a = true ->
           forall r app2 w2,
             @ProjectBuilder.Run (stub 0 0) (app1, w1) = (r, (app2, w2)) ->
             exists evs, trace w2 = trace w1 ++ evs /\ spawns evs = []).
Proof.
  intros app w a res cmake.
  assert (Hp : stub_parse (sys_argv w) no_flags = Parsed a)
    by (vm_compute; reflexivity).
  split; [exact Hp|]. split; [reflexivity|]. split; [reflexivity|].
  split; [reflexivity|]. split; [reflexivity|].
  split; [eexists; split; [vm_compute; reflexivity|split; reflexivity]|].
  split; [vm_compute; reflexivity|]. split; [vm_compute; reflexivity|].
  exact (@Setup_then_Run_configures_then_builds (stub 0 0) app w a Hp
           eq_refl eq_refl).
Defined.

Lemma Run_configure_before_build_witness :
  let w := sample_world (Some settings_proj) [] in
  let app := ProjectBuilder.set_controls
               (ProjectBuilder.mkControls true true false false false)
               (ProjectBuilder.set_arguments no_flags
                  (ProjectBuilder.__init__ (module_file w))) in
  let res := @ProjectBuilder.Run (stub 0 0) (app, w) in
  ProjectBuilder.doConfiguration (ProjectBuilder.__controls app) = true
  /\ ProjectBuilder.doBuild (ProjectBuilder.__controls app) = true
  /\ spawns (trace res.2.2)
     = [(["cmake"; "-S"; "/proj"; "-B"; "/proj/build"], 0%Z);
        (["cmake"; "--build"; "/proj/build"; "--target"; "all"], 0%Z)]
  /\ exists evs, trace res.2.2 = trace w ++ evs /\
       (spawns evs = []
        \/ exists cmake,
             (exists rc, spawns evs = [(configure_command cmake, rc)]
                         /\ (rc <> 0%Z \/ exists e, res.1 = Raise e))
             \/ (exists a rc,
                   ProjectBuilder.__arguments app = Some a
                   /\ spawns evs
                      = [(configure_command cmake, 0%Z);
                         (Cmake.Build_command cmake (target a)
                            (Some (type a)) (verbose a)
                            (Some (split_on comma (cmake_args a))), rc)])).
Proof.
  intros w app res.
  assert (Hrun : @ProjectBuilder.Run (stub 0 0) (app, w)
                 = (res.1, (res.2.1, res.2.2)))
    by (fold res; destruct res as [? [? ?]]; reflexivity).
  split; [reflexivity|]. split; [reflexivity|].
  split; [vm_compute; reflexivity|].
  exact (@Run_configure_before_build (stub 0 0) app res.2.1 w res.2.2 res.1
           eq_refl eq_refl Hrun).
Defined.

(** A configure command that fails is the only child of the run. *)
Lemma failed_configure_is_the_only_child :
  let w := sample_world (Some settings_proj) [] in
  exists w',
    @main (stub 1 0) w = (Ok tt, w')
    /\ spawns (trace w')
       = [(["cmake"; "-S"; "/proj"; "-B"; "/proj/build"], 1%Z)]
    /\ stdout w' = [].
Proof.
  eexists. split; [vm_compute; reflexivity|]. split; reflexivity.
Qed.

(** A path through [..] resolves before the tree is removed and no
    longer after: [Cleanup] removes the directory and raises in
    [os.mkdir]. *)
Lemma Cleanup_through_dotdot_raises :
  let w := sample_world (Some settings_proj) ["--clean"] in
  let cmake := Cmake.mk "/proj" "/proj/build/../build" in
  exists e w',
    Cmake.Cleanup cmake w = (Raise e, w')
    /\ resolve w (Cmake.__buildDirectory cmake) = Some ["proj"; "build"]
    /\ fs w' !! ["proj"; "build"] = None.
Proof.
  do 2 eexists. split; [vm_compute; reflexivity|].
  split; vm_compute; reflexivity.
Qed.

(** * Further properties of the script *)

(** ** Loading the settings *)

Section MoreSettings.
Context `{Platform}.

(** A settings file with both keys: [Load] stores the two values, keeps
    the path and leaves the process as it was; other keys are ignored. *)
Theorem Load_both_keys (s : BuildSetting.t) (w : World) (q : list string)
    (text : string) (members : list (string * json)) (home dir : json) :
  resolve w (BuildSetting.__path s) = Some q ->
  fs w !! q = Some (File text) ->
  json_load text = inl (JObj members) ->
  assoc BuildSetting.Name.PROJECT_HOME members = Some home ->
  assoc BuildSetting.Name.BUILD_DIR members = Some dir ->
  BuildSetting.Load (s, w)
  = (Ok tt,
     (BuildSetting.mk (BuildSetting.mkValues dir home) (BuildSetting.__path s),
      w)).
Proof.
  intros Hq Hf Hj Hh Hd. rewrite (Load_reads s w q text members Hq Hf Hj).
  rewrite Hh, Hd. reflexivity.
Qed.

Ltac load_steps Hq Hf Hj :=
  unfold BuildSetting.Load, BuildSetting.__import, os.path_exists,
    os.exists_in, read_file;
  run_m; repeat (rewrite ?Hq, ?Hf, ?Hj; simpl).

(** A settings file that is not JSON: [Load] raises the decoder's
    error and changes neither the store nor the process. *)
Theorem Load_invalid_json (s : BuildSetting.t) (w : World) (q : list string)
    (text msg : string) :
  resolve w (BuildSetting.__path s) = Some q ->
  fs w !! q = Some (File text) ->
  json_load text = inr msg ->
  BuildSetting.Load (s, w) = (Raise (Error JSONDecodeError msg), (s, w)).
Proof.
  intros Hq Hf Hj. load_steps Hq Hf Hj. destruct s; reflexivity.
Qed.

(** A settings file that is JSON but not an object (a list, a string, a
    number, [true], [null]): [Load] raises a [TypeError] at the first
    subscript and changes neither the store nor the process. *)
Theorem Load_not_an_object (s : BuildSetting.t) (w : World) (q : list string)
    (text : string) (v : json) :
  resolve w (BuildSetting.__path s) = Some q ->
  fs w !! q = Some (File text) ->
  json_load text = inl v ->
  (forall members, v <> JObj members) ->
  exists msg,
    BuildSetting.Load (s, w) = (Raise (Error TypeError msg), (s, w)).
Proof.
  intros Hq Hf Hj Hv. load_steps Hq Hf Hj.
  destruct s; destruct v; simpl; eauto. now destruct (Hv members).
Qed.

(** Whatever the settings file holds, [Load] changes nothing in the
    process and keeps the path of the store. *)
Theorem Load_leaves_the_process (s : BuildSetting.t) (w : World) :
  (BuildSetting.Load (s, w)).2.2 = w
  /\ BuildSetting.__path (BuildSetting.Load (s, w)).2.1
     = BuildSetting.__path s.
Proof.
  destruct (Load_world s w) as (r & s' & -> & Hp). split; [reflexivity|exact Hp].
Qed.

(** The settings path directly at a directory that is something other
    than a file. *)
Theorem Load_directory_at_settings_path (s : BuildSetting.t) (w : World)
    (q : list string) :
  resolve w (BuildSetting.__path s) = Some q ->
  fs w !! q = Some Dir ->
  exists msg,
    BuildSetting.Load (s, w) = (Raise (Error IsADirectoryError msg), (s, w)).
Proof.
  intros Hq Hf.
  unfold BuildSetting.Load, BuildSetting.__import, os.path_exists,
    os.exists_in, read_file.
  run_m. repeat (rewrite ?Hq, ?Hf; simpl). destruct s. eauto.
Qed.

(** What [Create] writes, [Load] reads back, when the JSON decoder
    reads the dump of the template as the template: the project home is
    [.] and the build directory [build]. *)
Theorem Create_then_Load (v : BuildSetting.Values) (directory : string)
    (w : World) (q : list string) :
  let s := BuildSetting.mk v
             (os_path.join directory BuildSetting.FILE_NAME) in
  json_load (json_dump_indent2 BuildSetting.__TEMPLATE)
  = inl BuildSetting.__TEMPLATE ->
  resolve w (BuildSetting.__path s) = Some q ->
  fs w !! q = None ->
  exists w1,
    BuildSetting.Create (s, w) = (Ok tt, (s, w1))
    /\ BuildSetting.Load (s, w1)
       = (Ok tt,
          (BuildSetting.mk (BuildSetting.mkValues (JStr "build") (JStr "."))
             (BuildSetting.__path s), w1)).
Proof.
  intros s Hlaw Hq Hnone.
  destruct (settings_path_names_entry directory) as [Et Hname].
  rewrite (Create_absent s w q Hq Hnone Et Hname).
  eexists. split; [reflexivity|].
  erewrite (Load_reads _ _ q _
              [("ProjectHome", JStr "."); ("BuildDirectory", JStr "build")]);
    [reflexivity| | |exact Hlaw].
  - rewrite resolve_after_write by (rewrite Hnone; discriminate). exact Hq.
  - simpl. apply lookup_insert_eq.
Qed.

End MoreSettings.

Lemma Load_both_keys_witness :
  let w := sample_world (Some settings_proj) [] in
  let s := BuildSetting.__init__ "/opt/builder" in
  let members := [("ProjectHome", JStr "/proj"); ("BuildDirectory", JStr "build")] in
  resolve w (BuildSetting.__path s) = Some settings_path
  /\ fs w !! settings_path = Some (File (stub_json_dump settings_proj))
  /\ stub_json_load (stub_json_dump settings_proj) = inl (JObj members)
  /\ @BuildSetting.Load (stub 0 0) (s, w)
     = (Ok tt,
        (BuildSetting.mk (BuildSetting.mkValues (JStr "build") (JStr "/proj"))
           (BuildSetting.__path s), w)).
Proof.
  intros w s members.
  assert (Hq : resolve w (BuildSetting.__path s) = Some settings_path)
    by (vm_compute; reflexivity).
  assert (Hf : fs w !! settings_path
               = Some (File (stub_json_dump settings_proj)))
    by (vm_compute; reflexivity).
  assert (Hj : stub_json_load (stub_json_dump settings_proj)
               = inl (JObj members)) by (vm_compute; reflexivity).
  repeat (split; [assumption|]).
  exact (@Load_both_keys (stub 0 0) s w settings_path _ members
           (JStr "/proj") (JStr "build") Hq Hf Hj eq_refl eq_refl).
Defined.

Lemma Load_invalid_json_witness :
  let w := sample_world_with "{oops" [] in
  let s := BuildSetting.__init__ "/opt/builder" in
  resolve w (BuildSetting.__path s) = Some settings_path
  /\ fs w !! settings_path = Some (File "{oops")
  /\ stub_json_load "{oops" = inr "Expecting value: line 1 column 1 (char 0)"
  /\ @BuildSetting.Load (stub 0 0) (s, w)
     = (Raise (Error JSONDecodeError
                 "Expecting value: line 1 column 1 (char 0)"), (s, w)).
Proof.
  intros w s.
  assert (Hq : resolve w (BuildSetting.__path s) = Some settings_path)
    by (vm_compute; reflexivity).
  assert (Hf : fs w !! settings_path = Some (File "{oops"))
    by (vm_compute; reflexivity).
  assert (Hj : stub_json_load "{oops"
               = inr "Expecting value: line 1 column 1 (char 0)")
    by (vm_compute; reflexivity).
  repeat (split; [assumption|]).
  exact (@Load_invalid_json (stub 0 0) s w settings_path _ _ Hq Hf Hj).
Defined.

Lemma Load_not_an_object_witness :
  let w := sample_world_with "[]" [] in
  let s := BuildSetting.__init__ "/opt/builder" in
  resolve w (BuildSetting.__path s) = Some settings_path
  /\ fs w !! settings_path = Some (File "[]")
  /\ load_odd "[]" = inl (JArr [])
  /\ exists msg,
       @BuildSetting.Load (stub_loading load_odd 0 0) (s, w)
       = (Raise (Error TypeError msg), (s, w)).
Proof.
  intros w s.
  assert (Hq : resolve w (BuildSetting.__path s) = Some settings_path)
    by (vm_compute; reflexivity).
  assert (Hf : fs w !! settings_path = Some (File "[]"))
    by (vm_compute; reflexivity).
  assert (Hj : load_odd "[]" = inl (JArr [])) by reflexivity.
  repeat (split; [assumption|]).
  apply (@Load_not_an_object (stub_loading load_odd 0 0) s w settings_path
           "[]" (JArr []) Hq Hf Hj).
  discriminate.
Defined.

Lemma Load_directory_at_settings_path_witness :
  let w := mkWorld ["home"; "user"; "work"] (Some "/home/user")
             (<[settings_path := Dir]> (list_to_map sample_tree))
             [] [] false "/opt/builder/build.py" [] in
  let s := BuildSetting.__init__ "/opt/builder" in
  resolve w (BuildSetting.__path s) = Some settings_path
  /\ fs w !! settings_path = Some Dir
  /\ exists msg,
       @BuildSetting.Load (stub 0 0) (s, w)
       = (Raise (Error IsADirectoryError msg), (s, w)).
Proof.
  intros w s.
  assert (Hq : resolve w (BuildSetting.__path s) = Some settings_path)
    by (vm_compute; reflexivity).
  assert (Hf : fs w !! settings_path = Some Dir) by (vm_compute; reflexivity).
  repeat (split; [assumption|]).
  exact (@Load_directory_at_settings_path (stub 0 0) s w settings_path Hq Hf).
Defined.

Lemma Create_then_Load_witness :
  let w := sample_world None ["--create-settings"] in
  let s := BuildSetting.mk (BuildSetting.mkValues (JStr nil_str) (JStr nil_str))
             (os_path.join "/opt/builder" BuildSetting.FILE_NAME) in
  stub_json_load (stub_json_dump BuildSetting.__TEMPLATE)
  = inl BuildSetting.__TEMPLATE
  /\ resolve w (BuildSetting.__path s) = Some settings_path
  /\ fs w !! settings_path = None
  /\ exists w1,
       @BuildSetting.Create (stub 0 0) (s, w) = (Ok tt, (s, w1))
       /\ @BuildSetting.Load (stub 0 0) (s, w1)
          = (Ok tt,
             (BuildSetting.mk
                (BuildSetting.mkValues (JStr "build") (JStr "."))
                (BuildSetting.__path s), w1)).
Proof.
  intros w s.
  assert (Hj : stub_json_load (stub_json_dump BuildSetting.__TEMPLATE)
               = inl BuildSetting.__TEMPLATE) by (vm_compute; reflexivity).
  assert (Hq : resolve w (BuildSetting.__path s) = Some settings_path)
    by (vm_compute; reflexivity).
  assert (Hf : fs w !! settings_path = None) by (vm_compute; reflexivity).
  repeat (split; [assumption|]).
  exact (@Create_then_Load (stub 0 0) _ "/opt/builder" w settings_path
           Hj Hq Hf).
Defined.

(** ** Running cmake *)

Section MoreRunner.
Context `{Platform}.

(** [RunSimply] returns the exit code of every child that ran, zero or
    not, and records the child; it raises only when the program could
    not be started, and then nothing is recorded. *)
Theorem RunSimply_returns_every_code (command : list string) (w : World) :
  (forall rc after err,
     execve command (cwd w) (fs w) = Exited rc after err ->
     SubProcessWrapper.RunSimply command w
     = (Ok rc, set_trace (trace w ++ [EvSpawn command (cwd w) rc])
                 (set_fs after w)))
  /\ (forall cls msg,
        execve command (cwd w) (fs w) = NotStarted cls msg ->
        SubProcessWrapper.RunSimply command w = (Raise (Error cls msg), w)).
Proof.
  split; intros; rewrite RunSimply_run; match goal with
  | E : execve _ _ _ = _ |- _ => rewrite E
  end; reflexivity.
Qed.

End MoreRunner.

(** ** The build command *)

Lemma split_on_one_empty (sep : ascii) (s : string) :
  split_on sep s = [nil_str] -> s = nil_str.
Proof.
  destruct s as [|c r]; [reflexivity|]. simpl.
  destruct (split_on_cons sep r) as (h & t & ->).
  destruct (Ascii.eqb c sep); discriminate.
Qed.

(** What [--cmake-args] adds to the build command: nothing when the
    option is empty (or absent), and otherwise every field between
    commas, the empty ones included. *)
Theorem Build_command_cmake_args (self : Cmake.t) (tgt : string)
    (bt : option string) (v : bool) (s : string) :
  Cmake.Build_command self tgt bt v (Some (split_on comma s))
  = Cmake.Build_command self tgt bt v None
    ++ (if String.eqb s nil_str then [] else split_on comma s).
Proof.
  unfold Cmake.Build_command.
  destruct (String.eqb s nil_str) eqn:E.
  - apply String.eqb_eq in E as ->. simpl. now rewrite app_nil_r.
  - destruct (split_on_cons comma s) as (h & t & Hs).
    rewrite bool_decide_eq_false_2 by (rewrite Hs; discriminate).
    rewrite bool_decide_eq_false_2.
    + reflexivity.
    + intros Hone. apply split_on_one_empty in Hone. subst s. discriminate.
Qed.

(** Joining with commas and splitting again gives the list back, for a
    list that is not empty and whose elements have no comma. *)
Lemma split_join (l : list string) :
  l <> [] ->
  Forall (fun x => split_on comma x = [x]) l ->
  split_on comma (join_with "," l) = l.
Proof.
  intros Hne Hall. induction Hall as [|x l Hx Hall IH]; [congruence|].
  destruct l as [|y r]; [exact Hx|].
  change (join_with "," (x :: y :: r))
    with (x +:+ String comma (join_with "," (y :: r))).
  rewrite split_on_sep_app, Hx, IH by discriminate. reflexivity.
Qed.

(** Arguments given as [--cmake-args=a,b,...] reach the build command
    as they are, in order, after everything else. *)
Theorem Build_command_passes_arguments (self : Cmake.t) (tgt : string)
    (bt : option string) (v : bool) (l : list string) :
  l <> [] ->
  l <> [nil_str] ->
  Forall (fun x => split_on comma x = [x]) l ->
  Cmake.Build_command self tgt bt v
    (Some (split_on comma (join_with "," l)))
  = Cmake.Build_command self tgt bt v None ++ l.
Proof.
  intros Hne Hone Hall. rewrite Build_command_cmake_args.
  rewrite (split_join l Hne Hall).
  destruct (String.eqb _ nil_str) eqn:E; [|reflexivity].
  apply String.eqb_eq in E.
  assert (Hs := split_join l Hne Hall). rewrite E in Hs. simpl in Hs.
  congruence.
Qed.

Lemma Build_command_passes_arguments_witness :
  let l := ["-j"; "4"] in
  l <> [] /\ l <> [nil_str]
  /\ Forall (fun x => split_on comma x = [x]) l
  /\ join_with "," l = "-j,4"
  /\ Cmake.Build_command sample_cmake "all" (Some nil_str) false
       (Some (split_on comma (join_with "," l)))
     = ["cmake"; "--build"; "/proj/build"; "--target"; "all"; "-j"; "4"].
Proof.
  intros l.
  assert (Hne : l <> []) by discriminate.
  assert (Hone : l <> [nil_str]) by discriminate.
  assert (Hall : Forall (fun x => split_on comma x = [x]) l)
    by (repeat constructor).
  split; [exact Hne|]. split; [exact Hone|]. split; [exact Hall|].
  split; [reflexivity|].
  exact (Build_command_passes_arguments sample_cmake "all" (Some nil_str)
           false l Hne Hone Hall).
Defined.

Lemma RunSimply_returns_every_code_witness :
  let w := sample_world (Some settings_proj) [] in
  let failing := ["cmake"; "-S"; "."] in
  let missing := ["ninja"] in
  stub_execve 2 0 failing (cwd w) (fs w) = Exited 2 (fs w) nil_str
  /\ stub_execve 2 0 missing (cwd w) (fs w)
     = NotStarted FileNotFoundError "[Errno 2] No such file or directory"
  /\ @SubProcessWrapper.RunSimply (stub 2 0) failing w
     = (Ok 2%Z, set_trace (trace w ++ [EvSpawn failing (cwd w) 2])
                  (set_fs (fs w) w))
  /\ @SubProcessWrapper.RunSimply (stub 2 0) missing w
     = (Raise (Error FileNotFoundError "[Errno 2] No such file or directory"),
        w).
Proof.
  intros w failing missing.
  split; [reflexivity|]. split; [reflexivity|]. split.
  - exact (proj1 (@RunSimply_returns_every_code (stub 2 0) failing w)
             2%Z (fs w) nil_str eq_refl).
  - exact (proj2 (@RunSimply_returns_every_code (stub 2 0) missing w)
             FileNotFoundError "[Errno 2] No such file or directory" eq_refl).
Defined.

(** ** Where the process is left *)

Lemma no_spawn_in (evs : list Event) (argv d : list string) (rc : Z) :
  spawns evs = [] -> In (EvSpawn argv d rc) evs -> False.
Proof.
  induction evs as [|[] evs IH]; simpl; intros Hs Hin;
    try discriminate; destruct Hin; try discriminate; auto.
Qed.

Section MoreDirectory.
Context `{Platform}.

Lemma resolve_absolute (w1 w2 : World) (p : string) :
  startswith_sep p = true -> fs w1 = fs w2 -> resolve w1 p = resolve w2 p.
Proof. intros Hp Hf. unfold resolve. now rewrite Hp, Hf. Qed.

(** What [Build] does, step by step, once the project home has been
    entered. *)
Lemma Build_after_Enter (self : Cmake.t) (tgt : string) (bt : option string)
    (v : bool) (extra : option (list string)) (w : World) :
  exists w0, only_printed w w0 /\
    Cmake.Build self tgt bt v extra w
    = match os.chdir (Some (Cmake.__projectHome self)) w0 with
      | (Ok _, w1) =>
          match execve (Cmake.Build_command self tgt bt v extra)
                  (cwd w1) (fs w1) with
          | Exited rc after _ =>
              let w2 := set_trace
                          (trace w1
                           ++ [EvSpawn (Cmake.Build_command self tgt bt v extra)
                                 (cwd w1) rc]) (set_fs after w1) in
              match os.chdir (OLDPWD w2) w2 with
              | (Ok _, w3) => (Ok (rc =? 0)%Z, w3)
              | (Raise e, w3) => (Raise e, w3)
              end
          | NotStarted cls msg => (Raise (Error cls msg), w1)
          end
      | (Raise e, w1) => (Raise e, w1)
      end.
Proof.
  unfold Cmake.Build, Cmake.__Enter, Cmake.__Exit, os.getenv_OLDPWD.
  unfold bind, ret, gets. cbv beta.
  destruct (Debug_Print_spec
              ("command: " +:+ str_list
                 (Cmake.Build_command self tgt bt v extra)) w)
    as (w0 & -> & Hp).
  exists w0. split; [exact Hp|].
  destruct (os.chdir (Some (Cmake.__projectHome self)) w0)
    as [[[]|e] w1]; [|reflexivity].
  rewrite RunSimply_run.
  destruct (execve _ _ _) as [rc after err|cls msg]; [|reflexivity].
  cbv zeta.
  destruct (rc =? 0)%Z;
    match goal with
    | |- context [os.chdir ?p ?x] =>
        destruct (os.chdir p x) as [[[]|e] w3]
    end; reflexivity.
Qed.

Lemma Configure_after_Enter (self : Cmake.t) (w : World) :
  exists w0, only_printed w w0 /\
    Cmake.Configure self w
    = match os.chdir (Some (Cmake.__projectHome self)) w0 with
      | (Ok _, w1) =>
          match execve (configure_command self) (cwd w1) (fs w1) with
          | Exited rc after _ =>
              let w2 := set_trace
                          (trace w1
                           ++ [EvSpawn (configure_command self) (cwd w1) rc])
                          (set_fs after w1) in
              if (rc =? 0)%Z then (Ok true, w2)
              else match os.chdir (OLDPWD w2) w2 with
                   | (Ok _, w3) => (Ok false, w3)
                   | (Raise e, w3) => (Raise e, w3)
                   end
          | NotStarted cls msg => (Raise (Error cls msg), w1)
          end
      | (Raise e, w1) => (Raise e, w1)
      end.
Proof.
  unfold Cmake.Configure, Cmake.__Enter, Cmake.__Exit, os.getenv_OLDPWD.
  unfold bind, ret, gets. cbv beta. fold (configure_command self).
  destruct (Debug_Print_spec
              ("command: " +:+ str_list (configure_command self)) w)
    as (w0 & -> & Hp).
  exists w0. split; [exact Hp|].
  destruct (os.chdir (Some (Cmake.__projectHome self)) w0)
    as [[[]|e] w1]; [|reflexivity].
  rewrite RunSimply_run.
  destruct (execve _ _ _) as [rc after err|cls msg]; [|reflexivity].
  cbv zeta.
  destruct (rc =? 0)%Z; [reflexivity|].
  match goal with
  | |- context [os.chdir ?p ?x] => destruct (os.chdir p x) as [[[]|e] w3]
  end; reflexivity.
Qed.

(** Without [OLDPWD] in the environment [Build] never returns: when it
    gets as far as running cmake, it raises afterwards, whatever the
    exit code. *)
Theorem Build_without_OLDPWD_raises (self : Cmake.t) (tgt : string)
    (bt : option string) (v : bool) (extra : option (list string))
    (w w' : World) (r : result bool) :
  OLDPWD w = None ->
  Cmake.Build self tgt bt v extra w = (r, w') ->
  exists cls msg, r = Raise (Error cls msg).
Proof.
  intros Hold.
  destruct (Build_after_Enter self tgt bt v extra w) as (w0 & Hp & ->).
  destruct Hp as (lines & -> & _).
  destruct (os.chdir _ _) as [[[]|e] w1] eqn:Ec.
  - apply chdir_cwd in Ec as (_ & _ & ->). simpl.
    destruct (execve _ _ _) as [rc after err|cls msg].
    + rewrite Hold. simpl. intros [= <- _]. eauto.
    + intros [= <- _]. eauto.
  - intros [= <- _]. unfold os.chdir in Ec.
    repeat inner_match_in Ec; simplify_eq; eauto.
Qed.

(** When [Build] returns, the process is in the directory that
    [OLDPWD] names (an absolute path, as a shell sets it), whatever the
    directory it was called from. *)
Theorem Build_returns_to_OLDPWD (self : Cmake.t) (tgt : string)
    (bt : option string) (v : bool) (extra : option (list string))
    (w w' : World) (b : bool) :
  Cmake.Build self tgt bt v extra w = (Ok b, w') ->
  exists old, OLDPWD w = Some old
    /\ fs w' !! cwd w' = Some Dir
    /\ (startswith_sep old = true -> resolve w' old = Some (cwd w')).
Proof.
  destruct (Build_after_Enter self tgt bt v extra w) as (w0 & Hp & ->).
  destruct Hp as (lines & -> & _).
  destruct (os.chdir _ _) as [[[]|e] w1] eqn:Ec; [|discriminate].
  apply chdir_cwd in Ec as (_ & _ & ->). simpl.
  destruct (execve _ _ _) as [rc after err|cls msg]; [|discriminate].
  destruct (OLDPWD w) as [old|] eqn:Hold; [|discriminate].
  destruct (os.chdir _ _) as [[[]|e] w3] eqn:Ex; [|discriminate].
  apply chdir_cwd in Ex as (Hr & Hd & Hw3). simpl in Hd.
  intros [= _ <-]. exists old. split; [reflexivity|]. split.
  - rewrite Hw3. exact Hd.
  - intros Habs. rewrite <- Hr. apply resolve_absolute; [exact Habs|].
    rewrite Hw3. reflexivity.
Qed.

(** cmake is started from the project home and nowhere else: the
    children of [Configure] and of [Build] have the command of the call
    and, as working directory, the place the project home resolves to
    from the directory of the caller. *)
Theorem children_run_in_project_home (self : Cmake.t) (tgt : string)
    (bt : option string) (v : bool) (extra : option (list string))
    (w : World) :
  (exists evs, trace (Cmake.Configure self w).2 = trace w ++ evs /\
     forall argv d rc, In (EvSpawn argv d rc) evs ->
       argv = configure_command self
       /\ resolve w (Cmake.__projectHome self) = Some d)
  /\ (exists evs,
        trace (Cmake.Build self tgt bt v extra w).2 = trace w ++ evs /\
        forall argv d rc, In (EvSpawn argv d rc) evs ->
          argv = Cmake.Build_command self tgt bt v extra
          /\ resolve w (Cmake.__projectHome self) = Some d).
Proof.
  split.
  - destruct (Configure_after_Enter self w) as (w0 & Hp & ->).
    destruct Hp as (lines & -> & _).
    destruct (os.chdir (Some (Cmake.__projectHome self)) _)
      as [[[]|e] w1] eqn:Ec.
    + apply chdir_cwd in Ec as (Hr & _ & ->). simpl in Hr.
      change (resolve (set_stdout (stdout w ++ lines) w))
        with (resolve w) in Hr.
      simpl.
      destruct (execve _ _ _) as [rc after err|cls msg]; simpl.
      * destruct (rc =? 0)%Z; simpl.
        -- trace_shape. intros argv d rc' [E|[E|[]]]; simplify_eq. auto.
        -- match goal with
           | |- context [os.chdir ?p ?x] =>
               destruct (os.chdir p x) as [r2 w2] eqn:Ex
           end.
           apply chdir_trace in Ex as (evs & Ht & Hs). simpl in Ht.
           destruct r2 as [[]|]; simpl; rewrite Ht; rewrite <- ?app_assoc;
             simpl; (eexists; split; [reflexivity|]);
             intros argv d rc' [E|[E|Hin]]; simplify_eq; auto;
             exfalso; exact (no_spawn_in evs _ _ _ Hs Hin).
      * trace_shape. intros argv d rc' [E|[]]; simplify_eq.
    + apply chdir_trace in Ec as (evs & Ht & Hs). simpl in Ht.
      simpl. exists evs. split; [exact Ht|].
      intros argv d rc' Hin. exfalso. exact (no_spawn_in evs _ _ _ Hs Hin).
  - destruct (Build_after_Enter self tgt bt v extra w) as (w0 & Hp & ->).
    destruct Hp as (lines & -> & _).
    destruct (os.chdir (Some (Cmake.__projectHome self)) _)
      as [[[]|e] w1] eqn:Ec.
    + apply chdir_cwd in Ec as (Hr & _ & ->). simpl in Hr.
      change (resolve (set_stdout (stdout w ++ lines) w))
        with (resolve w) in Hr.
      simpl.
      destruct (execve _ _ _) as [rc after err|cls msg]; simpl.
      * match goal with
        | |- context [os.chdir ?p ?x] =>
            destruct (os.chdir p x) as [r2 w2] eqn:Ex
        end.
        apply chdir_trace in Ex as (evs & Ht & Hs). simpl in Ht.
        destruct r2 as [[]|]; simpl; rewrite Ht; rewrite <- ?app_assoc; simpl;
          (eexists; split; [reflexivity|]);
          intros argv d rc' [E|[E|Hin]]; simplify_eq; auto;
          exfalso; exact (no_spawn_in evs _ _ _ Hs Hin).
      * trace_shape. intros argv d rc' [E|[]]; simplify_eq.
    + apply chdir_trace in Ec as (evs & Ht & Hs). simpl in Ht.
      simpl. exists evs. split; [exact Ht|].
      intros argv d rc' Hin. exfalso. exact (no_spawn_in evs _ _ _ Hs Hin).
Qed.

End MoreDirectory.

Lemma Build_without_OLDPWD_raises_witness :
  let w := mkWorld ["home"; "user"; "work"] None
             (sample_fs (Some settings_proj)) [] [] false
             "/opt/builder/build.py" [] in
  let res := @Cmake.Build (stub 0 0) sample_cmake "all" (Some nil_str) false
               (Some [nil_str]) w in
  OLDPWD w = None
  /\ spawns (trace res.2)
     = [(["cmake"; "--build"; "/proj/build"; "--target"; "all"], 0%Z)]
  /\ exists cls msg, res.1 = Raise (Error cls msg).
Proof.
  intros w res.
  split; [reflexivity|]. split; [vm_compute; reflexivity|].
  apply (@Build_without_OLDPWD_raises (stub 0 0) sample_cmake "all"
           (Some nil_str) false (Some [nil_str]) w res.2 res.1 eq_refl).
  apply surjective_pairing.
Defined.

Lemma Build_returns_to_OLDPWD_witness :
  let w := sample_world (Some settings_proj) [] in
  let res := @Cmake.Build (stub 3 3) sample_cmake "all" (Some nil_str) false
               (Some [nil_str]) w in
  res.1 = Ok false
  /\ cwd w = ["home"; "user"; "work"]
  /\ cwd res.2 = ["home"; "user"]
  /\ exists old, OLDPWD w = Some old
       /\ fs res.2 !! cwd res.2 = Some Dir
       /\ (startswith_sep old = true -> resolve res.2 old = Some (cwd res.2)).
Proof.
  intros w res.
  assert (Hres : @Cmake.Build (stub 3 3) sample_cmake "all" (Some nil_str)
                   false (Some [nil_str]) w = (Ok false, res.2))
    by (vm_compute; reflexivity).
  split; [vm_compute; reflexivity|]. split; [reflexivity|].
  split; [vm_compute; reflexivity|].
  exact (@Build_returns_to_OLDPWD (stub 3 3) sample_cmake "all"
           (Some nil_str) false (Some [nil_str]) w res.2 false Hres).
Defined.

Lemma Configure_true_cwd_witness :
  let w := sample_world (Some settings_proj) [] in
  let res := @Cmake.Configure (stub 0 0) sample_cmake w in
  res.1 = Ok true
  /\ resolve w (Cmake.__projectHome sample_cmake) = Some (cwd res.2)
  /\ cwd res.2 = ["proj"].
Proof.
  intros w res.
  assert (Hres : @Cmake.Configure (stub 0 0) sample_cmake w = (Ok true, res.2))
    by (vm_compute; reflexivity).
  split; [vm_compute; reflexivity|]. split.
  - exact (@Configure_true_cwd (stub 0 0) sample_cmake w res.2 Hres).
  - vm_compute; reflexivity.
Defined.

(** ** Short cuts and preconditions of a run *)

Section MoreRun.
Context `{Platform}.


Lemma set_setting_same (app : ProjectBuilder.t) :
  ProjectBuilder.set_setting (ProjectBuilder.__setting app) app = app.
Proof. destruct app; reflexivity. Qed.

(** Every run without [--create-settings] needs the settings file: if
    it is absent the run raises at once, whatever the other flags, and
    nothing has happened. *)
Theorem Run_needs_settings (app : ProjectBuilder.t) (w : World) :
  ProjectBuilder.createSetting (ProjectBuilder.__controls app) = false ->
  os.exists_in w (BuildSetting.__path (ProjectBuilder.__setting app)) = false ->
  ProjectBuilder.Run (app, w)
  = (Raise (Error RuntimeError "buildsettings.json does not exist."),
     (app, w)).
Proof.
  intros Hcreate Habs.
  destruct (Run_cases app w Hcreate) as (rl & st & El & Hcases).
  rewrite (Load_absent _ _ Habs) in El. injection El as <- <-.
  simpl in Hcases. now rewrite set_setting_same in Hcases.
Qed.

(** [--create-settings] with a settings file already there: nothing is
    written or read, and the run still reports that the file was
    created. *)
Theorem Run_create_settings_existing (app : ProjectBuilder.t) (w : World) :
  ProjectBuilder.createSetting (ProjectBuilder.__controls app) = true ->
  os.exists_in w (BuildSetting.__path (ProjectBuilder.__setting app)) = true ->
  ProjectBuilder.Run (app, w)
  = (Ok tt,
     (ProjectBuilder.set_response
        "Successfully created 'buildsettings.json'" app, w)).
Proof.
  intros Hcreate Hex. unfold os.exists_in in Hex.
  destruct (resolve w _) as [q|] eqn:Hq; [|discriminate].
  apply bool_decide_eq_true_1 in Hex.
  unfold ProjectBuilder.Run. run_m. rewrite Hcreate. simpl.
  rewrite (Create_present _ w q Hq Hex). simpl.
  destruct app; reflexivity.
Qed.

(** A settings value that is not a string (a number, a list, [null])
    stops the run with a [TypeError] before anything is looked up or
    started. *)
Theorem Run_setting_not_a_string (app : ProjectBuilder.t) (w : World)
    (st : BuildSetting.t) :
  ProjectBuilder.createSetting (ProjectBuilder.__controls app) = false ->
  BuildSetting.Load (ProjectBuilder.__setting app, w) = (Ok tt, (st, w)) ->
  (forall home,
     BuildSetting.projectHome (BuildSetting.values st) <> JStr home)
  \/ (forall dir,
        BuildSetting.buildDirectory (BuildSetting.values st) <> JStr dir) ->
  exists msg,
    ProjectBuilder.Run (app, w)
    = (Raise (Error TypeError msg), (ProjectBuilder.set_setting st app, w)).
Proof.
  intros Hcreate El Hnot.
  unfold ProjectBuilder.Run. run_m. rewrite Hcreate. simpl. rewrite El. simpl.
  unfold fspath.
  destruct (BuildSetting.projectHome (BuildSetting.values st)) as [| | |home| |];
    simpl; eauto.
  destruct Hnot as [Hh|Hd]; [now destruct (Hh home)|].
  destruct (BuildSetting.buildDirectory (BuildSetting.values st))
    as [| | |dir| |]; simpl; eauto.
  now destruct (Hd dir).
Qed.

(** [--create-settings] and [--clean] start no child process, whatever
    the other flags. *)
Theorem Run_short_cuts_start_nothing
    (app app' : ProjectBuilder.t) (w w' : World) (r : result unit) :
  ProjectBuilder.createSetting (ProjectBuilder.__controls app) = true
  \/ ProjectBuilder.doCleanup (ProjectBuilder.__controls app) = true ->
  ProjectBuilder.Run (app, w) = (r, (app', w')) ->
  exists evs, trace w' = trace w ++ evs /\ spawns evs = [].
Proof. apply short_cuts_spawn_nothing. Qed.

(** With the configure-only flag no build command is started: the
    children of the run are none, or the configure command alone. *)
Theorem Run_configure_only
    (app app' : ProjectBuilder.t) (w w' : World) (r : result unit) :
  ProjectBuilder.doConfiguration (ProjectBuilder.__controls app) = true ->
  ProjectBuilder.doBuild (ProjectBuilder.__controls app) = false ->
  ProjectBuilder.Run (app, w) = (r, (app', w')) ->
  exists evs, trace w' = trace w ++ evs /\
    (spawns evs = []
     \/ exists cmake rc, spawns evs = [(configure_command cmake, rc)]).
Proof.
  intros Hconf Hb Hrun.
  destruct (ProjectBuilder.createSetting (ProjectBuilder.__controls app))
    eqn:Hcreate;
    [destruct (short_cuts_spawn_nothing app app' w w' r (or_introl Hcreate)
                 Hrun) as (evs & ? & ?); eauto|].
  destruct (ProjectBuilder.doCleanup (ProjectBuilder.__controls app))
    eqn:Hclean;
    [destruct (short_cuts_spawn_nothing app app' w w' r (or_intror Hclean)
                 Hrun) as (evs & ? & ?); eauto|].
  destruct (Run_reaches_lifecycle app w Hcreate)
    as [(e & app1 & He)|(cmake & st & He)]; rewrite He in Hrun.
  - simplify_eq. trace_shape. auto.
  - unfold ProjectBuilder.Run_lifecycle in Hrun. run_m_in Hrun.
    rewrite Hclean, Hconf in Hrun. simpl in Hrun.
    destruct (Cmake.Configure cmake w) as [rc w1] eqn:Ec.
    apply Configure_spawns in Ec
      as (evs & Ht & [[Hs _]|[[Hs _]|(c & _ & Hs & _)]]);
      exists evs; (split; [|eauto]);
      destruct rc as [[]|]; simpl in Hrun; rewrite ?Hb in Hrun;
      simplify_eq; exact Ht.
Qed.

(** With the build-only flag no configure command is started: the
    children of the run are none, or the build command alone. *)
Theorem Run_build_only
    (app app' : ProjectBuilder.t) (w w' : World) (r : result unit) :
  ProjectBuilder.doConfiguration (ProjectBuilder.__controls app) = false ->
  ProjectBuilder.doBuild (ProjectBuilder.__controls app) = true ->
  ProjectBuilder.Run (app, w) = (r, (app', w')) ->
  exists evs, trace w' = trace w ++ evs /\
    (spawns evs = []
     \/ exists cmake a rc,
          ProjectBuilder.__arguments app = Some a
          /\ spawns evs
             = [(Cmake.Build_command cmake (target a) (Some (type a))
                   (verbose a) (Some (split_on comma (cmake_args a))), rc)]).
Proof.
  intros Hconf Hb Hrun.
  destruct (ProjectBuilder.createSetting (ProjectBuilder.__controls app))
    eqn:Hcreate;
    [destruct (short_cuts_spawn_nothing app app' w w' r (or_introl Hcreate)
                 Hrun) as (evs & ? & ?); eauto|].
  destruct (ProjectBuilder.doCleanup (ProjectBuilder.__controls app))
    eqn:Hclean;
    [destruct (short_cuts_spawn_nothing app app' w w' r (or_intror Hclean)
                 Hrun) as (evs & ? & ?); eauto|].
  destruct (Run_reaches_lifecycle app w Hcreate)
    as [(e & app1 & He)|(cmake & st & He)]; rewrite He in Hrun.
  - simplify_eq. trace_shape. auto.
  - unfold ProjectBuilder.Run_lifecycle, ProjectBuilder.arguments in Hrun.
    run_m_in Hrun. rewrite Hclean, Hconf in Hrun. simpl in Hrun.
    rewrite Hb in Hrun. simpl in Hrun.
    destruct (ProjectBuilder.__arguments app) as [a|] eqn:Ea; simpl in Hrun.
    + destruct (Cmake.Build _ _ _ _ _ _) as [rb w1] eqn:Eb.
      apply Build_spawns in Eb as (evs & Ht & [[Hs _]|[c Hs]]);
        exists evs; (split; [|eauto 10]);
        destruct rb; simplify_eq; exact Ht.
    + simplify_eq. trace_shape. auto.
Qed.

End MoreRun.


(** A build directory that was never made, in a project that is
    there. *)
Lemma Cleanup_never_made :
  let w := sample_world (Some settings_proj) ["--clean"] in
  Cmake.Cleanup (Cmake.mk "/proj" "/proj/out") w
  = (Raise (Error FileNotFoundError
              "[Errno 2] No such file or directory: '/proj/out'"), w).
Proof. vm_compute. reflexivity. Qed.

Lemma Run_needs_settings_witness :
  let w := sample_world None ["-b"] in
  let app := sample_app (ProjectBuilder.mkControls false true false false false)
               no_flags in
  ProjectBuilder.createSetting (ProjectBuilder.__controls app) = false
  /\ os.exists_in w (BuildSetting.__path (ProjectBuilder.__setting app)) = false
  /\ @ProjectBuilder.Run (stub 0 0) (app, w)
     = (Raise (Error RuntimeError "buildsettings.json does not exist."),
        (app, w)).
Proof.
  intros w app.
  assert (Habs : os.exists_in w
                   (BuildSetting.__path (ProjectBuilder.__setting app))
                 = false) by (vm_compute; reflexivity).
  split; [reflexivity|]. split; [exact Habs|].
  exact (@Run_needs_settings (stub 0 0) app w eq_refl Habs).
Defined.

Lemma Run_create_settings_existing_witness :
  let w := sample_world (Some settings_proj) ["--create-settings"] in
  let app := sample_app (ProjectBuilder.mkControls true true false true false)
               no_flags in
  ProjectBuilder.createSetting (ProjectBuilder.__controls app) = true
  /\ os.exists_in w (BuildSetting.__path (ProjectBuilder.__setting app)) = true
  /\ @ProjectBuilder.Run (stub 0 0) (app, w)
     = (Ok tt,
        (ProjectBuilder.set_response
           "Successfully created 'buildsettings.json'" app, w)).
Proof.
  intros w app.
  assert (Hex : os.exists_in w
                  (BuildSetting.__path (ProjectBuilder.__setting app))
                = true) by (vm_compute; reflexivity).
  split; [reflexivity|]. split; [exact Hex|].
  exact (@Run_create_settings_existing (stub 0 0) app w eq_refl Hex).
Defined.

Lemma Run_setting_not_a_string_witness :
  let w := sample_world_with "home-is-a-number" [] in
  let app := sample_app (ProjectBuilder.mkControls true true false false false)
               no_flags in
  let st := BuildSetting.mk (BuildSetting.mkValues (JStr "build") (JNum "5"))
              (BuildSetting.__path (ProjectBuilder.__setting app)) in
  ProjectBuilder.createSetting (ProjectBuilder.__controls app) = false
  /\ @BuildSetting.Load (stub_loading load_odd 0 0)
       (ProjectBuilder.__setting app, w) = (Ok tt, (st, w))
  /\ (forall home,
        BuildSetting.projectHome (BuildSetting.values st) <> JStr home)
  /\ exists msg,
       @ProjectBuilder.Run (stub_loading load_odd 0 0) (app, w)
       = (Raise (Error TypeError msg),
          (ProjectBuilder.set_setting st app, w)).
Proof.
  intros w app st.
  assert (El : @BuildSetting.Load (stub_loading load_odd 0 0)
                 (ProjectBuilder.__setting app, w) = (Ok tt, (st, w)))
    by (vm_compute; reflexivity).
  assert (Hn : forall home,
             BuildSetting.projectHome (BuildSetting.values st) <> JStr home)
    by (intros home; discriminate).
  split; [reflexivity|]. split; [exact El|]. split; [exact Hn|].
  exact (@Run_setting_not_a_string (stub_loading load_odd 0 0) app w st
           eq_refl El (or_introl Hn)).
Defined.

Lemma Run_short_cuts_start_nothing_witness :
  let w := sample_world (Some settings_proj) ["--clean"; "-c"] in
  let app := sample_app (ProjectBuilder.mkControls true false true false false)
               no_flags in
  let res := @ProjectBuilder.Run (stub 0 0) (app, w) in
  ProjectBuilder.doCleanup (ProjectBuilder.__controls app) = true
  /\ res.1 = Ok tt
  /\ trace res.2.2 = [EvRmtree ["proj"; "build"]; EvMkdir ["proj"; "build"]]
  /\ exists evs, trace res.2.2 = trace w ++ evs /\ spawns evs = [].
Proof.
  intros w app res.
  split; [reflexivity|]. split; [vm_compute; reflexivity|].
  split; [vm_compute; reflexivity|].
  apply (@Run_short_cuts_start_nothing (stub 0 0) app res.2.1 w res.2.2 res.1
           (or_intror eq_refl)).
  fold res. destruct res as [? [? ?]]; reflexivity.
Defined.

Lemma Run_configure_only_witness :
  let w := sample_world (Some settings_proj) ["-c"] in
  let app := sample_app (ProjectBuilder.mkControls true false false false false)
               no_flags in
  let res := @ProjectBuilder.Run (stub 0 0) (app, w) in
  ProjectBuilder.doConfiguration (ProjectBuilder.__controls app) = true
  /\ ProjectBuilder.doBuild (ProjectBuilder.__controls app) = false
  /\ spawns (trace res.2.2)
     = [(["cmake"; "-S"; "/proj"; "-B"; "/proj/build"], 0%Z)]
  /\ exists evs, trace res.2.2 = trace w ++ evs /\
       (spawns evs = []
        \/ exists cmake rc, spawns evs = [(configure_command cmake, rc)]).
Proof.
  intros w app res.
  split; [reflexivity|]. split; [reflexivity|].
  split; [vm_compute; reflexivity|].
  apply (@Run_configure_only (stub 0 0) app res.2.1 w res.2.2 res.1
           eq_refl eq_refl).
  fold res. destruct res as [? [? ?]]; reflexivity.
Defined.

Lemma Run_build_only_witness :
  let w := sample_world (Some settings_proj) ["-b"] in
  let app := sample_app (ProjectBuilder.mkControls false true false false false)
               no_flags in
  let res := @ProjectBuilder.Run (stub 0 0) (app, w) in
  ProjectBuilder.doConfiguration (ProjectBuilder.__controls app) = false
  /\ ProjectBuilder.doBuild (ProjectBuilder.__controls app) = true
  /\ spawns (trace res.2.2)
     = [(["cmake"; "--build"; "/proj/build"; "--target"; "all"], 0%Z)]
  /\ exists evs, trace res.2.2 = trace w ++ evs /\
       (spawns evs = []
        \/ exists cmake a rc,
             ProjectBuilder.__arguments app = Some a
             /\ spawns evs
                = [(Cmake.Build_command cmake (target a) (Some (type a))
                      (verbose a) (Some (split_on comma (cmake_args a))),
                    rc)]).
Proof.
  intros w app res.
  split; [reflexivity|]. split; [reflexivity|].
  split; [vm_compute; reflexivity|].
  apply (@Run_build_only (stub 0 0) app res.2.1 w res.2.2 res.1
           eq_refl eq_refl).
  fold res. destruct res as [? [? ?]]; reflexivity.
Defined.

(** ** What main lets through *)

Lemma tame_on_snd_any {X S A} (m : M S A) :
  tame (fun _ : S => True) m -> tame (fun _ : X * S => True) (on_snd m).
Proof. intros Hm. exact (tame_on_snd (fun _ => True) m Hm). Qed.

Lemma tame_zoom_any {X Y S A} (get : X -> Y) (set : Y -> X -> X)
    (m : M (Y * S) A) :
  tame (fun _ : Y * S => True) m ->
  tame (fun _ : X * S => True) (zoom get set m).
Proof. intros Hm. exact (tame_zoom (fun _ => True) get set m Hm). Qed.

Create HintDb calm.

Section Calm.
Context `{Platform}.

(** A primitive that does not raise [SystemExit]. *)
Ltac calm_primitive :=
  let w := fresh "w" in
  let c := fresh "c" in
  intros w _; split; [exact I|]; intros c; simpl; repeat inner_match;
  discriminate.

Lemma calm_Print (message : string) :
  tame (fun _ => True) (Debug.Print message).
Proof. unfold Debug.Print, print, modify. calm_primitive. Qed.

Lemma calm_chdir (p : option string) : tame (fun _ => True) (os.chdir p).
Proof. unfold os.chdir, raise. destruct p; calm_primitive. Qed.

Lemma calm_mkdir (p : string) : tame (fun _ => True) (os.mkdir p).
Proof. unfold os.mkdir. calm_primitive. Qed.

Lemma calm_rmtree (p : string) : tame (fun _ => True) (shutil.rmtree p).
Proof. unfold shutil.rmtree, rmdir. calm_primitive. Qed.

Lemma calm_read_file (p : string) : tame (fun _ => True) (read_file p).
Proof. unfold read_file. calm_primitive. Qed.

Lemma calm_write_file (p text : string) :
  tame (fun _ => True) (write_file p text).
Proof. unfold write_file. calm_primitive. Qed.

Lemma calm_RunSimply (command : list string) :
  tame (fun _ => True) (SubProcessWrapper.RunSimply command).
Proof.
  intros w _. rewrite RunSimply_run.
  destruct (execve _ _ _); (split; [exact I|discriminate]).
Qed.

Hint Resolve calm_Print calm_chdir calm_mkdir calm_rmtree calm_read_file
  calm_write_file calm_RunSimply tame_subscript tame_fspath
  tame_join_argument : calm.

Ltac calm_all :=
  repeat (first
    [ solve [auto with calm]
    | apply tame_on_snd_any | apply tame_zoom_any
    | apply tame_modify; intros; exact I
    | tame_step ]).

Lemma calm_Run :
  tame (fun _ : ProjectBuilder.t * World => True) ProjectBuilder.Run.
Proof.
  unfold ProjectBuilder.Run, ProjectBuilder.Run_lifecycle,
    ProjectBuilder.arguments, BuildSetting.Load, BuildSetting.__import,
    BuildSetting.Create, Cmake.__init__, Cmake.Cleanup, Cmake.Configure,
    Cmake.Build, Cmake.__Enter, Cmake.__Exit, os.getenv_OLDPWD,
    os.path_exists.
  calm_all.
  - destruct (json_load _); calm_all.
  - destruct (ProjectBuilder.__arguments _); calm_all.
Qed.

Lemma Setup_exit (app : ProjectBuilder.t) (w : World)
    (printed : list string) (code : Z) :
  parse_args (ProjectBuilder.__system app) (sys_argv w)
  = ParseExit printed code ->
  ProjectBuilder.Setup (app, w)
  = (Raise (SystemExit code), (app, set_stdout (stdout w ++ printed) w)).
Proof.
  intros Hp.
  unfold ProjectBuilder.Setup, Application.GetArguments, bind, gets, on_snd.
  cbn [fst snd]. rewrite Hp. reflexivity.
Qed.

(** [main] shows no traceback: it returns whenever the arguments parse,
    with debugging on or off and whatever [Run] meets; the one thing it
    lets through is the [SystemExit] of the argument parser, and then
    nothing but the parser's own output has happened. *)
Theorem main_raises_only_SystemExit (w : World) :
  match parse_args (ProjectBuilder.__system
                      (ProjectBuilder.__init__ (module_file w)))
          (sys_argv w) with
  | Parsed _ => exists w', main w = (Ok tt, w')
  | ParseExit printed code =>
      main w = (Raise (SystemExit code), set_stdout (stdout w ++ printed) w)
  end.
Proof.
  set (app := ProjectBuilder.__init__ (module_file w)).
  destruct (parse_args _ _) as [a|printed code] eqn:Hp.
  - destruct (Setup_run app w a Hp) as (w1 & Es & _).
    unfold main. fold app. rewrite main_try_run. unfold bind. rewrite Es.
    destruct (calm_Run (ProjectBuilder.set_controls
                (ProjectBuilder.verified
                   (ProjectBuilder.mkControls (configure a) (build a)
                      (clean a) (create_settings a) (debug a)))
                (ProjectBuilder.set_arguments a app), w1) I) as [_ Hexit].
    destruct (ProjectBuilder.Run _) as [[[]|e] [app2 w2]]; [eauto|].
    destruct e as [cls msg|rc cmd err|c]; simpl; eauto.
    exfalso. now apply (Hexit c).
  - unfold main. fold app. rewrite main_try_run.
    unfold bind at 1. rewrite (Setup_exit app w printed code Hp). reflexivity.
Qed.

End Calm.

(** ** The settings file is found from any directory *)

#[local] Arguments resolve : simpl never.

Section AnyDirectory.
Context `{Platform}.

Lemma join_absolute (directory name : string) :
  startswith_sep directory = true ->
  startswith_sep name = false ->
  startswith_sep (os_path.join directory name) = true.
Proof.
  intros Hd Hn. unfold os_path.join. rewrite Hn.
  destruct directory as [|c r]; [discriminate|].
  destruct (_ || _); exact Hd.
Qed.

Lemma Load_at (s : BuildSetting.t) (w : World) (q : list string) :
  resolve w (BuildSetting.__path s) = Some q ->
  BuildSetting.Load (s, w)
  = match fs w !! q with
    | Some (File text) =>
        match json_load text with
        | inl (JObj members) =>
            match assoc BuildSetting.Name.PROJECT_HOME members with
            | Some home =>
                match assoc BuildSetting.Name.BUILD_DIR members with
                | Some dir =>
                    (Ok tt, (BuildSetting.set_buildDirectory dir
                               (BuildSetting.set_projectHome home s), w))
                | None =>
                    (Raise (Error KeyError
                              (quoted BuildSetting.Name.BUILD_DIR)),
                     (BuildSetting.set_projectHome home s, w))
                end
            | None =>
                (Raise (Error KeyError
                          (quoted BuildSetting.Name.PROJECT_HOME)), (s, w))
            end
        | inl v => (Raise (Error TypeError (subscript_error v)), (s, w))
        | inr msg => (Raise (Error JSONDecodeError msg), (s, w))
        end
    | Some Dir =>
        (Raise (Error IsADirectoryError
                  (errno_msg "[Errno 21] Is a directory"
                     (BuildSetting.__path s))), (s, w))
    | None =>
        (Raise (Error RuntimeError "buildsettings.json does not exist."),
         (s, w))
    end.
Proof.
  intros Hq.
  destruct (fs w !! q) as [[text|]|] eqn:Hf.
  - destruct (json_load text) as [v|msg] eqn:Hj.
    + destruct v; try (rewrite (Load_reads s w q text _ Hq Hf Hj); reflexivity);
        unfold BuildSetting.Load, BuildSetting.__import, os.path_exists,
          os.exists_in, read_file;
        run_m; repeat (rewrite ?Hq, ?Hf, ?Hj; simpl); destruct s; reflexivity.
    + unfold BuildSetting.Load, BuildSetting.__import, os.path_exists,
        os.exists_in, read_file.
      run_m. repeat (rewrite ?Hq, ?Hf, ?Hj; simpl). destruct s; reflexivity.
  - unfold BuildSetting.Load, BuildSetting.__import, os.path_exists,
      os.exists_in, read_file.
    run_m. repeat (rewrite ?Hq, ?Hf; simpl). destruct s; reflexivity.
  - apply Load_absent. unfold os.exists_in. rewrite Hq, Hf. reflexivity.
Qed.

Lemma Load_same_lookup (s : BuildSetting.t) (w1 w2 : World) :
  resolve w1 (BuildSetting.__path s) = resolve w2 (BuildSetting.__path s) ->
  fs w1 = fs w2 ->
  (BuildSetting.Load (s, w1)).1 = (BuildSetting.Load (s, w2)).1
  /\ (BuildSetting.Load (s, w1)).2.1 = (BuildSetting.Load (s, w2)).2.1.
Proof.
  intros Hr Hf.
  destruct (resolve w2 (BuildSetting.__path s)) as [q|] eqn:Hq.
  - rewrite (Load_at s w1 q Hr), (Load_at s w2 q Hq), Hf.
    repeat inner_match; auto.
  - rewrite !Load_absent; [auto| |]; unfold os.exists_in;
      rewrite ?Hr, ?Hq; reflexivity.
Qed.

(** When the program lies at an absolute path, [Load] reads the same
    settings, or fails the same way, from whatever working directory it
    is called. *)
Theorem Load_from_any_directory (v : BuildSetting.Values)
    (directory : string) (w : World) (d : list string) :
  let s := BuildSetting.mk v
             (os_path.join directory BuildSetting.FILE_NAME) in
  startswith_sep directory = true ->
  BuildSetting.Load (s, set_cwd d w)
  = ((BuildSetting.Load (s, w)).1,
     ((BuildSetting.Load (s, w)).2.1, set_cwd d w)).
Proof.
  intros s Habs.
  assert (Hr : resolve (set_cwd d w) (BuildSetting.__path s)
               = resolve w (BuildSetting.__path s)).
  { apply resolve_absolute; [|reflexivity].
    now apply join_absolute. }
  destruct (Load_same_lookup s (set_cwd d w) w Hr eq_refl) as [H1 H2].
  destruct (Load_world s (set_cwd d w)) as (r & s' & E & _).
  rewrite E in H1, H2 |- *. simpl in H1, H2. now subst.
Qed.

End AnyDirectory.

Lemma Load_from_any_directory_witness :
  let w := sample_world (Some settings_proj) [] in
  let d := ["proj"; "build"] in
  let s := BuildSetting.mk (BuildSetting.mkValues (JStr nil_str) (JStr nil_str))
             (os_path.join "/opt/builder" BuildSetting.FILE_NAME) in
  startswith_sep "/opt/builder" = true
  /\ cwd w <> d
  /\ @BuildSetting.Load (stub 0 0) (s, set_cwd d w)
     = (Ok tt,
        (BuildSetting.mk (BuildSetting.mkValues (JStr "build") (JStr "/proj"))
           (BuildSetting.__path s), set_cwd d w)).
Proof.
  intros w d s.
  split; [reflexivity|]. split; [discriminate|].
  assert (E : @BuildSetting.Load (stub 0 0) (s, w)
              = (Ok tt,
                 (BuildSetting.mk
                    (BuildSetting.mkValues (JStr "build") (JStr "/proj"))
                    (BuildSetting.__path s), w)))
    by (vm_compute; reflexivity).
  assert (L := @Load_from_any_directory (stub 0 0)
                 (BuildSetting.mkValues (JStr nil_str) (JStr nil_str))
                 "/opt/builder" w d eq_refl).
  fold s in L. rewrite E in L. exact L.
Defined.

(** ** Entering the project home *)

Section Enter.
Context `{Platform}.

Lemma chdir_not_a_directory (p : string) (w : World) :
  (forall q, resolve w p = Some q -> fs w !! q <> Some Dir) ->
  exists e, os.chdir (Some p) w = (Raise e, w).
Proof.
  intros Hno. unfold os.chdir.
  destruct (resolve w p) as [q|]; [|eauto].
  specialize (Hno q eq_refl).
  destruct (fs w !! q) as [[t|]|]; eauto. congruence.
Qed.

(** cmake is not started when the project home, looked up from the
    working directory of the call, is not a directory: [Configure] and
    [Build] raise and leave no trace. *)
Theorem no_child_without_project_home (self : Cmake.t) (tgt : string)
    (bt : option string) (v : bool) (extra : option (list string))
    (w : World) :
  (forall q, resolve w (Cmake.__projectHome self) = Some q ->
             fs w !! q <> Some Dir) ->
  ((exists e, (Cmake.Configure self w).1 = Raise e)
   /\ trace (Cmake.Configure self w).2 = trace w
   /\ cwd (Cmake.Configure self w).2 = cwd w)
  /\ ((exists e, (Cmake.Build self tgt bt v extra w).1 = Raise e)
      /\ trace (Cmake.Build self tgt bt v extra w).2 = trace w
      /\ cwd (Cmake.Build self tgt bt v extra w).2 = cwd w).
Proof.
  intros Hno. split.
  - destruct (Configure_after_Enter self w) as (w0 & Hp & ->).
    destruct Hp as (lines & -> & _).
    destruct (chdir_not_a_directory (Cmake.__projectHome self)
                (set_stdout (stdout w ++ lines) w) Hno) as [e ->].
    simpl. eauto.
  - destruct (Build_after_Enter self tgt bt v extra w) as (w0 & Hp & ->).
    destruct Hp as (lines & -> & _).
    destruct (chdir_not_a_directory (Cmake.__projectHome self)
                (set_stdout (stdout w ++ lines) w) Hno) as [e ->].
    simpl. eauto.
Qed.

(** When the arguments parse, [Setup] returns; it stores them, sets the
    debug switch to the [--debug] flag, keeps the response and the
    settings store, and touches nothing else in the process; it prints
    only when [--debug] is given. *)
Theorem Setup_leaves_the_process (app : ProjectBuilder.t) (w : World)
    (a : Namespace) :
  parse_args (ProjectBuilder.__system app) (sys_argv w) = Parsed a ->
  exists app' lines,
    ProjectBuilder.Setup (app, w)
    = (Ok tt,
       (app', set_stdout (stdout w ++ lines) (set_Debug_enabled (debug a) w)))
    /\ (debug a = false -> lines = [])
    /\ ProjectBuilder.__arguments app' = Some a
    /\ ProjectBuilder.response app' = ProjectBuilder.response app
    /\ ProjectBuilder.__setting app' = ProjectBuilder.__setting app
    /\ ProjectBuilder.doCleanup (ProjectBuilder.__controls app') = clean a
    /\ ProjectBuilder.createSetting (ProjectBuilder.__controls app')
       = create_settings a
    /\ (ProjectBuilder.doConfiguration (ProjectBuilder.__controls app')
        || ProjectBuilder.doBuild (ProjectBuilder.__controls app')) = true.
Proof.
  intros Hp. destruct (Setup_run app w a Hp) as (w' & -> & (lines & -> & Hl)).
  do 2 eexists. split; [reflexivity|]. split; [exact Hl|].
  simpl. rewrite verified_createSetting, verified_doCleanup.
  repeat split. unfold ProjectBuilder.verified. simpl.
  destruct (configure a), (build a); reflexivity.
Qed.

End Enter.

Lemma no_child_without_project_home_witness :
  let w1 := (@Cmake.Configure (stub 0 0) relative_cmake relative_world).2 in
  (@Cmake.Configure (stub 0 0) relative_cmake relative_world).1 = Ok true
  /\ cwd w1 = ["home"; "user"; "work"; "proj"]
  /\ (forall q, resolve w1 (Cmake.__projectHome relative_cmake) = Some q ->
                fs w1 !! q <> Some Dir)
  /\ (exists e,
        (@Cmake.Build (stub 0 0) relative_cmake "all" (Some nil_str) false
           (Some [nil_str]) w1).1 = Raise e)
  /\ trace (@Cmake.Build (stub 0 0) relative_cmake "all" (Some nil_str) false
              (Some [nil_str]) w1).2 = trace w1.
Proof.
  intros w1.
  assert (Hno : forall q,
             resolve w1 (Cmake.__projectHome relative_cmake) = Some q ->
             fs w1 !! q <> Some Dir).
  { intros q Hq. vm_compute in Hq. injection Hq as <-.
    vm_compute. discriminate. }
  split; [vm_compute; reflexivity|]. split; [vm_compute; reflexivity|].
  split; [exact Hno|].
  destruct (@no_child_without_project_home (stub 0 0) relative_cmake "all"
              (Some nil_str) false (Some [nil_str]) w1 Hno)
    as [_ (He & Ht & _)].
  split; [exact He|exact Ht].
Defined.

Lemma Setup_leaves_the_process_witness :
  let app := ProjectBuilder.__init__ "/opt/builder/build.py" in
  let w := sample_world (Some settings_proj) ["-c"; "--clean"] in
  let a := mkNamespace "all" true false false nil_str true nil_str false
             false in
  stub_parse (sys_argv w) no_flags = Parsed a
  /\ exists app' lines,
       @ProjectBuilder.Setup (stub 0 0) (app, w)
       = (Ok tt,
          (app',
           set_stdout (stdout w ++ lines) (set_Debug_enabled (debug a) w)))
       /\ (debug a = false -> lines = [])
       /\ ProjectBuilder.__arguments app' = Some a
       /\ ProjectBuilder.response app' = ProjectBuilder.response app
       /\ ProjectBuilder.__setting app' = ProjectBuilder.__setting app
       /\ ProjectBuilder.doCleanup (ProjectBuilder.__controls app') = clean a
       /\ ProjectBuilder.createSetting (ProjectBuilder.__controls app')
          = create_settings a
       /\ (ProjectBuilder.doConfiguration (ProjectBuilder.__controls app')
           || ProjectBuilder.doBuild (ProjectBuilder.__controls app')) = true.
Proof.
  intros app w a.
  assert (Hp : stub_parse (sys_argv w) no_flags = Parsed a)
    by (vm_compute; reflexivity).
  split; [exact Hp|].
  exact (@Setup_leaves_the_process (stub 0 0) app w a Hp).
Defined.
